(** * Catawiki URL crawler: a shallow embedding of [db/oxylab2.py] and
    [db/db_operations.py], with the properties of its resumable crawl engine.

    Python values decoded from JSON are modelled by [pyval]; exceptions by
    the [result] type; the search provider, the database connection, the
    file system and the clock are oracles of an [Env]; everything the crawler
    does to the outside world is appended to a trace of [Event]s. *)

From Stdlib Require Import ZArith Lia Ascii String.
From stdpp Require Import gmap strings list fin_maps.

Open Scope string_scope.
Open Scope Z_scope.

(** ** Exceptions and fallible computations *)

Inductive exn :=
| AttributeError | IndexError | KeyError | TypeError | ValueError
| RequestException      (* requests.RequestException and its subclasses *)
| OtherException        (* any other subclass of Exception *)
| KeyboardInterrupt.    (* a BaseException, not an Exception *)

Global Instance exn_eq_dec : EqDecision exn.
Proof. solve_decision. Defined.

Inductive result (A : Type) :=
| Return (a : A)
| Raise (e : exn).
Arguments Return {A} a.
Arguments Raise {A} e.

Global Instance result_ret : MRet result := fun _ a => Return a.
Global Instance result_bind : MBind result := fun _ _ f m =>
  match m with
  | Return a => f a
  | Raise e => Raise e
  end.

(** [except Exception] catches everything but [KeyboardInterrupt]. *)
Definition is_Exception (e : exn) : bool :=
  bool_decide (e ≠ KeyboardInterrupt).

(** [try: body except (e1, ..., en): handler]. *)
Definition try_except {A} (body : result A) (caught : list exn)
    (handler : exn -> result A) : result A :=
  match body with
  | Return a => Return a
  | Raise e => if bool_decide (e ∈ caught) then handler e else Raise e
  end.

(** ** Python values, as decoded from a JSON body

    Numbers are integers; JSON numbers with a fraction are outside the
    model. A dict is the list of its items, looked up by the first match. *)

#[local] Set Warnings "-register-all".
Inductive pyval :=
| PNone
| PBool (b : bool)
| PInt (n : Z)
| PStr (s : string)
| PList (l : list pyval)
| PDict (items : list (string * pyval)).

Fixpoint items_lookup (key : string) (items : list (string * pyval)) : option pyval :=
  match items with
  | [] => None
  | (k, v) :: rest => if bool_decide (k = key) then Some v else items_lookup key rest
  end.

(** [v.get(key, default)]: only a dict has the method. *)
Definition py_get (v : pyval) (key : string) (dflt : pyval) : result pyval :=
  match v with
  | PDict items => Return (default dflt (items_lookup key items))
  | _ => Raise AttributeError
  end.

(** Truth value of a Python object ([if v:], [not v]). *)
Definition py_truthy (v : pyval) : bool :=
  match v with
  | PNone => false
  | PBool b => b
  | PInt n => negb (n =? 0)
  | PStr s => negb (bool_decide (s = EmptyString))
  | PList l => match l with [] => false | _ => true end
  | PDict items => match items with [] => false | _ => true end
  end.

(** [v[0]]. A dict decoded from JSON has string keys only, so the key [0]
    is never present. *)
Definition py_index0 (v : pyval) : result pyval :=
  match v with
  | PList (x :: _) => Return x
  | PList [] => Raise IndexError
  | PStr (String c _) => Return (PStr (String c EmptyString))
  | PStr EmptyString => Raise IndexError
  | PDict _ => Raise KeyError
  | PNone | PBool _ | PInt _ => Raise TypeError
  end.

(** ** Strings *)

Fixpoint startswith (p s : string) : bool :=
  match p, s with
  | EmptyString, _ => true
  | String a p', String b s' => bool_decide (a = b) && startswith p' s'
  | String _ _, EmptyString => false
  end.

(** [p in s] for strings. *)
Fixpoint contains (p s : string) : bool :=
  startswith p s ||
  match s with
  | EmptyString => false
  | String _ s' => contains p s'
  end.

(** [s.split(sep)[0]] for a one-character separator: the text before the
    first separator, the whole string when there is none. *)
Fixpoint split_head (sep : ascii) (s : string) : string :=
  match s with
  | EmptyString => EmptyString
  | String c s' => if bool_decide (c = sep) then EmptyString else String c (split_head sep s')
  end.

(** [s.replace(c, '')] for a one-character [c]. *)
Fixpoint remove_char (c : ascii) (s : string) : string :=
  match s with
  | EmptyString => EmptyString
  | String a s' => if bool_decide (a = c) then remove_char c s' else String a (remove_char c s')
  end.

(** White space as [str.strip] and [int] see it, within ASCII. *)
Definition is_space (c : ascii) : bool :=
  let n := nat_of_ascii c in
  ((9 <=? n) && (n <=? 13) || (28 <=? n) && (n <=? 32))%nat.

Fixpoint lstrip (s : string) : string :=
  match s with
  | EmptyString => EmptyString
  | String c s' => if is_space c then lstrip s' else s
  end.

Fixpoint rstrip (s : string) : string :=
  match s with
  | EmptyString => EmptyString
  | String c s' =>
      match rstrip s' with
      | EmptyString => if is_space c then EmptyString else String c EmptyString
      | r => String c r
      end
  end.

Definition strip (s : string) : string := rstrip (lstrip s).

Definition is_digit (c : ascii) : bool :=
  let n := nat_of_ascii c in ((48 <=? n) && (n <=? 57))%nat.

Definition digit_val (c : ascii) : Z := Z.of_nat (nat_of_ascii c) - 48.

(** The digits of a decimal literal after the sign: at least one digit,
    single underscores allowed between digits. [after_digit] tells whether
    the previous character was a digit. *)
Fixpoint int_digits (acc : Z) (after_digit : bool) (s : string) : option Z :=
  match s with
  | EmptyString => if after_digit then Some acc else None
  | String c s' =>
      if is_digit c then int_digits (10 * acc + digit_val c) true s'
      else if bool_decide (c = "_"%char) && after_digit then int_digits acc false s'
      else None
  end.

(** [int(s)] for a string, base 10: surrounding white space is dropped, one
    sign is allowed. Characters outside ASCII are not digits here.
    [ValueError] when the text is not a literal. *)
Definition py_int (s : string) : result Z :=
  let body := strip s in
  let parsed :=
    match body with
    | String "-" r => Z.opp <$> int_digits 0 false r
    | String "+" r => int_digits 0 false r
    | _ => int_digits 0 false body
    end in
  match parsed with
  | Some n => Return n
  | None => Raise ValueError
  end.

(** [int(str(total).replace(',', ''))]. [str] of an integer is its decimal
    numeral, which has no comma and which [int] reads back; [str] of [True],
    of a non-empty list and of a non-empty dict starts with a letter or a
    bracket, which [int] rejects. *)
Definition int_of_total (total : pyval) : result Z :=
  match total with
  | PInt n => Return n
  | PStr s => py_int (remove_char ","%char s)
  | PNone | PBool _ | PList _ | PDict _ => Raise ValueError
  end.

(** ** Result extraction ([oxylab2.py], lines 131-175) *)

Definition extract_results_from_oxylabs (data : pyval) : result pyval :=
  try_except
    (results ← py_get data "results" (PList []);
     if negb (py_truthy results) then Return (PList [])
     else
       first ← py_index0 results;
       content ← py_get first "content" (PDict []);
       inner ← py_get content "results" (PDict []);
       py_get inner "organic" (PList []))
    [IndexError; KeyError; TypeError]
    (fun _ => (* logger.warning *) Return (PList [])).

Definition extract_total_results (data : pyval) : result (option Z) :=
  try_except
    (results ← py_get data "results" (PList []);
     if negb (py_truthy results) then Return None
     else
       first ← py_index0 results;
       content ← py_get first "content" (PDict []);
       inner ← py_get content "results" (PDict []);
       search_info ← py_get inner "search_information" (PDict []);
       total ← py_get search_info "total_results_count" PNone;
       if py_truthy total then n ← int_of_total total; Return (Some n)
       else Return None)
    [IndexError; KeyError; ValueError; TypeError]
    (fun _ => Return None).

(** [isinstance(val, str) and val.startswith("http")] *)
Definition is_http_str (v : pyval) : option string :=
  match v with
  | PStr s => if startswith "http" s then Some s else None
  | _ => None
  end.

Definition extract_link_from_result (res : pyval) : result string :=
  v1 ← py_get res "url" PNone;
  match is_http_str v1 with
  | Some s => Return s
  | None =>
      v2 ← py_get res "link" PNone;
      match is_http_str v2 with
      | Some s => Return s
      | None => Return EmptyString
      end
  end.

(** ** Configuration ([oxylab2.py], lines 19-33) *)

Definition CHECKPOINT_FILE : string := "crawler_checkpoint.json".
Definition RESULTS_PER_PAGE : Z := 10.
Definition DEFAULT_MAX_START : Z := 3000.
Definition MAX_RETRIES : nat := 5.
Definition MAX_CONSECUTIVE_EMPTY : Z := 2.

(** ** The URL table ([db_operations.py])

    Table [url_collection] has a UNIQUE constraint on [url]: it is a finite
    map from the URL to the rest of the row (category, subcategory, others). *)

Abbreviation DB := (gmap string (string * string * string)).

(** What a database call meets: no connection ([get_connection] returned
    [None]), an exception while executing or committing, or success. *)
Inductive db_outcome := ConnFailed | ExecFailed | ExecOk.

Global Instance db_outcome_eq_dec : EqDecision db_outcome.
Proof. solve_decision. Defined.

(** [INSERT ... ON CONFLICT (url) DO NOTHING] *)
Definition insert_on_conflict_do_nothing (row : string * string * string)
    (url : string) (db : DB) : DB :=
  match db !! url with
  | Some _ => db
  | None => <[url := row]> db
  end.

(** [save_url], lines 23-42. The result is what the function hands to its
    caller: a returned boolean, or an exception. *)
Definition save_url (o : db_outcome) (category subcategory others url : string)
    (db : DB) : result bool * DB :=
  match o with
  | ConnFailed => (Return false, db)
  | ExecFailed => (Return false, db)       (* except Exception: return False *)
  | ExecOk =>
      (Return true, insert_on_conflict_do_nothing (category, subcategory, others) url db)
  end.

(** [load_saved_urls], lines 44-62. *)
Definition load_saved_urls (o : db_outcome) (category subcategory others : string)
    (db : DB) : gset string :=
  match o with
  | ExecOk => dom (filter (fun kv => kv.2 = (category, subcategory, others)) db)
  | ConnFailed | ExecFailed => ∅
  end.

(** [init_db], lines 4-21: no [try] around the statement. *)
Definition init_db (o : db_outcome) : result unit :=
  match o with
  | ExecFailed => Raise OtherException
  | ConnFailed | ExecOk => Return ()
  end.

(** ** The checkpoint record and its file *)

Record Checkpoint := mkCheckpoint {
  ck_sheet : string;
  ck_category : string;
  ck_subcategory : option string;
  ck_brand : option string;
  ck_start : Z;
  ck_page_num : Z;
  ck_timestamp : option string
}.

(** Files: path to content. *)
Abbreviation FS := (gmap string string).

(** The file-system operations a save performs, one at a time. *)
Inductive fs_op :=
| OpenTruncate (path : string)           (* open(path, "w") *)
| WriteChunk (path : string) (chunk : string)   (* f.write(chunk) inside json.dump *)
| Replace (src dst : string).            (* os.replace(src, dst), atomic *)

Definition fs_apply (fs : FS) (op : fs_op) : FS :=
  match op with
  | OpenTruncate p => <[p := EmptyString]> fs
  | WriteChunk p chunk =>
      match fs !! p with
      | Some old => <[p := old ++ chunk]> fs
      | None => fs
      end
  | Replace src dst =>
      match fs !! src with
      | Some content => <[dst := content]> (delete src fs)
      | None => fs
      end
  end.

Definition fs_run (ops : list fs_op) (fs : FS) : FS := foldl fs_apply fs ops.

Definition tmp_path : string := CHECKPOINT_FILE ++ ".tmp".

(** The operations of [save_checkpoint], lines 63-67, for the chunks that
    [json.dump(state, f, indent=2)] writes. *)
Definition save_checkpoint_ops (chunks : list string) : list fs_op :=
  OpenTruncate tmp_path :: (WriteChunk tmp_path <$> chunks) ++ [Replace tmp_path CHECKPOINT_FILE].

(** The body of the [try] of [save_checkpoint]: [fault = Some k] makes the
    [k]-th operation raise (disk full, permissions, ...), the operations
    before it having taken effect. *)
Definition write_checkpoint (fault : option nat) (chunks : list string) (fs : FS)
    : result unit * FS :=
  let ops := save_checkpoint_ops chunks in
  match fault with
  | Some k =>
      if (k <? length ops)%nat then (Raise OtherException, fs_run (take k ops) fs)
      else (Return (), fs_run ops fs)
  | None => (Return (), fs_run ops fs)
  end.

(** What is on disk when the process dies after [k] operations of a save. *)
Definition crash_during_save (k : nat) (chunks : list string) (fs : FS) : FS :=
  fs_run (take k (save_checkpoint_ops chunks)) fs.

(** ** The environment of a run *)

(** What one provider request comes to, after [raise_for_status] and
    [resp.json()]. *)
Inductive Response :=
| RespOk (data : pyval)
| RespRequestError        (* a requests.RequestException *)
| RespOtherError          (* an exception that is not a RequestException *)
| RespInterrupt.          (* KeyboardInterrupt while the call blocks *)

(** The ordered work list of a sheet, as [load_subcategories_from_excel]
    returns it: [(CATEGORY, SUBCATEGORIES, ROW_MAPPING)]. *)
Record WorkList := mkWorkList {
  wl_category : string;
  wl_subcategories : list (string * list string);
  wl_row_mapping : list (string * string * Z)
}.

Record Env := mkEnv {
  (** both OXYLABS_USERNAME and OXYLABS_PASSWORD are set *)
  credentials : bool;
  (** the [n]-th request to the provider, for a query and a 1-indexed page *)
  provider : nat -> string -> Z -> Response;
  (** the [n]-th database call *)
  db_conn : nat -> db_outcome;
  (** the fault, if any, of the [n]-th checkpoint save *)
  ck_fault : nat -> option nat;
  (** [datetime.utcnow().isoformat()] at the [n]-th checkpoint save *)
  utcnow : nat -> string;
  (** the chunks [json.dump(state, f, indent=2)] writes *)
  json_dump : Checkpoint -> list string;
  (** [json.load]; [None] when it raises *)
  json_load : string -> option Checkpoint;
  (** opening the checkpoint file for reading fails *)
  ck_unreadable : bool;
  (** [pd.ExcelFile(EXCEL_FILE).sheet_names]; [None] when it raises *)
  sheet_names : option (list string);
  (** [load_subcategories_from_excel]; [None] when it raises *)
  load_subcategories_from_excel : string -> option WorkList
}.

Inductive call_site := Probe | PageFetch.
Inductive save_site := BeforePage | PageInterrupted | UnitEnd | RunInterrupted.

Global Instance call_site_eq_dec : EqDecision call_site.
Proof. solve_decision. Defined.
Global Instance save_site_eq_dec : EqDecision save_site.
Proof. solve_decision. Defined.

(** The log lines that matter to the properties below. *)
Inductive LogLine :=
| LogCredentialsMissing                        (* line 183, error *)
| LogCheckpointReadFailed                      (* line 59 *)
| LogCheckpointSaveFailed                      (* line 72 *)
| LogSkipSubcategory (subcategory : string)    (* line 219 *)
| LogSkipBrand (brand : string)                (* line 242 *)
| LogResuming (brand : string) (page_num start : Z)   (* line 252 *)
| LogProbeFailed                               (* line 282 *)
| LogRequestError (attempt : nat) (start : Z)  (* line 301 *)
| LogSkippingStart (start : Z)                 (* line 305, error *)
| LogSaveUrlFailed (url : string)              (* line 327 *)
| LogStopEmpty (brand : string)                (* line 335 *)
| LogStopCeiling (max_start : Z)               (* line 341 *)
| LogBrandException (brand : string)           (* line 352 *)
| LogTotalFound (n : Z)                        (* line 379 *)
| LogSkipSheet (sheet : string)                (* line 393 *)
| LogSheetStopped (sheet : string)             (* line 401 *)
| LogFinished.                                 (* line 404 *)

(** What the crawler does to the outside world, in order. *)
Inductive Event :=
| EvRequest (site : call_site) (subcategory brand : string) (start : Z)
| EvSaveCheckpoint (site : save_site) (state : Checkpoint)
| EvSaveUrl (subcategory brand url : string) (saved : bool)
(** a page fetched and its results stored: the log line 329, "Page n | Found
    this page: k", together with the brand and the offset it is about *)
| EvPageDone (subcategory brand : string) (start page found : Z)
| EvLog (line : LogLine).

Record Stat := mkStat {
  stat_row : option Z;           (* None is "Unknown" *)
  stat_category : string;
  stat_subcategory : string;
  stat_brand : string;
  stat_pages : Z;
  stat_urls : Z
}.

(** The variables of [crawl] that outlive one brand, and the world. *)
Record State := mkState {
  ck : Checkpoint;
  skip_until_resume : bool;
  total_urls_found : Z;
  log_stats : list Stat;
  db : DB;
  fs : FS;
  n_requests : nat;
  n_db_calls : nat;
  n_saves : nat;
  trace : list Event
}.

Definition emit (e : Event) (s : State) : State :=
  mkState (ck s) (skip_until_resume s) (total_urls_found s) (log_stats s)
          (db s) (fs s) (n_requests s) (n_db_calls s) (n_saves s) (trace s ++ [e]).

Definition log (l : LogLine) (s : State) : State := emit (EvLog l) s.

Definition set_ck (c : Checkpoint) (s : State) : State :=
  mkState c (skip_until_resume s) (total_urls_found s) (log_stats s)
          (db s) (fs s) (n_requests s) (n_db_calls s) (n_saves s) (trace s).

Definition set_skip (b : bool) (s : State) : State :=
  mkState (ck s) b (total_urls_found s) (log_stats s)
          (db s) (fs s) (n_requests s) (n_db_calls s) (n_saves s) (trace s).

Definition set_total (n : Z) (s : State) : State :=
  mkState (ck s) (skip_until_resume s) n (log_stats s)
          (db s) (fs s) (n_requests s) (n_db_calls s) (n_saves s) (trace s).

Definition set_stats (l : list Stat) (s : State) : State :=
  mkState (ck s) (skip_until_resume s) (total_urls_found s) l
          (db s) (fs s) (n_requests s) (n_db_calls s) (n_saves s) (trace s).

Definition db_called (d : DB) (s : State) : State :=
  mkState (ck s) (skip_until_resume s) (total_urls_found s) (log_stats s)
          d (fs s) (n_requests s) (S (n_db_calls s)) (n_saves s) (trace s).

Definition file_saved (f : FS) (s : State) : State :=
  mkState (ck s) (skip_until_resume s) (total_urls_found s) (log_stats s)
          (db s) f (n_requests s) (n_db_calls s) (S (n_saves s)) (trace s).

Definition count_request (s : State) : State :=
  mkState (ck s) (skip_until_resume s) (total_urls_found s) (log_stats s)
          (db s) (fs s) (S (n_requests s)) (n_db_calls s) (n_saves s) (trace s).

(** ** Checkpoint load and save ([oxylab2.py], lines 53-72) *)

(** [save_checkpoint(state)], with what it hands to its caller. *)
Definition save_checkpoint_result (env : Env) (site : save_site) (state : Checkpoint)
    (s : State) : result unit * State :=
  let '(r, fs') := write_checkpoint (ck_fault env (n_saves s)) (json_dump env state) (fs s) in
  let s := file_saved fs' (emit (EvSaveCheckpoint site state) s) in
  match r with
  | Return _ => (Return (), s)
  | Raise e =>
      if is_Exception e then (Return (), log LogCheckpointSaveFailed s)
      else (Raise e, s)
  end.

Definition save_checkpoint (env : Env) (site : save_site) (state : Checkpoint)
    (s : State) : State :=
  (save_checkpoint_result env site state s).2.

(** [load_checkpoint()] *)
Definition load_checkpoint (env : Env) (s : State) : result (option Checkpoint) * State :=
  match fs s !! CHECKPOINT_FILE with
  | Some content =>
      let body : result Checkpoint :=
        if ck_unreadable env then Raise OtherException
        else match json_load env content with
             | Some c => Return c
             | None => Raise ValueError
             end in
      match body with
      | Return c => (Return (Some c), s)
      | Raise e =>
          if is_Exception e then (Return None, log LogCheckpointReadFailed s)
          else (Raise e, s)
      end
  | None => (Return None, s)
  end.

(** ** Provider requests ([oxylab2.py], lines 104-129) *)

(** [page = (start // num) + 1] *)
Definition start_page (start num : Z) : Z := start / num + 1.

Definition dquote : string := String (ascii_of_nat 34) EmptyString.

(** Line 266. *)
Definition query_for (subcategory brand : string) : string :=
  ("site:catawiki.com/en/l/ " ++ dquote ++ strip subcategory ++ dquote ++ " "
   ++ dquote ++ strip brand ++ dquote ++ " (" ++ dquote ++ "Sold" ++ dquote
   ++ " OR " ++ dquote ++ "Final bid" ++ dquote ++ ")")%string.

(** [oxylabs_search(session, query, start, num=RESULTS_PER_PAGE)] followed by
    [raise_for_status()] and [json()]. *)
Definition oxylabs_search (env : Env) (site : call_site) (subcategory brand : string)
    (start : Z) (s : State) : Response * State :=
  let resp := provider env (n_requests s) (query_for subcategory brand)
                (start_page start RESULTS_PER_PAGE) in
  (resp, count_request (emit (EvRequest site subcategory brand start) s)).

(** The retry loop, lines 293-302. The result is [data]: [PNone] when no
    attempt succeeded (or when the body decoded to [null]). *)
Fixpoint fetch_with_retries (env : Env) (subcategory brand : string) (start : Z)
    (attempts : list nat) (s : State) : result pyval * State :=
  match attempts with
  | [] => (Return PNone, s)
  | attempt :: later =>
      let '(resp, s) := oxylabs_search env PageFetch subcategory brand start s in
      match resp with
      | RespOk data => (Return data, s)
      | RespRequestError =>
          fetch_with_retries env subcategory brand start later
            (log (LogRequestError attempt start) s)
      | RespOtherError => (Raise OtherException, s)
      | RespInterrupt => (Raise KeyboardInterrupt, s)
      end
  end.

(** ** One page of results ([oxylab2.py], lines 310-329) *)

(** The variables of one brand. *)
Record Locals := mkLocals {
  start : Z;
  page_num : Z;
  brand_urls : Z;
  consecutive_empty : Z;
  seen_urls : gset string
}.

(** Iterating a value ([len(organic)], [for result in organic]). *)
Definition py_iter (v : pyval) : result (list pyval) :=
  match v with
  | PList l => Return l
  | PStr s => Return ((fun c => PStr (String c EmptyString)) <$> list_ascii_of_string s)
  | PDict items => Return ((fun kv => PStr kv.1) <$> items)
  | PNone | PBool _ | PInt _ => Raise TypeError
  end.

(** Lines 315-327; the result is [found_this_page]. *)
Fixpoint store_results (env : Env) (category subcategory brand : string)
    (organic : list pyval) (found_this_page : Z) (l : Locals) (s : State)
    : result Z * Locals * State :=
  match organic with
  | [] => (Return found_this_page, l, s)
  | res :: rest =>
      match extract_link_from_result res with
      | Raise e => (Raise e, l, s)
      | Return link =>
          if contains "catawiki.com/en/l/" link then
            let clean := split_head "&" link in
            if bool_decide (clean ∈ seen_urls l) then
              store_results env category subcategory brand rest found_this_page l s
            else
              let l := mkLocals (start l) (page_num l) (brand_urls l)
                         (consecutive_empty l) ({[clean]} ∪ seen_urls l) in
              let '(r, db') := save_url (db_conn env (n_db_calls s))
                                 category subcategory brand clean (db s) in
              let s := db_called db' s in
              match r with
              | Return true =>
                  let s := emit (EvSaveUrl subcategory brand clean true) s in
                  let s := set_total (total_urls_found s + 1) s in
                  let l := mkLocals (start l) (page_num l) (brand_urls l + 1)
                             (consecutive_empty l) (seen_urls l) in
                  store_results env category subcategory brand rest (found_this_page + 1) l s
              | Return false =>
                  let s := emit (EvSaveUrl subcategory brand clean false) s in
                  store_results env category subcategory brand rest found_this_page l s
              | Raise e =>
                  if is_Exception e then
                    store_results env category subcategory brand rest found_this_page l
                      (log (LogSaveUrlFailed clean) s)
                  else (Raise e, l, s)
              end
          else store_results env category subcategory brand rest found_this_page l s
      end
  end.

Definition process_page (env : Env) (category subcategory brand : string)
    (data : pyval) (l : Locals) (s : State) : result Z * Locals * State :=
  match extract_results_from_oxylabs data with
  | Raise e => (Raise e, l, s)
  | Return organic =>
      match extract_total_results data with
      | Raise e => (Raise e, l, s)
      | Return _ =>
          match py_iter organic with
          | Raise e => (Raise e, l, s)
          | Return results =>
              store_results env category subcategory brand results 0 l s
          end
      end
  end.

(** ** The probe ([oxylab2.py], lines 268-282) *)

(** [ceil(a / b)] for a positive [b]. Python divides in floating point
    here; the quotient of integers below 2^53 by 10 is rounded to a double
    whose ceiling is the exact one, and this is the range the model is
    meant for. *)
Definition ceil_div (a b : Z) : Z := - ((- a) / b).

(** The body of the [try] at line 269, from the response on. *)
Definition probe_body (resp : Response) : result Z :=
  match resp with
  | RespOk first_data =>
      total_results ← extract_total_results first_data;
      match total_results with
      | Some n =>
          if negb (n =? 0) && (n >? 0) then
            let estimated_pages := ceil_div n RESULTS_PER_PAGE in
            Return ((estimated_pages - 1) * RESULTS_PER_PAGE)
          else Return DEFAULT_MAX_START
      | None => Return DEFAULT_MAX_START
      end
  | RespRequestError => Raise RequestException
  | RespOtherError => Raise OtherException
  | RespInterrupt => Raise KeyboardInterrupt
  end.

(** [max_start] after the probe, or the exception that leaves the [try]:
    [except Exception] keeps the default. *)
Definition probe_max_start (resp : Response) : result Z :=
  match probe_body resp with
  | Return m => Return m
  | Raise e => if is_Exception e then Return DEFAULT_MAX_START else Raise e
  end.

(** ** Pagination ([oxylab2.py], lines 284-349) *)

(** How a piece of the crawl ends. [OutOfFuel] belongs to the model only:
    the [while] loop is unrolled a bounded number of times. *)
Inductive outcome :=
| Finished
| Raised (e : exn)
| OutOfFuel.

Definition set_start (n : Z) (l : Locals) : Locals :=
  mkLocals n (page_num l) (brand_urls l) (consecutive_empty l) (seen_urls l).
Definition set_page_num (n : Z) (l : Locals) : Locals :=
  mkLocals (start l) n (brand_urls l) (consecutive_empty l) (seen_urls l).
Definition set_consecutive_empty (n : Z) (l : Locals) : Locals :=
  mkLocals (start l) (page_num l) (brand_urls l) n (seen_urls l).
Definition set_seen_urls (u : gset string) (l : Locals) : Locals :=
  mkLocals (start l) (page_num l) (brand_urls l) (consecutive_empty l) u.

(** [ck.update({"start": ..., "page_num": ..., "timestamp": ...})] *)
Definition ck_update_position (start page_num : Z) (timestamp : option string)
    (c : Checkpoint) : Checkpoint :=
  mkCheckpoint (ck_sheet c) (ck_category c) (ck_subcategory c) (ck_brand c)
               start page_num timestamp.

(** One pass through the body of the [while]: it ends in the next
    iteration ([continue], or falling off the end) or leaves the loop
    ([break], or an exception). *)
Inductive step_result :=
| Continue (l : Locals) (s : State)
| Break (o : outcome) (l : Locals) (s : State).

(** [except KeyboardInterrupt: save_checkpoint(ck, log=True); raise] *)
Definition on_page_exception (env : Env) (e : exn) (l : Locals) (s : State)
    : step_result :=
  if bool_decide (e = KeyboardInterrupt)
  then Break (Raised e) l (save_checkpoint env PageInterrupted (ck s) s)
  else Break (Raised e) l s.

(** Lines 310-344: a fetched page is stored and counted, and the two
    termination tests are made. *)
Definition after_fetch (env : Env) (category subcategory brand : string)
    (max_start : Z) (data : pyval) (l : Locals) (s : State) : step_result :=
  let st := start l in
  let '(r, l, s) := process_page env category subcategory brand data l s in
  match r with
  | Raise e => on_page_exception env e l s
  | Return found_this_page =>
      let s := emit (EvPageDone subcategory brand st (page_num l + 1)
                       found_this_page) s in
      let l := set_page_num (page_num l + 1) l in
      let l := if found_this_page =? 0
               then set_consecutive_empty (consecutive_empty l + 1) l
               else set_consecutive_empty 0 l in
      if (found_this_page =? 0) && (consecutive_empty l >=? MAX_CONSECUTIVE_EMPTY)
      then Break Finished l (log (LogStopEmpty brand) s)
      else if start l + RESULTS_PER_PAGE >? max_start
      then Break Finished l (log (LogStopCeiling max_start) s)
      else Continue (set_start (start l + RESULTS_PER_PAGE) l) s
  end.

(** Lines 286-349. *)
Definition page_step (env : Env) (category subcategory brand : string)
    (max_start : Z) (l : Locals) (s : State) : step_result :=
  let s := set_ck (ck_update_position (start l) (page_num l)
                     (Some (utcnow env (n_saves s))) (ck s)) s in
  let s := save_checkpoint env BeforePage (ck s) s in
  let '(r, s) := fetch_with_retries env subcategory brand (start l)
                   (seq 1 MAX_RETRIES) s in
  match r with
  | Raise e => on_page_exception env e l s
  | Return PNone =>
      let s := log (LogSkippingStart (start l)) s in
      let l := set_consecutive_empty (consecutive_empty l + 1) l in
      let l := set_start (start l + RESULTS_PER_PAGE) l in
      Continue l s
  | Return data => after_fetch env category subcategory brand max_start data l s
  end.

(** [while start <= max_start], unrolled [fuel] times. *)
Fixpoint paginate (fuel : nat) (env : Env) (category subcategory brand : string)
    (max_start : Z) (l : Locals) (s : State) : outcome * Locals * State :=
  match fuel with
  | O => (OutOfFuel, l, s)
  | S fuel =>
      if start l <=? max_start then
        match page_step env category subcategory brand max_start l s with
        | Continue l s => paginate fuel env category subcategory brand max_start l s
        | Break o l s => (o, l, s)
        end
      else (Finished, l, s)
  end.

(** Enough unrollings for every page from [start] up to [max_start]. *)
Definition pagination_fuel (start max_start : Z) : nat :=
  S (Z.to_nat ((max_start - start) / RESULTS_PER_PAGE + 1)).

(** ** One brand ([oxylab2.py], lines 222-364) *)

(** [l.index(x)]; [None] stands for [ValueError]. *)
Fixpoint list_index (x : option string) (l : list string) : option nat :=
  match l with
  | [] => None
  | y :: rest => if bool_decide (Some y = x) then Some O else S <$> list_index x rest
  end.

Inductive resume_decision :=
| SkipBrand                                   (* [continue], line 243 *)
| Proceed (start page_num : Z) (resumed : bool)
| ResumeError.                                (* [resume_state] is [None] *)

(** Lines 232-253. [brands_in_sub] is [SUBCATEGORIES[subcategory]], the
    list being iterated. *)
Definition resume_logic (resume_state : option Checkpoint) (skip : bool)
    (subcategory brand : string) (brands_in_sub : list string) : resume_decision :=
  if skip then
    match resume_state with
    | None => ResumeError
    | Some rs =>
        let resume_sub := ck_subcategory rs in
        let resume_brand := ck_brand rs in
        let before :=
          if bool_decide (Some subcategory = resume_sub)
             && negb (bool_decide (Some brand = resume_brand))
          then match list_index (Some brand) brands_in_sub,
                     list_index resume_brand brands_in_sub with
               | Some i, Some j => (i <? j)%nat
               | _, _ => false                 (* except ValueError: pass *)
               end
          else false in
        if before then SkipBrand
        else if bool_decide (Some subcategory = resume_sub)
                && bool_decide (Some brand = resume_brand)
        then Proceed (ck_start rs) (ck_page_num rs) true
        else Proceed 0 0 false
    end
  else Proceed 0 0 false.

Definition ck_set_unit (subcategory brand : string) (start page_num : Z)
    (c : Checkpoint) : Checkpoint :=
  mkCheckpoint (ck_sheet c) (ck_category c) (Some subcategory) (Some brand)
               start page_num (ck_timestamp c).

Fixpoint row_lookup (subcategory brand : string) (m : list (string * string * Z))
    : option Z :=
  match m with
  | [] => None
  | (sb, b, row) :: rest =>
      if bool_decide (sb = subcategory) && bool_decide (b = brand) then Some row
      else row_lookup subcategory brand rest
  end.

(** The body of the [try] at line 230. *)
Definition brand_body (env : Env) (category : string) (resume_state : option Checkpoint)
    (subcategory : string) (brands : list string) (brand : string)
    (l : Locals) (s : State) : outcome * Locals * State :=
  match resume_logic resume_state (skip_until_resume s) subcategory brand brands with
  | ResumeError => (Raised AttributeError, l, s)
  | SkipBrand => (Finished, l, log (LogSkipBrand brand) s)
  | Proceed start0 page_num0 resumed =>
      let l := set_page_num page_num0 (set_start start0 l) in
      let s := if resumed
               then set_skip false (log (LogResuming brand page_num0 start0) s)
               else s in
      let s := set_ck (ck_set_unit subcategory brand start0 page_num0 (ck s)) s in
      let seen := load_saved_urls (db_conn env (n_db_calls s))
                    category subcategory brand (db s) in
      let s := db_called (db s) s in
      let l := set_seen_urls seen l in
      let '(resp, s) := oxylabs_search env Probe subcategory brand 0 s in
      match probe_max_start resp with
      | Raise e => (Raised e, l, s)
      | Return max_start =>
          let s := match probe_body resp with
                   | Raise _ => log LogProbeFailed s
                   | Return _ => s
                   end in
          paginate (pagination_fuel (start l) max_start) env
                   category subcategory brand max_start l s
      end
  end.

(** One iteration of [for brand in brands], with its [except Exception]
    (line 351) and its [finally] (lines 354-364). *)
Definition process_brand (env : Env) (wl : WorkList) (resume_state : option Checkpoint)
    (subcategory : string) (brands : list string) (brand : string) (s : State)
    : outcome * State :=
  let row_number := row_lookup subcategory brand (wl_row_mapping wl) in
  let l := mkLocals 0 0 0 0 ∅ in
  let '(r, l, s) := brand_body env (wl_category wl) resume_state subcategory brands brand l s in
  match r with
  | OutOfFuel => (OutOfFuel, s)
  | _ =>
      let s := match r with
               | Raised e => if is_Exception e then log (LogBrandException brand) s else s
               | _ => s
               end in
      let s := set_stats (log_stats s ++
                 [mkStat row_number (wl_category wl) subcategory brand
                         (page_num l) (brand_urls l)]) s in
      let s := save_checkpoint env UnitEnd (ck s) s in
      match r with
      | Raised e => if is_Exception e then (Finished, s) else (Raised e, s)
      | _ => (Finished, s)
      end
  end.

Fixpoint for_brands (env : Env) (wl : WorkList) (resume_state : option Checkpoint)
    (subcategory : string) (brands : list string) (todo : list string) (s : State)
    : outcome * State :=
  match todo with
  | [] => (Finished, s)
  | brand :: rest =>
      match process_brand env wl resume_state subcategory brands brand s with
      | (Finished, s) => for_brands env wl resume_state subcategory brands rest s
      | stop => stop
      end
  end.

(** [for subcategory, brands in SUBCATEGORIES.items()], lines 214-222. *)
Fixpoint for_subcategories (env : Env) (wl : WorkList) (resume_state : option Checkpoint)
    (todo : list (string * list string)) (s : State) : outcome * State :=
  match todo with
  | [] => (Finished, s)
  | (subcategory, brands) :: rest =>
      if skip_until_resume s then
        match resume_state with
        | None => (Raised AttributeError, s)
        | Some rs =>
            if bool_decide (Some subcategory = ck_subcategory rs) then
              match for_brands env wl resume_state subcategory brands brands s with
              | (Finished, s) => for_subcategories env wl resume_state rest s
              | stop => stop
              end
            else for_subcategories env wl resume_state rest
                   (log (LogSkipSubcategory subcategory) s)
        end
      else
        match for_brands env wl resume_state subcategory brands brands s with
        | (Finished, s) => for_subcategories env wl resume_state rest s
        | stop => stop
        end
  end.

(** ** [crawl] ([oxylab2.py], lines 178-379) *)

Definition initial_ck (sheet_name category : string) (resume_state : option Checkpoint)
    : Checkpoint :=
  match resume_state with
  | Some rs =>
      if bool_decide (ck_sheet rs = sheet_name)
      then mkCheckpoint sheet_name category (ck_subcategory rs) (ck_brand rs)
                        (ck_start rs) (ck_page_num rs) None
      else mkCheckpoint sheet_name category None None 0 0 None
  | None => mkCheckpoint sheet_name category None None 0 0 None
  end.

Definition crawl (env : Env) (sheet_name : string) (resume_state : option Checkpoint)
    (s : State) : outcome * State :=
  match load_subcategories_from_excel env sheet_name with
  | None => (Raised OtherException, s)
  | Some wl =>
      if negb (credentials env) then (Finished, log LogCredentialsMissing s)
      else
        let o := db_conn env (n_db_calls s) in
        let s := db_called (db s) s in
        match init_db o with
        | Raise e => (Raised e, s)
        | Return _ =>
            let s := set_stats [] (set_total 0 s) in
            let s := set_ck (initial_ck sheet_name (wl_category wl) resume_state) s in
            let s := set_skip (bool_decide (is_Some resume_state)) s in
            let '(r, s) := for_subcategories env wl resume_state (wl_subcategories wl) s in
            match r with
            | OutOfFuel => (OutOfFuel, s)
            | Raised e =>
                let s := if bool_decide (e = KeyboardInterrupt)
                         then save_checkpoint env RunInterrupted (ck s) s else s in
                (Raised e, log (LogTotalFound (total_urls_found s)) s)
            | Finished => (Finished, log (LogTotalFound (total_urls_found s)) s)
            end
        end
  end.

(** ** The run ([oxylab2.py], lines 382-404) *)

Fixpoint for_sheets (env : Env) (resume : option Checkpoint) (sheets : list string)
    (s : State) : outcome * State :=
  match sheets with
  | [] => (Finished, s)
  | sheet :: rest =>
      match resume with
      | Some rs =>
          if bool_decide (ck_sheet rs = sheet) then
            match crawl env sheet (Some rs) s with
            | (Finished, s) => for_sheets env None rest s
            | (Raised e, s) =>
                if is_Exception e then (Finished, log (LogSheetStopped sheet) s)
                else (Raised e, s)
            | stop => stop
            end
          else for_sheets env resume rest (log (LogSkipSheet sheet) s)
      | None =>
          match crawl env sheet None s with
          | (Finished, s) => for_sheets env None rest s
          | (Raised e, s) =>
              if is_Exception e then (Finished, log (LogSheetStopped sheet) s)
              else (Raised e, s)
          | stop => stop
          end
      end
  end.

Definition main (env : Env) (s : State) : outcome * State :=
  let '(r, s) := load_checkpoint env s in
  match r with
  | Raise e => (Raised e, s)
  | Return resume =>
      match sheet_names env with
      | None => (Raised OtherException, s)
      | Some sheets =>
          match for_sheets env resume sheets s with
          | (Finished, s) => (Finished, log LogFinished s)
          | stop => stop
          end
      end
  end.

(** A fresh process: no crawl variables yet, a given table and file system. *)
Definition initial_state (d : DB) (f : FS) : State :=
  mkState (mkCheckpoint EmptyString EmptyString None None 0 0 None) false 0 [] d f 0 0 0 [].

(** ** Notions the properties are stated with *)

(** The value of a plain decimal numeral: digits only, at least one. *)
Fixpoint digits_value (acc : Z) (s : string) : option Z :=
  match s with
  | EmptyString => Some acc
  | String c s' => if is_digit c then digits_value (10 * acc + digit_val c) s' else None
  end.

Definition numeral_value (s : string) : option Z :=
  match s with
  | EmptyString => None
  | _ => digits_value 0 s
  end.

(** A total-result count [T] as the provider renders it: the integer
    itself, or a string of its digits with commas between them. *)
Definition renders_count (total : pyval) (T : Z) : Prop :=
  total = PInt T \/
  exists s, total = PStr s /\ numeral_value (remove_char ","%char s) = Some T.

(** The [search_information] object of a well-formed response envelope:
    [data['results'][0]['content']['results']['search_information']]. *)
Definition search_information (data : pyval) : option (list (string * pyval)) :=
  match data with
  | PDict d =>
      match items_lookup "results" d with
      | Some (PList (PDict first :: _)) =>
          match items_lookup "content" first with
          | Some (PDict content) =>
              match items_lookup "results" content with
              | Some (PDict inner) =>
                  match items_lookup "search_information" inner with
                  | Some (PDict si) => Some si
                  | _ => None
                  end
              | _ => None
              end
          | _ => None
          end
      | _ => None
      end
  | _ => None
  end.

(** A response envelope with the given organic results and search
    information. *)
Definition envelope (organic : pyval) (si : list (string * pyval)) : pyval :=
  PDict [("results", PList [PDict [("content", PDict [("results",
    PDict [("organic", organic); ("search_information", PDict si)])])]])].

(** A response whose [content] was not parsed: the provider hands the page
    back as text in place of the parsed object. *)
Definition unparsed_content_payload : pyval :=
  PDict [("results", PList [PDict [("content", PStr "<html></html>")]])].

(** A URL counts as newly inserted when it was absent before the call and
    is present after it. *)
Definition newly_inserted (url : string) (before after : DB) : Prop :=
  before !! url = None /\ is_Some (after !! url).

(** A table that already holds one listing, stored under the brand Nike. *)
Definition db_with_listing : DB :=
  {[ "https://www.catawiki.com/en/l/1" := ("Fashion", "Shoes", "Nike") ]}.

(** Everything a sequence of writes puts into a file. *)
Definition join (chunks : list string) : string := foldr String.append EmptyString chunks.

(** An operation that leaves the canonical checkpoint path alone, or is the
    final replace onto it. *)
Definition respects_canonical (op : fs_op) : Prop :=
  match op with
  | OpenTruncate p => p <> CHECKPOINT_FILE
  | WriteChunk p _ => p <> CHECKPOINT_FILE
  | Replace src dst => src = tmp_path /\ dst = CHECKPOINT_FILE
  end.

Global Instance Checkpoint_eq_dec : EqDecision Checkpoint.
Proof. solve_decision. Defined.
Global Instance LogLine_eq_dec : EqDecision LogLine.
Proof. solve_decision. Defined.
Global Instance Event_eq_dec : EqDecision Event.
Proof. solve_decision. Defined.

(** ** Projections of a trace *)

Definition is_log (e : Event) : Prop :=
  match e with
  | EvLog _ => True
  | _ => False
  end.

Definition request_of (e : Event) : option (call_site * string * string * Z) :=
  match e with
  | EvRequest site subcategory brand start => Some (site, subcategory, brand, start)
  | _ => None
  end.

(** The provider requests of a trace, in order. *)
Definition requests (tr : list Event) : list (call_site * string * string * Z) :=
  omap request_of tr.

(** The offsets of the pages given up after [MAX_RETRIES] failed attempts. *)
Definition skipped_starts (tr : list Event) : list Z :=
  omap (fun e => match e with
                 | EvLog (LogSkippingStart start) => Some start
                 | _ => None
                 end) tr.

(** [only_logs s s']: from [s] to [s'] nothing happened but log lines. *)
Definition only_logs (s s' : State) : Prop :=
  (exists evs, trace s' = (trace s ++ evs)%list /\ Forall is_log evs) /\
  fs s' = fs s /\ db s' = db s /\ n_requests s' = n_requests s /\
  n_db_calls s' = n_db_calls s /\ n_saves s' = n_saves s /\
  log_stats s' = log_stats s.

(** ** Example runs *)

Definition one_brand_worklist : WorkList :=
  mkWorkList "Fashion" [("Shoes", ["Nike"])] [("Shoes", "Nike", 2)].

Definition shoes_worklist : WorkList :=
  mkWorkList "Fashion" [("Shoes", ["Nike"; "Adidas"])]
             [("Shoes", "Nike", 2); ("Shoes", "Adidas", 3)].

(** An environment with credentials, a working database and file system,
    one sheet ["S1"] holding [wl], and the given provider. *)
Definition example_env (wl : WorkList) (prov : nat -> string -> Z -> Response) : Env :=
  mkEnv true prov (fun _ => ExecOk) (fun _ => None) (fun _ => "2026-01-01T00:00:00")
        (fun _ => ["{}"]) (fun _ => None) false (Some ["S1"]) (fun _ => Some wl).

(** A provider that is down: every request raises a RequestException. *)
Definition provider_down : nat -> string -> Z -> Response :=
  fun _ _ _ => RespRequestError.

(** A provider that answers every request with an empty result page. *)
Definition provider_empty : nat -> string -> Z -> Response :=
  fun _ _ _ => RespOk (envelope (PList []) []).

(** The same environment without provider credentials. *)
Definition no_credentials_env : Env :=
  mkEnv false provider_empty (fun _ => ExecOk) (fun _ => None)
        (fun _ => "2026-01-01T00:00:00") (fun _ => ["{}"]) (fun _ => None) false
        (Some ["S1"]) (fun _ => Some shoes_worklist).

(** The checkpoint of the specification's scenario. *)
Definition adidas_checkpoint : Checkpoint :=
  mkCheckpoint "S1" "Fashion" (Some "Shoes") (Some "Adidas") 20 2
               (Some "2026-01-01T00:00:00").

(** A provider that answers the probe and the first page with an empty
    result page and is down from then on. *)
Definition provider_empty_then_down : nat -> string -> Z -> Response :=
  fun n _ _ => if (n <=? 1)%nat then RespOk (envelope (PList []) []) else RespRequestError.

(** One brand crawled while the provider is down. *)
Definition dead_provider_run : outcome * State :=
  crawl (example_env one_brand_worklist provider_down) "S1" None (initial_state ∅ ∅).

(** One brand crawled: an empty first page, then the provider goes down. *)
Definition empty_then_dead_run : outcome * State :=
  crawl (example_env one_brand_worklist provider_empty_then_down) "S1" None
        (initial_state ∅ ∅).

(** The pages fetched and stored, as (offset, found). *)
Definition pages_done (tr : list Event) : list (Z * Z) :=
  omap (fun e => match e with
                 | EvPageDone _ _ start _ found => Some (start, found)
                 | _ => None
                 end) tr.

(** ** The shape of a crawl's input and output events *)

(** Requests and checkpoint saves are the input and output of a run that
    the resume properties speak about. *)
Definition is_io (e : Event) : bool :=
  match e with
  | EvRequest _ _ _ _ | EvSaveCheckpoint _ _ => true
  | _ => false
  end.

Definition io (tr : list Event) : list Event := List.filter is_io tr.

(** [emits evs s s']: from [s] to [s'] the trace grew by [evs], and the
    "still skipping" flag did not change. *)
Definition emits (evs : list Event) (s s' : State) : Prop :=
  trace s' = (trace s ++ evs)%list /\ skip_until_resume s' = skip_until_resume s.

(** Two checkpoint records of the same sheet, category, subcategory and
    brand. *)
Definition same_unit (c c0 : Checkpoint) : Prop :=
  ck_sheet c = ck_sheet c0 /\ ck_category c = ck_category c0 /\
  ck_subcategory c = ck_subcategory c0 /\ ck_brand c = ck_brand c0.

(** What the events of one page may be after its first request: retries of
    the same request, and the save made when the page is interrupted. *)
Definition page_tail_event (subcategory brand : string) (c : Checkpoint) (e : Event) : Prop :=
  e = EvRequest PageFetch subcategory brand (ck_start c) \/
  e = EvSaveCheckpoint PageInterrupted c.

(** The requests and saves of the pagination of one brand from offset [st]
    on: page after page, a save of the position, then the requests for it. *)
Inductive pages_io (subcategory brand : string) (c0 : Checkpoint) : Z -> list Event -> Prop :=
| pages_io_nil st : pages_io subcategory brand c0 st []
| pages_io_page st c more rest :
    same_unit c c0 -> ck_start c = st ->
    Forall (page_tail_event subcategory brand c) more ->
    pages_io subcategory brand c0 (st + RESULTS_PER_PAGE) rest ->
    pages_io subcategory brand c0 st
      (EvSaveCheckpoint BeforePage c :: EvRequest PageFetch subcategory brand st
         :: (more ++ rest)%list).

(** The checkpoint record last saved in a list of events, [c0] if none. *)
Definition last_saved (evs : list Event) (c0 : Checkpoint) : Checkpoint :=
  foldl (fun c e => match e with
                    | EvSaveCheckpoint _ c' => c'
                    | _ => c
                    end) c0 evs.

(** The page number of the first save of a list of events, if it starts
    with one. *)
Definition starts_at_page (evs : list Event) (pn : Z) : Prop :=
  match evs with
  | EvSaveCheckpoint _ c :: _ => ck_page_num c = pn
  | _ => True
  end.

(** The requests and saves of one iteration of [for brand in brands]. *)
Inductive unit_io (subcategory brand : string) (c_in : Checkpoint)
  : resume_decision -> list Event -> Checkpoint -> Prop :=
| unit_io_skipped d :
    d = SkipBrand \/ d = ResumeError ->
    unit_io subcategory brand c_in d [EvSaveCheckpoint UnitEnd c_in] c_in
| unit_io_crawled st pn resumed pages c_out :
    pages_io subcategory brand (ck_set_unit subcategory brand st pn c_in) st pages ->
    starts_at_page pages pn ->
    c_out = last_saved pages (ck_set_unit subcategory brand st pn c_in) ->
    unit_io subcategory brand c_in (Proceed st pn resumed)
      (EvRequest Probe subcategory brand 0
         :: (pages ++ [EvSaveCheckpoint UnitEnd c_out])%list) c_out.

(** What one pass through the loop body does, seen from outside: it goes
    on to the next offset or leaves the loop, its requests and saves are
    [prefix] followed by events of the page, and the checkpoint record it
    leaves in [ck] is [c]. *)
Definition step_ok (subcategory brand : string) (c : Checkpoint) (l : Locals)
    (s : State) (prefix : list Event) (r : step_result) : Prop :=
  exists evs more l' s',
    (r = Continue l' s' /\ start l' = start l + RESULTS_PER_PAGE \/
     exists o, r = Break o l' s' /\ o <> OutOfFuel) /\
    emits evs s s' /\ ck s' = c /\
    io evs = (prefix ++ more)%list /\
    Forall (page_tail_event subcategory brand c) more.

(** ** The resume plan

    The decisions of the resume logic do not depend on the provider: they
    can be computed ahead from the work list and the checkpoint, unit by
    unit, with the "still skipping" flag threaded as [crawl] threads it. *)

Definition flag_after (d : resume_decision) (skip : bool) : bool :=
  match d with
  | Proceed _ _ true => false
  | _ => skip
  end.

Fixpoint plan_brands (resume_state : option Checkpoint) (skip : bool)
    (subcategory : string) (brands todo : list string)
    : list (string * string * resume_decision) * bool :=
  match todo with
  | [] => ([], skip)
  | brand :: rest =>
      let d := resume_logic resume_state skip subcategory brand brands in
      let '(p, f) := plan_brands resume_state (flag_after d skip) subcategory brands rest in
      ((subcategory, brand, d) :: p, f)
  end.

Fixpoint plan (resume_state : option Checkpoint) (skip : bool)
    (subcategories : list (string * list string))
    : list (string * string * resume_decision) :=
  match subcategories with
  | [] => []
  | (subcategory, brands) :: rest =>
      if skip && negb (bool_decide (Some subcategory = resume_state ≫= ck_subcategory))
      then plan resume_state skip rest
      else
        let '(p, f) := plan_brands resume_state skip subcategory brands brands in
        (p ++ plan resume_state f rest)%list
  end.

(** The requests and saves of a run that follows a plan: unit after unit,
    all of them ([complete = true]) or up to a crawled unit during which the
    run was interrupted. *)
Inductive run_io : bool -> list (string * string * resume_decision) ->
                   Checkpoint -> list Event -> Checkpoint -> Prop :=
| run_io_nil c : run_io true [] c [] c
| run_io_last x y st pn resumed p c evs c' :
    unit_io x y c (Proceed st pn resumed) evs c' ->
    run_io false ((x, y, Proceed st pn resumed) :: p) c evs c'
| run_io_unit complete x y d p c evs c' evs' c'' :
    unit_io x y c d evs c' ->
    run_io complete p c' evs' c'' ->
    run_io complete ((x, y, d) :: p) c (evs ++ evs')%list c''.

(** The work list of a sheet comes from a dict of lists built without
    repetition: no subcategory twice, no brand twice in a subcategory. *)
Definition wf_subcategories (subcategories : list (string * list string)) : Prop :=
  NoDup subcategories.*1 /\ Forall (fun sb => NoDup sb.2) subcategories.

(** The units that precede the unit [(S, B)] in iteration order: the brands
    of the subcategories before [S], and the brands before [B] (by list
    index) in [S]. *)
Fixpoint units_before (subcategories : list (string * list string)) (S B : string)
    : list (string * string) :=
  match subcategories with
  | [] => []
  | (subcategory, brands) :: rest =>
      if bool_decide (subcategory = S) then
        match list_index (Some B) brands with
        | Some j => pair subcategory <$> take j brands
        | None => []
        end
      else ((pair subcategory <$> brands) ++ units_before rest S B)%list
  end.

(** The requests of a trace made for one unit, as (call site, offset). *)
Definition unit_requests (subcategory brand : string) (tr : list Event)
    : list (call_site * Z) :=
  omap (fun e => match e with
                 | EvRequest site x y st =>
                     if bool_decide (x = subcategory /\ y = brand) then Some (site, st)
                     else None
                 | _ => None
                 end) tr.

(** A persisted offset is a non-negative multiple of the page size. *)
Definition aligned (n : Z) : Prop := 0 <= n /\ n mod RESULTS_PER_PAGE = 0.

Definition save_aligned (e : Event) : Prop :=
  match e with
  | EvSaveCheckpoint _ c => aligned (ck_start c)
  | _ => True
  end.

(** Every save made before a page is followed at once, among the requests
    and saves, by the request for the offset it persisted. *)
Fixpoint saves_followed (evs : list Event) : Prop :=
  match evs with
  | [] => True
  | EvSaveCheckpoint BeforePage c :: rest =>
      match rest with
      | EvRequest PageFetch x y st :: _ =>
          ck_subcategory c = Some x /\ ck_brand c = Some y /\ st = ck_start c
      | _ => False
      end /\ saves_followed rest
  | _ :: rest => saves_followed rest
  end.

(** The requests of the resumed unit: the probe at offset 0, then page
    requests, the first of them (if there is one) at the resumed offset. *)
Definition resumed_requests (N : Z) (reqs : list (call_site * Z)) : Prop :=
  exists rest, reqs = (Probe, 0) :: rest /\
    Forall (fun q => q.1 = PageFetch) rest /\
    (head rest = None \/ head rest = Some (PageFetch, N)).

(** The resumed run of the specification's scenario: work list
    [{"Shoes": ["Nike", "Adidas"]}], checkpoint at Adidas, offset 20, page 2;
    the provider answers every request with an empty page. *)
Definition resumed_run : outcome * State :=
  crawl (example_env shoes_worklist provider_empty) "S1" (Some adidas_checkpoint)
        (initial_state ∅ ∅).

(** C1 as stated: the first request made for the unit [(S, B)] is at offset
    [N], and no request is made for a unit before it. *)
Definition resume_exact_as_stated (subcategories : list (string * list string))
    (S B : string) (N : Z) (tr : list Event) : Prop :=
  snd <$> head (unit_requests S B tr) = Some N /\
  forall x y, (x, y) ∈ units_before subcategories S B -> unit_requests x y tr = [].

(** C2 as stated, first half: no probe request is made for the unit. *)
Definition probe_skipped (subcategory brand : string) (tr : list Event) : Prop :=
  forall st, EvRequest Probe subcategory brand st ∉ tr.

(** One brand crawled while the provider answers every request with an
    empty page: two empty pages, then the empty streak ends the brand. *)
Definition empty_pages_run : outcome * State :=
  crawl (example_env one_brand_worklist provider_empty) "S1" None (initial_state ∅ ∅).

(** C7 as stated, second half: no save persists the offset of a page of the
    same brand that was already fetched and stored. *)
Definition persisted_start_is_next (tr : list Event) : Prop :=
  forall pre site c post x y page found,
    tr = (pre ++ EvSaveCheckpoint site c :: post)%list ->
    ck_subcategory c = Some x -> ck_brand c = Some y ->
    EvPageDone x y (ck_start c) page found ∉ pre.

(** An environment whose disk is full: every checkpoint save fails at its
    first operation, and the checkpoint file on disk cannot be parsed. *)
Definition disk_full_env : Env :=
  mkEnv true provider_empty (fun _ => ExecOk) (fun _ => Some 0%nat)
        (fun _ => "2026-01-01T00:00:00") (fun _ => ["{}"]) (fun _ => None) false
        (Some ["S1"]) (fun _ => Some one_brand_worklist).

(** The number of [save_url] calls of a trace that returned [True]. *)
Definition count_saved (evs : list Event) : Z :=
  Z.of_nat (length (List.filter (fun e => match e with
                                          | EvSaveUrl _ _ _ true => true
                                          | _ => false
                                          end) evs)).

(** A provider that answers every request with the same single listing. *)
Definition provider_one_listing : nat -> string -> Z -> Response :=
  fun _ _ _ =>
    RespOk (envelope (PList [PDict [("url", PStr "https://www.catawiki.com/en/l/1&page=2")]]) []).

(** Two brands crawled; the provider returns the same listing for both. *)
Definition same_listing_run : outcome * State :=
  crawl (example_env shoes_worklist provider_one_listing) "S1" None (initial_state ∅ ∅).

(** ** Runs that differ in checkpoint write faults only *)

(** The same environment with other faults of the checkpoint saves. *)
Definition with_ck_fault (faults : nat -> option nat) (env : Env) : Env :=
  mkEnv (credentials env) (provider env) (db_conn env) faults (utcnow env)
        (json_dump env) (json_load env) (ck_unreadable env) (sheet_names env)
        (load_subcategories_from_excel env).

(** A trace without the log lines of failed saves. *)
Definition without_save_failures (tr : list Event) : list Event :=
  List.filter (fun e => negb (bool_decide (e = EvLog LogCheckpointSaveFailed))) tr.

(** Two states that agree on everything but the files and the log lines of
    failed saves. *)
Definition same_but_files (s1 s2 : State) : Prop :=
  ck s1 = ck s2 /\ skip_until_resume s1 = skip_until_resume s2 /\
  total_urls_found s1 = total_urls_found s2 /\ log_stats s1 = log_stats s2 /\
  db s1 = db s2 /\ n_requests s1 = n_requests s2 /\
  n_db_calls s1 = n_db_calls s2 /\ n_saves s1 = n_saves s2 /\
  without_save_failures (trace s1) = without_save_failures (trace s2).

Definition same_step (r1 r2 : step_result) : Prop :=
  match r1, r2 with
  | Continue l1 s1, Continue l2 s2 => l1 = l2 /\ same_but_files s1 s2
  | Break o1 l1 s1, Break o2 l2 s2 => o1 = o2 /\ l1 = l2 /\ same_but_files s1 s2
  | _, _ => False
  end.

(** ** Further definitions: the loader, examples and invariants *)

Module Excel.

(** A sheet as [pd.read_excel] hands it over: the column labels, the number
    of rows, and for a row position and a column label the text that [str]
    makes of the cell (a blank cell is NaN and reads "nan"). The frame has
    the default index: the row at position [i] has the label [i]. *)
Record DataFrame := mkDataFrame {
  df_columns : list string;
  df_len : nat;
  df_str : nat -> string -> string
}.

(** [df.empty]: no row or no column. *)
Definition df_empty (df : DataFrame) : bool :=
  bool_decide (df_len df = 0%nat) || bool_decide (df_columns df = []).

(** [str(row[label])] for the row at position [i]. *)
Definition cell (df : DataFrame) (i : nat) (label : string) : result string :=
  if bool_decide (label ∈ df_columns df) then Return (df_str df i label)
  else Raise KeyError.

(** [subcategories.setdefault(subcategory, [])] followed by the guarded
    [append]; the dict keeps its keys in insertion order. *)
Fixpoint add_brand (subcategory brand : string) (subcategories : list (string * list string))
    : list (string * list string) :=
  match subcategories with
  | [] => [(subcategory, [brand])]
  | (k, brands) :: rest =>
      if bool_decide (k = subcategory)
      then (k, if bool_decide (brand ∈ brands) then brands else (brands ++ [brand])%list) :: rest
      else (k, brands) :: add_brand subcategory brand rest
  end.

(** [row_mapping[(subcategory, brand)] = row]: a key that is there keeps its
    place and takes the new value. *)
Fixpoint set_row (subcategory brand : string) (row : Z) (m : list (string * string * Z))
    : list (string * string * Z) :=
  match m with
  | [] => [(subcategory, brand, row)]
  | (sb, b, r) :: rest =>
      if bool_decide (sb = subcategory) && bool_decide (b = brand)
      then (sb, b, row) :: rest
      else (sb, b, r) :: set_row subcategory brand row rest
  end.

(** The body of [for idx, row in df.iterrows()], lines 95-100. *)
Definition add_row (df : DataFrame)
    (acc : list (string * list string) * list (string * string * Z)) (idx : nat)
    : result (list (string * list string) * list (string * string * Z)) :=
  sub_cell ← cell df idx "SubCategories";
  brand_cell ← cell df idx "Brand";
  let subcategory := strip sub_cell in
  let brand := strip brand_cell in
  Return (add_brand subcategory brand acc.1,
          set_row subcategory brand (Z.of_nat idx + 2) acc.2).

Fixpoint iterrows (df : DataFrame) (idxs : list nat)
    (acc : list (string * list string) * list (string * string * Z))
    : result (list (string * list string) * list (string * string * Z)) :=
  match idxs with
  | [] => Return acc
  | idx :: rest => acc' ← add_row df acc idx; iterrows df rest acc'
  end.

(** [load_subcategories_from_excel], lines 83-101, from what [pd.read_excel]
    comes to: an exception of the read is logged and raised again. *)
Definition load_subcategories_from_excel (read : result DataFrame) : result WorkList :=
  match read with
  | Raise e => Raise e
  | Return df =>
      if df_empty df then Raise ValueError
      else
        category_cell ← cell df 0 "Category";
        acc ← iterrows df (seq 0 (df_len df)) ([], []);
        Return (mkWorkList (strip category_cell) acc.1 acc.2)
  end.

End Excel.

(** The units of a work list: a subcategory with one of its brands. *)
Definition is_unit (subcategories : list (string * list string)) (x y : string) : Prop :=
  exists brands, (x, brands) ∈ subcategories /\ y ∈ brands.

(** The pair of names the loader reads in the row at position [i]. *)
Definition row_unit (df : Excel.DataFrame) (i : nat) : string * string :=
  (strip (Excel.df_str df i "SubCategories"), strip (Excel.df_str df i "Brand")).

(** The three columns the loader reads. *)
Definition has_columns (df : Excel.DataFrame) : Prop :=
  "Category" ∈ Excel.df_columns df /\ "SubCategories" ∈ Excel.df_columns df /\
  "Brand" ∈ Excel.df_columns df.

(** One row added to the two dicts, when the columns are there. *)
Definition add_unit (df : Excel.DataFrame)
    (acc : list (string * list string) * list (string * string * Z)) (i : nat)
    : list (string * list string) * list (string * string * Z) :=
  (Excel.add_brand (row_unit df i).1 (row_unit df i).2 acc.1,
   Excel.set_row (row_unit df i).1 (row_unit df i).2 (Z.of_nat i + 2) acc.2).

(** The two dicts after the first [n] rows, when the columns are there. *)
Definition loaded (df : Excel.DataFrame) (n : nat)
    : list (string * list string) * list (string * string * Z) :=
  foldl (add_unit df) ([], []) (seq 0 n).

(** The second work list goes on from the first: the subcategories of the
    first come first and in the same order, and so do the brands of each. *)
Definition extends (subs subs' : list (string * list string)) : Prop :=
  subs.*1 `prefix_of` subs'.*1 /\
  forall x brands, (x, brands) ∈ subs ->
    exists brands', (x, brands') ∈ subs' /\ brands `prefix_of` brands'.

(** A sheet of two rows, and one that lacks the brand column. *)
Definition shoes_frame : Excel.DataFrame :=
  Excel.mkDataFrame ["Category"; "SubCategories"; "Brand"] 2
    (fun i label =>
       if bool_decide (label = "Category") then "Fashion"
       else if bool_decide (label = "SubCategories") then " Shoes"
       else match i with O => "Nike" | _ => "Adidas " end).

Definition frame_without_brands : Excel.DataFrame :=
  Excel.mkDataFrame ["Category"; "SubCategories"] 1 (fun _ _ => "x").

(** The first [n] rows of a frame. *)
Definition first_rows (n : nat) (df : Excel.DataFrame) : Excel.DataFrame :=
  Excel.mkDataFrame (Excel.df_columns df) (min n (Excel.df_len df)) (Excel.df_str df).

(** An environment whose JSON decoder reads the checkpoint of the scenario. *)
Definition adidas_on_disk_env : Env :=
  mkEnv true provider_empty (fun _ => ExecOk) (fun _ => None)
        (fun _ => "2026-01-01T00:00:00") (fun _ => ["{"; "}"])
        (fun _ => Some adidas_checkpoint) false (Some ["S1"])
        (fun _ => Some shoes_worklist).

(** The variables and the state a pass through the loop body ends with. *)
Definition step_locals (r : step_result) : Locals :=
  match r with Continue l _ | Break _ l _ => l end.
Definition step_state (r : step_result) : State :=
  match r with Continue _ s | Break _ _ s => s end.

(** One URL sent to the table: lines 320-327, from [seen_urls.add(clean)]
    on, with the variables and the state it leaves. *)
Definition save_step (env : Env) (category subcategory brand clean : string)
    (l : Locals) (s : State) : Locals * State :=
  let l := mkLocals (start l) (page_num l) (brand_urls l)
             (consecutive_empty l) ({[clean]} ∪ seen_urls l) in
  let '(r, db') := save_url (db_conn env (n_db_calls s))
                     category subcategory brand clean (db s) in
  let s := db_called db' s in
  match r with
  | Return true =>
      (mkLocals (start l) (page_num l) (brand_urls l + 1)
                (consecutive_empty l) (seen_urls l),
       set_total (total_urls_found s + 1)
         (emit (EvSaveUrl subcategory brand clean true) s))
  | Return false => (l, emit (EvSaveUrl subcategory brand clean false) s)
  | Raise e => (l, if is_Exception e then log (LogSaveUrlFailed clean) s else s)
  end.

(** The events the crawl emits on their own: requests, pages done and log
    lines. A stored URL and a checkpoint save come with a change of the table
    or of the files. *)
Definition is_plain (e : Event) : Prop :=
  match e with
  | EvRequest _ _ _ _ | EvPageDone _ _ _ _ _ | EvLog _ => True
  | EvSaveCheckpoint _ _ | EvSaveUrl _ _ _ _ => False
  end.

(** The form of a stored URL: it starts with "http" and holds no "&". *)
Definition stored_form (url : string) : Prop :=
  startswith "http" url = true /\ contains "&" url = false.

(** From [s] to [s'] rows were only added to the table, each for a unit
    that [ok] allows and with a URL of the stored form. *)
Definition rows_added (ok : string -> string -> string -> Prop) (s s' : State) : Prop :=
  db s ⊆ db s' /\
  forall url c x y, db s' !! url = Some (c, x, y) -> db s !! url = None ->
    ok c x y /\ stored_form url.

(** From [s] to [s'] the checkpoint file kept its content, or it holds the
    complete record of one of the saves made in between. *)
Definition checkpoint_file_whole (env : Env) (s s' : State) : Prop :=
  exists evs, trace s' = (trace s ++ evs)%list /\
    (fs s' !! CHECKPOINT_FILE = fs s !! CHECKPOINT_FILE \/
     exists site c, EvSaveCheckpoint site c ∈ evs /\
       fs s' !! CHECKPOINT_FILE = Some (join (json_dump env c))).

(** A response with one result whose link mentions a listing after a "&". *)
Definition provider_foreign_link : nat -> string -> Z -> Response :=
  fun _ _ _ =>
    RespOk (envelope (PList [PDict [("url",
      PStr "https://example.com/?a=1&next=catawiki.com/en/l/5")]]) []).

(** The sum of the "Total URLs" column of the summary. *)
Definition sum_urls (stats : list Stat) : Z :=
  foldr (fun st acc => stat_urls st + acc) 0 stats.

(** From [s] to [s'] nothing was stored or saved: the events are requests
    and log lines, and the table, the files, the tallies and the summary
    are as they were. *)
Definition prelude (s s' : State) : Prop :=
  (exists evs, trace s' = (trace s ++ evs)%list /\
     Forall (fun e => match e with
                      | EvRequest _ _ _ _ | EvLog _ => True
                      | _ => False
                      end) evs) /\
  db s' = db s /\ fs s' = fs s /\ total_urls_found s' = total_urls_found s /\
  log_stats s' = log_stats s /\ n_saves s' = n_saves s.

(** The tallies of one brand: from [(l, s)] to [(l', s')] the run total and
    the brand's count grew by the number of [save_url] calls that returned
    [True], and the summary did not change. *)
Definition tallied (l : Locals) (s : State) (l' : Locals) (s' : State) : Prop :=
  exists evs, trace s' = (trace s ++ evs)%list /\
    total_urls_found s' = total_urls_found s + count_saved evs /\
    brand_urls l' = brand_urls l + count_saved evs /\
    log_stats s' = log_stats s.

(** The tallies of a run: the run total and the sum of the summary grew by
    the number of [save_url] calls that returned [True]. *)
Definition summed (s s' : State) : Prop :=
  exists evs, trace s' = (trace s ++ evs)%list /\
    total_urls_found s' = total_urls_found s + count_saved evs /\
    sum_urls (log_stats s') = sum_urls (log_stats s) + count_saved evs.

(** The URLs sent to the table in a list of events, each with the
    subcategory and brand it was sent for. *)
Definition saves (evs : list Event) : list (string * string * string) :=
  omap (fun e => match e with
                 | EvSaveUrl x y u _ => Some (x, y, u)
                 | _ => None
                 end) evs.

(** The URLs sent for one brand during its pagination: each once, none
    that was in [seen_urls] before, all in [seen_urls] afterwards. *)
Definition deduped (subcategory brand : string)
    (l : Locals) (s : State) (l' : Locals) (s' : State) : Prop :=
  exists evs, trace s' = (trace s ++ evs)%list /\
    NoDup (saves evs) /\
    (forall x y u, (x, y, u) ∈ saves evs ->
       x = subcategory /\ y = brand /\ (u ∉ seen_urls l) /\ (u ∈ seen_urls l')) /\
    seen_urls l ⊆ seen_urls l'.

(** The URLs sent to the table from [s] to [s']: none twice for the same
    brand, each for a unit that [P] allows, and, when the database answers
    every call, none that the table held for that brand at [s]. *)
Definition sent_once (env : Env) (category : string) (P : string -> string -> Prop)
    (s s' : State) : Prop :=
  exists evs, trace s' = (trace s ++ evs)%list /\
    NoDup (saves evs) /\ db s ⊆ db s' /\
    forall x y u, (x, y, u) ∈ saves evs ->
      P x y /\
      ((forall n, db_conn env n = ExecOk) -> db s !! u <> Some (category, x, y)).

(** The pages from offset [st] up to the ceiling. *)
Definition pages_left (st max_start : Z) : Z :=
  if st <=? max_start then (max_start - st) / RESULTS_PER_PAGE + 1 else 0.

(** A request of the pagination of one brand that started at offset [lo]
    under the ceiling [hi]: a page request for that brand, at an offset a
    whole number of pages above [lo] and not above [hi]. *)
Definition request_in_range (subcategory brand : string) (lo hi : Z) (e : Event) : Prop :=
  match e with
  | EvRequest site x y st =>
      site = PageFetch /\ x = subcategory /\ y = brand /\
      lo <= st <= hi /\ (st - lo) mod RESULTS_PER_PAGE = 0
  | _ => True
  end.

(** The provider never answers with an interrupt: nobody presses Ctrl-C
    while a request is under way. *)
Definition never_interrupted (env : Env) : Prop :=
  forall n q page, provider env n q page <> RespInterrupt.

(** A provider whose answers the extractors cannot read. *)
Definition provider_unparsed : nat -> string -> Z -> Response :=
  fun _ _ _ => RespOk unparsed_content_payload.

(** The outcome a pass through the loop body leaves the loop with. *)
Definition step_outcome (r : step_result) : option outcome :=
  match r with Continue _ _ => None | Break o _ _ => Some o end.

(** The state after the sheets of a list were skipped, one log line each. *)
Definition skip_sheets (sheets : list string) (s : State) : State :=
  foldl (fun s sheet => log (LogSkipSheet sheet) s) s sheets.

(** A workbook that no longer has the sheet of the checkpoint on disk. *)
Definition renamed_sheet_env : Env :=
  mkEnv true provider_empty (fun _ => ExecOk) (fun _ => None)
        (fun _ => "2026-01-01T00:00:00") (fun _ => ["{"; "}"])
        (fun _ => Some adidas_checkpoint) false (Some ["S2"; "S3"])
        (fun _ => Some shoes_worklist).

(** A checkpoint for a brand that the sheet no longer lists. *)
Definition puma_checkpoint : Checkpoint :=
  mkCheckpoint "S1" "Fashion" (Some "Shoes") (Some "Puma") 20 2
               (Some "2026-01-01T00:00:00").

(** A sheet with a second subcategory after the shoes. *)
Definition shoes_and_bags_worklist : WorkList :=
  mkWorkList "Fashion" [("Shoes", ["Nike"; "Adidas"]); ("Bags", ["Gucci"])]
             [("Shoes", "Nike", 2); ("Shoes", "Adidas", 3); ("Bags", "Gucci", 4)].

(** The row of the summary for a unit of the resume plan: its row number in
    the sheet, the category, the names of the unit; a brand that was skipped
    has a row all the same, with no page and no URL. *)
Definition summary_row (wl : WorkList) (u : string * string * resume_decision)
    (st : Stat) : Prop :=
  stat_row st = row_lookup u.1.1 u.1.2 (wl_row_mapping wl) /\
  stat_category st = wl_category wl /\
  stat_subcategory st = u.1.1 /\ stat_brand st = u.1.2 /\
  (u.2 = SkipBrand -> stat_pages st = 0 /\ stat_urls st = 0).

(** The units of a work list in the order of the loops. *)
Definition all_units (subcategories : list (string * list string)) : list (string * string) :=
  flat_map (fun sb => pair sb.1 <$> sb.2) subcategories.

(** From [s] to [s'] no [save_url] call returned [True] and the table did
    not change. *)
Definition nothing_stored (s s' : State) : Prop :=
  exists evs, trace s' = (trace s ++ evs)%list /\ count_saved evs = 0 /\ db s' = db s.

(** An environment whose database cannot be reached. *)
Definition db_down_env : Env :=
  mkEnv true provider_one_listing (fun _ => ConnFailed) (fun _ => None)
        (fun _ => "2026-01-01T00:00:00") (fun _ => ["{}"]) (fun _ => None) false
        (Some ["S1"]) (fun _ => Some shoes_worklist).

(** The record of the last checkpoint save in a list of events. *)
Definition last_save (evs : list Event) : option Checkpoint :=
  foldl (fun acc e => match e with
                      | EvSaveCheckpoint _ c => Some c
                      | _ => acc
                      end) None evs.

(** From [s] to [s'] the checkpoint file follows the saves: it holds the
    record of the last one, or what it held when there was none. *)
Definition file_follows_saves (env : Env) (s s' : State) : Prop :=
  exists evs, trace s' = (trace s ++ evs)%list /\
    fs s' !! CHECKPOINT_FILE =
      match last_save evs with
      | Some c => Some (join (json_dump env c))
      | None => fs s !! CHECKPOINT_FILE
      end.

(** A checkpoint at the first brand of the example sheet. *)
Definition nike_checkpoint : Checkpoint :=
  mkCheckpoint "S1" "Fashion" (Some "Shoes") (Some "Nike") 20 2
               (Some "2026-01-01T00:00:00").

(** The units a run still has to crawl get their requests: with no
    checkpoint every unit, from offset 0; with a checkpoint at the unit
    [(S, B)] every unit that is not before it, the unit itself from the
    checkpoint's offset and the later ones from 0. *)
Definition covers_plan (rs : option Checkpoint)
    (subcategories : list (string * list string)) (evs : list Event) : Prop :=
  match rs with
  | None =>
      forall x y, is_unit subcategories x y ->
        resumed_requests 0 (unit_requests x y evs)
  | Some c =>
      forall S B, ck_subcategory c = Some S -> ck_brand c = Some B ->
        is_unit subcategories S B ->
        forall x y, is_unit subcategories x y ->
          (x, y) ∉ units_before subcategories S B ->
          resumed_requests (if bool_decide ((x, y) = (S, B)) then ck_start c else 0)
                           (unit_requests x y evs)
  end.

(** * Properties *)

(** ** Result extraction *)

Section Extraction.

Example extract_total_example :
  extract_total_results (envelope (PList []) [("total_results_count", PStr "1,234")])
  = Return (Some 1234).
Proof. by vm_compute. Qed.

Example py_int_examples :
  py_int " 12_000 " = Return 12000 /\ py_int "-7" = Return (-7) /\
  py_int "1__2" = Raise ValueError /\ py_int EmptyString = Raise ValueError /\
  py_int "12a" = Raise ValueError /\ py_int "007" = Return 7.
Proof. by vm_compute. Qed.

Example extract_link_examples :
  extract_link_from_result (PDict [("link", PStr "https://www.catawiki.com/en/l/7")])
    = Return "https://www.catawiki.com/en/l/7" /\
  extract_link_from_result (PDict [("url", PStr "ftp://x")]) = Return EmptyString /\
  extract_link_from_result (PStr "x") = Raise AttributeError /\
  split_head "&" "https://www.catawiki.com/en/l/7&utm_source=x"
    = "https://www.catawiki.com/en/l/7".
Proof. by vm_compute. Qed.

Lemma digit_not_space c : is_digit c = true -> is_space c = false.
Proof.
  unfold is_digit, is_space. intros H.
  apply andb_true_iff in H as [H1 H2].
  apply Nat.leb_le in H1. apply Nat.leb_le in H2.
  apply orb_false_iff; split; apply andb_false_iff.
  - right. apply Nat.leb_gt. lia.
  - right. apply Nat.leb_gt. lia.
Qed.

Lemma digit_not_sign c : is_digit c = true -> c <> "-"%char /\ c <> "+"%char /\ c <> "_"%char.
Proof. intros H. repeat split; intros ->; vm_compute in H; discriminate. Qed.

Lemma digits_value_lstrip acc s T :
  digits_value acc s = Some T -> lstrip s = s.
Proof.
  destruct s as [|c s]; simpl; [done|].
  destruct (is_digit c) eqn:Hd; [|done].
  intros _. by rewrite (digit_not_space _ Hd).
Qed.

Lemma digits_value_rstrip s : forall acc T,
  digits_value acc s = Some T -> rstrip s = s.
Proof.
  induction s as [|c s IH]; intros acc T; simpl; [done|].
  destruct (is_digit c) eqn:Hd; [|done].
  intros H. rewrite (IH _ _ H).
  destruct s; [|done]. by rewrite (digit_not_space _ Hd).
Qed.

Lemma digits_value_int_digits s : forall acc after T,
  digits_value acc s = Some T -> s <> EmptyString \/ after = true ->
  int_digits acc after s = Some T.
Proof.
  induction s as [|c s IH]; intros acc after T; simpl.
  - intros [= <-] [?| ->]; done.
  - destruct (is_digit c); [|done].
    intros H _. apply IH; [done|]. by right.
Qed.

(** [int] reads a plain decimal numeral as its value. *)
Lemma py_int_numeral s T : numeral_value s = Some T -> py_int s = Return T.
Proof.
  unfold numeral_value, py_int, strip. destruct s as [|c r] eqn:Hs; [done|].
  intros H. rewrite (digits_value_lstrip _ _ _ H), (digits_value_rstrip _ _ _ H).
  assert (Hd : is_digit c = true).
  { simpl in H. by destruct (is_digit c). }
  destruct (digit_not_sign _ Hd) as (Hm & Hp & _).
  rewrite (digits_value_int_digits _ 0 false T H) by (by left).
  destruct c as [[] [] [] [] [] [] [] []]; try reflexivity; congruence.
Qed.

Lemma int_of_total_renders total T :
  renders_count total T -> int_of_total total = Return T.
Proof.
  intros [-> | (s & -> & H)]; [done|]. by apply py_int_numeral.
Qed.

Lemma renders_count_truthy total T :
  renders_count total T -> T <> 0 -> py_truthy total = true.
Proof.
  intros [-> | (s & -> & H)] HT; simpl.
  - by apply negb_true_iff, Z.eqb_neq.
  - destruct s; [done|]. by rewrite bool_decide_eq_false_2.
Qed.

(** On a well-formed envelope the extractor reaches the
    [search_information] object. *)
Lemma extract_total_results_envelope data si :
  search_information data = Some si ->
  extract_total_results data =
    try_except
      (let total := default PNone (items_lookup "total_results_count" si) in
       if py_truthy total then n ← int_of_total total; Return (Some n)
       else Return None)
      [IndexError; KeyError; ValueError; TypeError]
      (fun _ => Return None).
Proof.
  unfold search_information, extract_total_results. intros H.
  destruct data as [| | | | |d]; try done. simpl.
  destruct (items_lookup "results" d) as [[| | | |[|[| | | | |first] ?]|]|]; try done.
  simpl.
  destruct (items_lookup "content" first) as [[| | | | |content]|]; try done. simpl.
  destruct (items_lookup "results" content) as [[| | | | |inner]|]; try done. simpl.
  destruct (items_lookup "search_information" inner) as [[| | | | |si']|]; try done.
  by injection H as ->.
Qed.

Lemma ceil_div_bounds T : 0 < T ->
  RESULTS_PER_PAGE * (ceil_div T RESULTS_PER_PAGE - 1) < T <= RESULTS_PER_PAGE * ceil_div T RESULTS_PER_PAGE.
Proof.
  unfold ceil_div, RESULTS_PER_PAGE. intros HT.
  pose proof (Z.div_mod (- T) 10 ltac:(lia)) as Hdm.
  pose proof (Z.mod_pos_bound (- T) 10 ltac:(lia)) as Hm. lia.
Qed.



End Extraction.

Section ExtractionBoundary.

(** On a well-formed envelope the extractor returns the organic results. *)
Lemma extract_results_envelope organic si :
  extract_results_from_oxylabs (envelope organic si) = Return organic.
Proof. reflexivity. Qed.

(** C5. The extractor is not total: on a response whose [content] is a
    string (and on any payload that is not a dict) [.get] raises
    [AttributeError], which the [except (IndexError, KeyError, TypeError)]
    of [extract_results_from_oxylabs] does not catch; the exception leaves
    the extractor and [process_page], and ends the brand. *)
Theorem extract_results_attribute_error_escapes :
  extract_results_from_oxylabs unparsed_content_payload = Raise AttributeError /\
  extract_results_from_oxylabs (PList []) = Raise AttributeError /\
  (forall env category subcategory brand l s,
      process_page env category subcategory brand unparsed_content_payload l s
      = (Raise AttributeError, l, s)).
Proof. repeat split. Qed.

End ExtractionBoundary.

(** ** The storage bridge *)

Section Storage.

Lemma insert_on_conflict_present row url (d : DB) :
  is_Some (d !! url) -> insert_on_conflict_do_nothing row url d = d.
Proof. intros [x Hx]. unfold insert_on_conflict_do_nothing. by rewrite Hx. Qed.

Lemma insert_on_conflict_lookup row url (d : DB) :
  is_Some (insert_on_conflict_do_nothing row url d !! url).
Proof.
  unfold insert_on_conflict_do_nothing.
  destruct (d !! url) eqn:Hx; [by rewrite Hx|]. rewrite lookup_insert_eq. eauto.
Qed.

Lemma insert_on_conflict_other row url u (d : DB) :
  u <> url -> insert_on_conflict_do_nothing row url d !! u = d !! u.
Proof.
  intros Hne. unfold insert_on_conflict_do_nothing.
  destruct (d !! url); [done|]. by rewrite lookup_insert_ne.
Qed.

(** C4, as stated, fails: on a URL that is already stored the statement
    inserts nothing, and [save_url] still returns [True]; and in a run where
    two brands meet the same listing, the listing is stored once and counted
    twice in the tally of new URLs. *)
Lemma save_url_true_on_duplicate :
  let r := save_url ExecOk "Fashion" "Shoes" "Adidas"
             "https://www.catawiki.com/en/l/1" db_with_listing in
  (r.1 = Return true /\ r.2 = db_with_listing /\
   ~ newly_inserted "https://www.catawiki.com/en/l/1" db_with_listing r.2) /\
  (total_urls_found same_listing_run.2 = 2 /\ size (db same_listing_run.2) = 1%nat).
Proof.
  cbv zeta. split; [|split; by vm_compute]. split; [done|]. split.
  - simpl. apply insert_on_conflict_present. unfold db_with_listing.
    rewrite lookup_singleton_eq. eauto.
  - intros [Hnone _]. unfold db_with_listing in Hnone.
    by rewrite lookup_singleton_eq in Hnone.
Qed.

Lemma count_saved_app a b : count_saved (a ++ b) = count_saved a + count_saved b.
Proof. unfold count_saved. rewrite List.filter_app, length_app. lia. Qed.

Lemma count_saved_cons e evs : count_saved (e :: evs) = count_saved [e] + count_saved evs.
Proof. exact (count_saved_app [e] evs). Qed.

(** The tallies of a page grow by the number of [save_url] calls that
    returned [True]. *)
Lemma store_results_tally env category subcategory brand organic : forall found l s,
  exists evs,
    trace (store_results env category subcategory brand organic found l s).2
      = (trace s ++ evs)%list /\
    total_urls_found (store_results env category subcategory brand organic found l s).2
      = total_urls_found s + count_saved evs /\
    brand_urls (store_results env category subcategory brand organic found l s).1.2
      = brand_urls l + count_saved evs /\
    (forall n, (store_results env category subcategory brand organic found l s).1.1
               = Return n -> n = found + count_saved evs).
Proof.
  induction organic as [|res rest IH]; intros found l s; simpl.
  { exists []. rewrite app_nil_r. change (count_saved []) with 0.
    repeat split; try lia. intros n [= <-]. lia. }
  destruct (extract_link_from_result res) as [link|e]; simpl.
  2: { exists []. rewrite app_nil_r. change (count_saved []) with 0.
       repeat split; try lia. done. }
  destruct (contains _ link); [|apply IH].
  destruct (bool_decide _); [apply IH|].
  destruct (save_url _ _ _ _ _ _) as [[[]|e] d'].
  - edestruct IH as (evs & Ht & Htot & Hb & Hn).
    eexists (_ :: evs). split; [rewrite Ht; simpl; by rewrite <- app_assoc|].
    rewrite Htot, Hb, count_saved_cons.
    change (count_saved [EvSaveUrl subcategory brand (split_head "&" link) true]) with 1.
    simpl. repeat split; try lia. intros n Hr. rewrite (Hn n Hr). lia.
  - edestruct IH as (evs & Ht & Htot & Hb & Hn).
    eexists (_ :: evs). split; [rewrite Ht; simpl; by rewrite <- app_assoc|].
    rewrite Htot, Hb, count_saved_cons.
    change (count_saved [EvSaveUrl subcategory brand (split_head "&" link) false]) with 0.
    simpl. repeat split; try lia. intros n Hr. rewrite (Hn n Hr). lia.
  - destruct (is_Exception e).
    + edestruct IH as (evs & Ht & Htot & Hb & Hn).
      eexists (_ :: evs). split; [rewrite Ht; simpl; by rewrite <- app_assoc|].
      rewrite Htot, Hb, count_saved_cons.
      change (count_saved [EvLog (LogSaveUrlFailed (split_head "&" link))]) with 0.
      simpl. repeat split; try lia. intros n Hr. rewrite (Hn n Hr). lia.
    + exists []. simpl. rewrite app_nil_r. change (count_saved []) with 0.
      repeat split; try lia. done.
Qed.

(** C4, amended. [save_url] never raises; it returns [True] exactly when the
    connection was obtained and the INSERT ... ON CONFLICT DO NOTHING
    statement ran, whether or not a row was inserted; the URL is then
    present, a table that already held it is unchanged, and no other row is
    touched; when the connection or the statement fails it returns [False]
    and the table is unchanged. The tallies of found URLs grow by the number
    of [save_url] calls that returned [True]. *)
Theorem save_url_true_iff_statement_ran (o : db_outcome)
    (category subcategory others url : string) (d : DB) :
  let r := save_url o category subcategory others url d in
  (exists b, r.1 = Return b) /\
  (r.1 = Return true <-> o = ExecOk) /\
  (o = ExecOk ->
     is_Some (r.2 !! url) /\ (forall u, u <> url -> r.2 !! u = d !! u) /\
     (is_Some (d !! url) -> r.2 = d)) /\
  (o <> ExecOk -> r.1 = Return false /\ r.2 = d) /\
  (forall env organic found l s,
     let p := store_results env category subcategory others organic found l s in
     exists evs,
       trace p.2 = (trace s ++ evs)%list /\
       total_urls_found p.2 = total_urls_found s + count_saved evs /\
       brand_urls p.1.2 = brand_urls l + count_saved evs /\
       (forall n, p.1.1 = Return n -> n = found + count_saved evs)).
Proof.
  cbv zeta.
  assert (Htally := fun env organic =>
            store_results_tally env category subcategory others organic).
  destruct o; simpl.
  - split; [eauto|]. split; [split; done|]. split; [done|]. split; done.
  - split; [eauto|]. split; [split; done|]. split; [done|]. split; done.
  - split; [eauto|]. split; [split; done|]. split; [|split; [done|]; done].
    intros _. split; [apply insert_on_conflict_lookup|].
    split; [intros u; apply insert_on_conflict_other|].
    apply insert_on_conflict_present.
Qed.

Lemma save_url_true_iff_statement_ran_witness :
  (save_url ExecOk "Fashion" "Shoes" "Adidas"
     "https://www.catawiki.com/en/l/1" db_with_listing).2 = db_with_listing.
Proof.
  pose proof (save_url_true_iff_statement_ran ExecOk "Fashion" "Shoes" "Adidas"
    "https://www.catawiki.com/en/l/1" db_with_listing) as (_ & _ & H & _).
  destruct (H eq_refl) as (_ & _ & Hsame). apply Hsame.
  unfold db_with_listing. rewrite lookup_singleton_eq. eauto.
Defined.

End Storage.

(** ** The checkpoint file *)

Section CheckpointFile.

Lemma append_assoc (a b c : string) : ((a ++ b) ++ c = a ++ (b ++ c))%string.
Proof. induction a as [|x a IH]; [done|]. exact (f_equal (String x) IH). Qed.

Lemma append_nil_r (a : string) : (a ++ EmptyString)%string = a.
Proof. induction a as [|x a IH]; [done|]. exact (f_equal (String x) IH). Qed.

Lemma tmp_path_not_canonical : tmp_path <> CHECKPOINT_FILE.
Proof. by vm_compute. Qed.

(** Writing the chunks appends their concatenation to the temporary file
    and touches no other path. *)
Lemma fs_run_writes chunks : forall (f : FS) acc,
  f !! tmp_path = Some acc ->
  fs_run (WriteChunk tmp_path <$> chunks) f !! tmp_path = Some (acc ++ join chunks)%string /\
  (forall p, p <> tmp_path -> fs_run (WriteChunk tmp_path <$> chunks) f !! p = f !! p).
Proof.
  unfold fs_run. induction chunks as [|c chunks IH]; intros f acc Hacc; simpl.
  - by rewrite append_nil_r.
  - rewrite Hacc.
    destruct (IH (<[tmp_path := (acc ++ c)%string]> f) (acc ++ c)%string) as [IH1 IH2];
      [by rewrite lookup_insert_eq|].
    split.
    + etrans; [exact IH1|]. f_equal. exact (append_assoc acc c (join chunks)).
    + intros p Hp. etrans; [exact (IH2 p Hp)|]. by rewrite lookup_insert_ne.
Qed.

(** Operations on the temporary file leave every other path as it was. *)
Lemma fs_run_tmp_only ops : forall (f : FS) p,
  Forall (fun op => match op with
                    | OpenTruncate q | WriteChunk q _ => q = tmp_path
                    | Replace _ _ => False
                    end) ops ->
  p <> tmp_path -> fs_run ops f !! p = f !! p.
Proof.
  unfold fs_run. induction ops as [|op ops IH]; intros f p Hall Hp; simpl; [done|].
  inversion Hall as [|? ? Hop Hrest]; subst.
  rewrite IH by done. destruct op as [q|q c|]; simpl; [| |done].
  - subst q. by rewrite lookup_insert_ne.
  - subst q. destruct (f !! tmp_path); [|done]. by rewrite lookup_insert_ne.
Qed.

Lemma save_checkpoint_ops_complete chunks (f : FS) :
  fs_run (save_checkpoint_ops chunks) f !! CHECKPOINT_FILE = Some (join chunks).
Proof.
  unfold save_checkpoint_ops, fs_run. simpl. rewrite foldl_app. simpl.
  destruct (fs_run_writes chunks (<[tmp_path := EmptyString]> f) EmptyString) as [H1 _];
    [by rewrite lookup_insert_eq|].
  unfold fs_run in H1. rewrite H1. by rewrite lookup_insert_eq.
Qed.

Lemma save_checkpoint_ops_prefix chunks (f : FS) k :
  (k < length (save_checkpoint_ops chunks))%nat ->
  fs_run (take k (save_checkpoint_ops chunks)) f !! CHECKPOINT_FILE = f !! CHECKPOINT_FILE.
Proof.
  unfold save_checkpoint_ops. intros Hk.
  rewrite app_comm_cons. rewrite app_comm_cons in Hk.
  rewrite length_app in Hk. simpl in Hk.
  rewrite take_app_le by (simpl; lia).
  apply fs_run_tmp_only; [|intros Heq; by apply tmp_path_not_canonical].
  apply Forall_take. constructor; [done|].
  apply Forall_fmap, Forall_forall. by intros.
Qed.

(** C6. Checkpoint atomicity: a save opens and writes the temporary path
    only and ends with one atomic replace of the temporary file onto the
    canonical path; if the process dies after any number [k] of the
    operations, the canonical path still shows what it showed before the
    save (the previous checkpoint, or no file), and once all operations are
    done it shows the complete record. *)
Theorem checkpoint_save_atomic (chunks : list string) (f : FS) (k : nat) :
  let ops := save_checkpoint_ops chunks in
  let seen := crash_during_save k chunks f !! CHECKPOINT_FILE in
  Forall respects_canonical ops /\
  last ops = Some (Replace tmp_path CHECKPOINT_FILE) /\
  ((k < length ops)%nat -> seen = f !! CHECKPOINT_FILE) /\
  ((length ops <= k)%nat -> seen = Some (join chunks)).
Proof.
  cbv zeta. split; [|split; [|split]].
  - unfold save_checkpoint_ops. constructor; [apply tmp_path_not_canonical|].
    apply Forall_app. split.
    + apply Forall_fmap, Forall_forall. intros c _. apply tmp_path_not_canonical.
    + by constructor.
  - unfold save_checkpoint_ops. rewrite app_comm_cons. apply last_snoc.
  - apply save_checkpoint_ops_prefix.
  - intros Hk. unfold crash_during_save. rewrite take_ge by done.
    apply save_checkpoint_ops_complete.
Qed.

Lemma checkpoint_save_atomic_witness :
  crash_during_save 2 ["{"; "}"] {[ CHECKPOINT_FILE := "old" ]} !! CHECKPOINT_FILE
  = Some "old" /\
  crash_during_save 4 ["{"; "}"] {[ CHECKPOINT_FILE := "old" ]} !! CHECKPOINT_FILE
  = Some "{}".
Proof.
  split.
  - destruct (checkpoint_save_atomic ["{"; "}"] {[ CHECKPOINT_FILE := "old" ]} 2)
      as (_ & _ & H & _).
    rewrite H by (simpl; lia). apply lookup_singleton_eq.
  - destruct (checkpoint_save_atomic ["{"; "}"] {[ CHECKPOINT_FILE := "old" ]} 4)
      as (_ & _ & _ & H).
    rewrite H by (simpl; lia). reflexivity.
Defined.

End CheckpointFile.

(** ** Events a piece of the run adds to the trace *)

Section Quiet.

Lemma only_logs_refl s : only_logs s s.
Proof. split; [|done]. exists []. by rewrite app_nil_r. Qed.

Lemma only_logs_trans s1 s2 s3 : only_logs s1 s2 -> only_logs s2 s3 -> only_logs s1 s3.
Proof.
  intros [(e1 & E1 & F1) (?&?&?&?&?&?)] [(e2 & E2 & F2) (?&?&?&?&?&?)].
  split; [|repeat split; congruence].
  exists (e1 ++ e2)%list. split; [by rewrite E2, E1, app_assoc|].
  by apply Forall_app.
Qed.

Lemma only_logs_log line s : only_logs s (log line s).
Proof. split; [|done]. exists [EvLog line]. split; [done|]. by repeat constructor. Qed.

Lemma load_checkpoint_only_logs env s : only_logs s (load_checkpoint env s).2.
Proof.
  unfold load_checkpoint. destruct (fs s !! CHECKPOINT_FILE); [|apply only_logs_refl].
  destruct (ck_unreadable env); simpl; [apply only_logs_log|].
  destruct (json_load env _); simpl; [apply only_logs_refl|apply only_logs_log].
Qed.

End Quiet.

(** ** Missing credentials *)

Section Credentials.

Variable env : Env.
Hypothesis no_credentials : credentials env = false.

Lemma crawl_without_credentials sheet rs s :
  crawl env sheet rs s =
    match load_subcategories_from_excel env sheet with
    | Some _ => (Finished, log LogCredentialsMissing s)
    | None => (Raised OtherException, s)
    end.
Proof.
  unfold crawl. destruct (load_subcategories_from_excel env sheet); [|done].
  by rewrite no_credentials.
Qed.

Lemma for_sheets_without_credentials sheets : forall resume s,
  only_logs s (for_sheets env resume sheets s).2.
Proof.
  induction sheets as [|sheet rest IH]; intros resume s; simpl; [apply only_logs_refl|].
  destruct resume as [rs|].
  - destruct (bool_decide (ck_sheet rs = sheet)).
    + rewrite crawl_without_credentials.
      destruct (load_subcategories_from_excel env sheet); simpl.
      * eapply only_logs_trans; [apply only_logs_log | apply IH].
      * apply only_logs_log.
    + eapply only_logs_trans; [apply only_logs_log | apply IH].
  - rewrite crawl_without_credentials.
    destruct (load_subcategories_from_excel env sheet); simpl.
    + eapply only_logs_trans; [apply only_logs_log | apply IH].
    + apply only_logs_log.
Qed.

Lemma main_without_credentials s : only_logs s (main env s).2.
Proof.
  unfold main. pose proof (load_checkpoint_only_logs env s) as Hl.
  destruct (load_checkpoint env s) as [r s1]. simpl in Hl.
  destruct r as [resume|e]; [|done].
  destruct (sheet_names env) as [sheets|]; [|done].
  pose proof (for_sheets_without_credentials sheets resume s1) as Hf.
  destruct (for_sheets env resume sheets s1) as [o s2]. simpl in Hf.
  destruct o; simpl; try by eapply only_logs_trans.
  eapply only_logs_trans; [done|]. eapply only_logs_trans; [done|apply only_logs_log].
Qed.

End Credentials.

(** C9. Without provider credentials every call of [crawl] logs the error
    and returns before [init_db] and before any brand; over the whole run the
    trace gains log lines only (no provider request, no checkpoint save, no
    stored URL), no database call is made, no statistics row is added, and
    the file system, with the checkpoint file in it, and the table are as
    they were. *)
Theorem missing_credentials_no_work (env : Env) (s : State) :
  credentials env = false ->
  (forall sheet resume_state wl s1,
      load_subcategories_from_excel env sheet = Some wl ->
      crawl env sheet resume_state s1 = (Finished, log LogCredentialsMissing s1)) /\
  (exists evs, trace (main env s).2 = (trace s ++ evs)%list /\ Forall is_log evs) /\
  fs (main env s).2 = fs s /\
  db (main env s).2 = db s /\
  n_requests (main env s).2 = n_requests s /\
  n_db_calls (main env s).2 = n_db_calls s /\
  n_saves (main env s).2 = n_saves s /\
  log_stats (main env s).2 = log_stats s.
Proof.
  intros Hc. split.
  - intros sheet rs wl s1 Hwl. rewrite crawl_without_credentials by done. by rewrite Hwl.
  - apply main_without_credentials, Hc.
Qed.

Lemma missing_credentials_no_work_witness :
  fs (main no_credentials_env
        (initial_state ∅ {[ CHECKPOINT_FILE := "previous checkpoint" ]})).2
  = {[ CHECKPOINT_FILE := "previous checkpoint" ]}.
Proof.
  destruct (missing_credentials_no_work no_credentials_env
    (initial_state ∅ {[ CHECKPOINT_FILE := "previous checkpoint" ]}) eq_refl)
    as (_ & _ & H & _).
  exact H.
Defined.

(** ** The empty streak *)

Section EmptyStreak.

(** The path of a fetched page does make the test: a second consecutive
    page without a new URL ends the pagination of the brand. *)
Lemma fetched_empty_pages_stop env category subcategory brand max_start data l s l1 s1 :
  process_page env category subcategory brand data l s = (Return 0, l1, s1) ->
  1 <= consecutive_empty l1 ->
  exists l' s',
    after_fetch env category subcategory brand max_start data l s = Break Finished l' s'.
Proof.
  intros Hp Hc. unfold after_fetch. rewrite Hp. simpl.
  replace (consecutive_empty l1 + 1 >=? MAX_CONSECUTIVE_EMPTY) with true; [by eexists _, _|].
  symmetry. unfold MAX_CONSECUTIVE_EMPTY. apply Z.geb_le. lia.
Qed.

(** C3. A page given up after [MAX_RETRIES] failed attempts adds one to
    [consecutive_empty] but leaves the iteration by [continue], before the
    test against [MAX_CONSECUTIVE_EMPTY]. With the provider down, the offsets
    0 and 10 are two consecutive attempts without a new URL and offset 20 is
    fetched all the same, and so is every offset up to the ceiling: 301 pages
    of 5 requests each after the probe. The same happens after an empty page
    followed by a failed one. *)
Theorem failed_pages_do_not_stop_pagination :
  dead_provider_run.1 = Finished /\
  skipped_starts (trace dead_provider_run.2)
    = (fun k => 10 * Z.of_nat k) <$> seq 0 301 /\
  EvRequest PageFetch "Shoes" "Nike" 20 ∈ trace dead_provider_run.2 /\
  length (requests (trace dead_provider_run.2)) = 1506%nat /\
  pages_done (trace empty_then_dead_run.2) = [(0, 0)] /\
  take 2 (skipped_starts (trace empty_then_dead_run.2)) = [10; 20].
Proof.
  split; [by vm_compute|]. split; [by vm_compute|]. split.
  { apply (bool_decide_unpack _). by vm_compute. }
  split; [by vm_compute|]. split; by vm_compute.
Qed.

End EmptyStreak.

(** ** The shape of the trace of a crawl

    Each piece of [crawl] is described by the events it adds: one pass of
    the loop body ([step_ok]), the pagination of a brand ([pages_io]), one
    brand ([unit_io]), and the whole run along its resume plan ([run_io]). *)

Section TraceShape.

Lemma emits_refl s : emits [] s s.
Proof. split; [by rewrite app_nil_r|done]. Qed.

Lemma emits_trans a b s1 s2 s3 :
  emits a s1 s2 -> emits b s2 s3 -> emits (a ++ b) s1 s3.
Proof.
  intros [E1 K1] [E2 K2]. split; [|congruence].
  by rewrite E2, E1, app_assoc.
Qed.

Lemma emits_emit e s : emits [e] s (emit e s).
Proof. done. Qed.

Lemma io_app a b : io (a ++ b) = (io a ++ io b)%list.
Proof. apply List.filter_app. Qed.

Lemma io_logs evs : Forall is_log evs -> io evs = [].
Proof.
  induction 1 as [|e evs He _ IH]; [done|].
  destruct e; try done.
Qed.

Lemma save_checkpoint_emits env site c s :
  exists logs, Forall is_log logs /\
    emits (EvSaveCheckpoint site c :: logs) s (save_checkpoint env site c s) /\
    ck (save_checkpoint env site c s) = ck s /\
    n_saves (save_checkpoint env site c s) = S (n_saves s).
Proof.
  unfold save_checkpoint, save_checkpoint_result.
  destruct (write_checkpoint _ _ _) as [[[]|e] f].
  - exists []. by repeat split.
  - destruct (is_Exception e).
    + exists [EvLog LogCheckpointSaveFailed]. repeat split; try done.
      * by repeat constructor.
      * simpl. by rewrite <- app_assoc.
    + exists []. by repeat split.
Qed.

Lemma fetch_with_retries_emits env subcategory brand st attempts : forall s,
  exists evs,
    emits evs s (fetch_with_retries env subcategory brand st attempts s).2 /\
    ck (fetch_with_retries env subcategory brand st attempts s).2 = ck s /\
    n_saves (fetch_with_retries env subcategory brand st attempts s).2 = n_saves s /\
    Forall (fun e => e = EvRequest PageFetch subcategory brand st) (io evs) /\
    (attempts <> [] -> io evs <> []).
Proof.
  induction attempts as [|a later IH]; intros s; simpl.
  - exists []. split; [apply emits_refl|]. by repeat split.
  - destruct (provider env (n_requests s) _ _);
      try (exists [EvRequest PageFetch subcategory brand st];
           split; [done|]; repeat split; try done; by repeat constructor).
    edestruct IH as (evs & He & Hck & Hn & Hall & _).
    eexists (_ :: _ :: evs). split; [|split; [|split; [|split]]].
    + eapply (emits_trans [_; _]); [|exact He]. split; [|done]. simpl.
      by rewrite <- app_assoc.
    + by rewrite Hck.
    + by rewrite Hn.
    + simpl. by constructor.
    + done.
Qed.


(** One event, then what the induction hypothesis gives for the rest. *)
Ltac one_more_event IH :=
  let evs := fresh "evs" in
  edestruct IH as (evs & He & Hck & Hn & Hio & Hst & Hpn);
  eexists (_ :: evs);
  split; [eapply (emits_trans [_]); [|exact He]; done|];
  split; [by rewrite Hck|]; split; [by rewrite Hn|]; split; [done|];
  split; [by rewrite Hst|by rewrite Hpn].

Lemma store_results_emits env category subcategory brand organic : forall found l s,
  exists evs,
    emits evs s (store_results env category subcategory brand organic found l s).2 /\
    ck (store_results env category subcategory brand organic found l s).2 = ck s /\
    n_saves (store_results env category subcategory brand organic found l s).2 = n_saves s /\
    io evs = [] /\
    start (store_results env category subcategory brand organic found l s).1.2 = start l /\
    page_num (store_results env category subcategory brand organic found l s).1.2 = page_num l.
Proof.
  induction organic as [|res rest IH]; intros found l s; simpl.
  - exists []. split; [apply emits_refl|]. by repeat split.
  - destruct (extract_link_from_result res) as [link|e]; simpl.
    2: { exists []. split; [apply emits_refl|]. by repeat split. }
    destruct (contains _ link); [|apply IH].
    destruct (bool_decide _); [apply IH|].
    destruct (save_url _ _ _ _ _ _) as [[[]|e] d'].
    + one_more_event IH.
    + one_more_event IH.
    + destruct (is_Exception e); [one_more_event IH|].
      exists []. split; [split; [simpl; by rewrite app_nil_r|done]|]. by repeat split.
Qed.

Lemma process_page_emits env category subcategory brand data l s :
  exists evs,
    emits evs s (process_page env category subcategory brand data l s).2 /\
    ck (process_page env category subcategory brand data l s).2 = ck s /\
    n_saves (process_page env category subcategory brand data l s).2 = n_saves s /\
    io evs = [] /\
    start (process_page env category subcategory brand data l s).1.2 = start l /\
    page_num (process_page env category subcategory brand data l s).1.2 = page_num l.
Proof.
  unfold process_page.
  destruct (extract_results_from_oxylabs data) as [organic|e].
  2: { exists []. split; [apply emits_refl|]. by repeat split. }
  destruct (extract_total_results data) as [t|e].
  2: { exists []. split; [apply emits_refl|]. by repeat split. }
  destruct (py_iter organic) as [results|e].
  2: { exists []. split; [apply emits_refl|]. by repeat split. }
  apply store_results_emits.
Qed.


Lemma on_page_exception_ok env subcategory brand e l s :
  step_ok subcategory brand (ck s) l s [] (on_page_exception env e l s).
Proof.
  unfold on_page_exception. destruct (bool_decide (e = KeyboardInterrupt)).
  - destruct (save_checkpoint_emits env PageInterrupted (ck s) s)
      as (logs & Hlogs & He & Hck & _).
    eexists _, [EvSaveCheckpoint PageInterrupted (ck s)], l, _.
    split; [right; eexists; split; [reflexivity|done]|].
    split; [exact He|]. split; [done|]. split.
    + simpl. by rewrite (io_logs _ Hlogs).
    + constructor; [by right|done].
  - exists [], [], l, s.
    split; [right; eexists; split; [reflexivity|done]|].
    split; [apply emits_refl|]. by repeat split.
Qed.

(** Events in front of a step: the step is as good after them. *)
Lemma step_ok_after subcategory brand c l l0 s0 s pre prefix r :
  emits pre s0 s -> start l = start l0 ->
  step_ok subcategory brand c l s [] r ->
  io pre = prefix ->
  step_ok subcategory brand c l0 s0 prefix r.
Proof.
  intros Hpre Hst (evs & more & l' & s' & Hr & He & Hck & Hio & Hmore) Hp.
  exists (pre ++ evs)%list, more, l', s'.
  split; [by rewrite <- Hst|].
  split; [by eapply emits_trans|]. split; [done|]. split; [|done].
  by rewrite io_app, Hio, Hp.
Qed.

Lemma after_fetch_ok env category subcategory brand max_start data l s :
  step_ok subcategory brand (ck s) l s []
    (after_fetch env category subcategory brand max_start data l s).
Proof.
  unfold after_fetch.
  destruct (process_page_emits env category subcategory brand data l s)
    as (evs & He & Hck & _ & Hio & Hst & _).
  destruct (process_page env category subcategory brand data l s) as [[r l1] s1].
  simpl in *. destruct r as [found|e].
  - set (l2 := if found =? 0 then _ else _).
    assert (Hl2 : start l2 = start l).
    { unfold l2. by destruct (found =? 0). }
    destruct ((found =? 0) && _).
    + eexists (evs ++ [_; _])%list, [], _, _.
      split; [right; eexists; split; [reflexivity|done]|].
      split; [eapply emits_trans; [exact He|]; split; [simpl; by rewrite <- app_assoc|done]|].
      split; [done|]. split; [|done]. by rewrite io_app, Hio.
    + destruct (start l2 + RESULTS_PER_PAGE >? max_start).
      * eexists (evs ++ [_; _])%list, [], _, _.
        split; [right; eexists; split; [reflexivity|done]|].
        split; [eapply emits_trans; [exact He|]; split; [simpl; by rewrite <- app_assoc|done]|].
        split; [done|]. split; [|done]. by rewrite io_app, Hio.
      * eexists (evs ++ [_])%list, [], _, _.
        split; [left; split; [reflexivity|simpl; by rewrite Hl2]|].
        split; [eapply emits_trans; [exact He|]; done|].
        split; [done|]. split; [|done]. by rewrite io_app, Hio.
  - rewrite <- Hck.
    eapply (step_ok_after _ _ _ l1); [exact He|done| |done].
    apply on_page_exception_ok.
Qed.

Lemma page_step_ok env category subcategory brand max_start l s :
  let c := ck_update_position (start l) (page_num l)
             (Some (utcnow env (n_saves s))) (ck s) in
  step_ok subcategory brand c l s
    [EvSaveCheckpoint BeforePage c; EvRequest PageFetch subcategory brand (start l)]
    (page_step env category subcategory brand max_start l s).
Proof.
  intros c. unfold page_step. fold c.
  set (s1 := set_ck c s).
  destruct (save_checkpoint_emits env BeforePage c s1) as (logs & Hlogs & Hs & Hck2 & _).
  change (ck s1) with c.
  set (s2 := save_checkpoint env BeforePage c s1) in *.
  destruct (fetch_with_retries_emits env subcategory brand (start l) (seq 1 MAX_RETRIES) s2)
    as (evf & Hf & Hck3 & _ & Hall & Hne).
  destruct (fetch_with_retries env subcategory brand (start l) (seq 1 MAX_RETRIES) s2)
    as [r s3]. simpl in *.
  assert (Hck : ck s3 = c) by (by rewrite Hck3, Hck2).
  destruct (io evf) as [|e0 more] eqn:Hio; [by destruct Hne|].
  inversion Hall as [|? ? -> Hmore]; subst.
  assert (Hpre : emits (EvSaveCheckpoint BeforePage c :: logs ++ evf)%list s s3).
  { eapply (emits_trans (_ :: _)); [|exact Hf]. exact Hs. }
  assert (Hpio : io (EvSaveCheckpoint BeforePage c :: logs ++ evf)%list
                 = ([EvSaveCheckpoint BeforePage c;
                     EvRequest PageFetch subcategory brand (start l)] ++ more)%list).
  { simpl. by rewrite io_app, (io_logs _ Hlogs), Hio. }
  assert (Hmore' : Forall (page_tail_event subcategory brand c) more).
  { eapply Forall_impl; [exact Hmore|]. intros e ->. by left. }
  assert (Hgen : forall r0, step_ok subcategory brand c l s3 [] r0 ->
            step_ok subcategory brand c l s
              [EvSaveCheckpoint BeforePage c; EvRequest PageFetch subcategory brand (start l)] r0).
  { intros r0 (evs & more2 & l' & s' & Hr & He & Hck' & Hio2 & Hm2).
    exists ((EvSaveCheckpoint BeforePage c :: logs ++ evf) ++ evs)%list, (more ++ more2)%list, l', s'.
    split; [done|]. split; [by eapply emits_trans|]. split; [done|]. split.
    - rewrite io_app, Hpio, Hio2. simpl. by rewrite <- ?app_assoc.
    - by apply Forall_app. }
  destruct r as [data|e].
  - destruct data; try (apply Hgen; rewrite <- Hck; apply after_fetch_ok).
    apply Hgen. eexists [_], [], _, _.
    split; [left; split; [reflexivity|done]|].
    split; [done|]. by repeat split.
  - apply Hgen. rewrite <- Hck. apply on_page_exception_ok.
Qed.


Lemma same_unit_refl c : same_unit c c.
Proof. by repeat split. Qed.

Lemma same_unit_trans c1 c2 c3 : same_unit c1 c2 -> same_unit c2 c3 -> same_unit c1 c3.
Proof. intros (?&?&?&?) (?&?&?&?). repeat split; congruence. Qed.

Lemma same_unit_update st pn ts c : same_unit (ck_update_position st pn ts c) c.
Proof. by repeat split. Qed.

Lemma pages_io_same_unit subcategory brand c c0 st evs :
  same_unit c c0 -> pages_io subcategory brand c st evs ->
  pages_io subcategory brand c0 st evs.
Proof.
  intros Hc. induction 1 as [|st c' more rest Hu Hst Hmore _ IH]; [constructor|].
  constructor; try done. by eapply same_unit_trans.
Qed.

Lemma last_saved_app a b c0 : last_saved (a ++ b) c0 = last_saved b (last_saved a c0).
Proof. unfold last_saved. by rewrite foldl_app. Qed.

Lemma last_saved_page_tail subcategory brand c more :
  Forall (page_tail_event subcategory brand c) more -> last_saved more c = c.
Proof.
  induction 1 as [|e more [->| ->] _ IH]; [done| |]; exact IH.
Qed.

Lemma paginate_io env category subcategory brand max_start fuel : forall l s,
  exists evs,
    emits evs s (paginate fuel env category subcategory brand max_start l s).2 /\
    pages_io subcategory brand (ck s) (start l) (io evs) /\
    ck (paginate fuel env category subcategory brand max_start l s).2
      = last_saved (io evs) (ck s) /\
    starts_at_page (io evs) (page_num l).
Proof.
  induction fuel as [|fuel IH]; intros l s; simpl.
  { exists []. split; [apply emits_refl|]. split; [constructor|done]. }
  destruct (start l <=? max_start).
  2: { exists []. split; [apply emits_refl|]. split; [constructor|done]. }
  destruct (page_step_ok env category subcategory brand max_start l s)
    as (evs & more & l' & s' & Hr & He & Hck & Hio & Hmore).
  set (c := ck_update_position _ _ _ _) in *.
  destruct Hr as [[-> Hst] | (o & -> & _)].
  - destruct (IH l' s') as (evs2 & He2 & Hp2 & Hck2 & _).
    exists (evs ++ evs2)%list. split; [by eapply emits_trans|].
    rewrite io_app, Hio. simpl. split; [|split; [|done]].
    + constructor; [apply same_unit_update|done|done|].
      rewrite <- Hst. eapply pages_io_same_unit; [|exact Hp2].
      rewrite Hck. apply same_unit_update.
    + rewrite Hck2, Hck. unfold last_saved at 2. simpl.
      fold (last_saved (more ++ io evs2) c).
      by rewrite last_saved_app, (last_saved_page_tail _ _ _ _ Hmore).
  - exists evs. split; [done|]. rewrite Hio. simpl. split; [|split; [|done]].
    + rewrite <- (app_nil_r more).
      constructor; [apply same_unit_update|done|done|constructor].
    + rewrite Hck. unfold last_saved. simpl.
      fold (last_saved more c).
      by rewrite (last_saved_page_tail _ _ _ _ Hmore).
Qed.

(** The loop is unrolled often enough: it never stops for want of fuel. *)
Lemma paginate_fuel env category subcategory brand max_start fuel : forall l s,
  (start l <= max_start -> (max_start - start l) / RESULTS_PER_PAGE + 1 < Z.of_nat fuel) ->
  (0 < fuel)%nat ->
  (paginate fuel env category subcategory brand max_start l s).1.1 <> OutOfFuel.
Proof.
  induction fuel as [|fuel IH]; intros l s Hfuel Hpos; [lia|]. simpl.
  destruct (start l <=? max_start) eqn:Hle; [|done].
  apply Z.leb_le in Hle. specialize (Hfuel Hle).
  destruct (page_step_ok env category subcategory brand max_start l s)
    as (evs & more & l' & s' & Hr & _).
  destruct Hr as [[-> Hst] | (o & -> & Ho)]; [|done].
  unfold RESULTS_PER_PAGE in *.
  assert (0 <= (max_start - start l) / 10) by (apply Z.div_pos; lia).
  apply IH; [|lia]. intros Hle'. rewrite Hst.
  replace (max_start - (start l + 10)) with ((max_start - start l) + (-1) * 10) by lia.
  rewrite Z.div_add by lia. lia.
Qed.

Lemma paginate_enough_fuel env category subcategory brand max_start l s :
  (paginate (pagination_fuel (start l) max_start) env category subcategory brand
            max_start l s).1.1 <> OutOfFuel.
Proof.
  apply paginate_fuel; unfold pagination_fuel; [|lia].
  intros Hle. unfold RESULTS_PER_PAGE.
  assert (0 <= (max_start - start l) / 10) by (apply Z.div_pos; lia). lia.
Qed.


Lemma brand_body_io env category rs subcategory brands brand l s :
  let d := resume_logic rs (skip_until_resume s) subcategory brand brands in
  let r := brand_body env category rs subcategory brands brand l s in
  r.1.1 <> OutOfFuel /\
  exists evs, trace r.2 = (trace s ++ evs)%list /\
    match d with
    | Proceed st pn resumed =>
        let c0 := ck_set_unit subcategory brand st pn (ck s) in
        exists pages,
          io evs = EvRequest Probe subcategory brand 0 :: pages /\
          pages_io subcategory brand c0 st pages /\
          starts_at_page pages pn /\
          ck r.2 = last_saved pages c0 /\
          skip_until_resume r.2 = (if resumed then false else skip_until_resume s)
    | _ => io evs = [] /\ ck r.2 = ck s /\ skip_until_resume r.2 = skip_until_resume s /\
           (r.1.1 = Finished \/ r.1.1 = Raised AttributeError)
    end.
Proof.
  cbv zeta. unfold brand_body.
  destruct (resume_logic rs (skip_until_resume s) subcategory brand brands)
    as [|st pn resumed|]; unfold oxylabs_search; cbv beta iota zeta.
  - split; [done|]. exists [EvLog (LogSkipBrand brand)]. repeat split; auto.
  - set (s1 := if resumed then _ else s).
    assert (H1 : exists logs, Forall is_log logs /\ trace s1 = (trace s ++ logs)%list /\
                   ck s1 = ck s /\
                   skip_until_resume s1 = (if resumed then false else skip_until_resume s)).
    { unfold s1. destruct resumed.
      - eexists [_]. repeat split; try done. by repeat constructor.
      - exists []. split; [done|]. by rewrite app_nil_r. }
    destruct H1 as (logs & Hlogs & Ht1 & Hck1 & Hsk1).
    rewrite Hck1.
    set (c0 := ck_set_unit subcategory brand st pn (ck s)).
    set (l1 := set_seen_urls _ _).
    set (s2 := count_request _).
    assert (Ht2 : trace s2 = (trace s ++ logs ++ [EvRequest Probe subcategory brand 0])%list).
    { unfold s2. simpl. by rewrite Ht1, <- app_assoc. }
    assert (Hck2 : ck s2 = c0) by done.
    assert (Hsk2 : skip_until_resume s2 = (if resumed then false else skip_until_resume s)) by done.
    destruct (probe_max_start _) as [max_start|e].
    + set (s3 := match probe_body _ with Return _ => s2 | Raise _ => _ end).
      assert (H3 : exists logs3, Forall is_log logs3 /\ emits logs3 s2 s3 /\ ck s3 = c0).
      { unfold s3. destruct (probe_body _).
        - exists []. split; [done|]. split; [apply emits_refl|done].
        - exists [EvLog LogProbeFailed]. split; [by repeat constructor|]. by split. }
      destruct H3 as (logs3 & Hlogs3 & [Ht3 Hsk3] & Hck3).
      pose proof (paginate_enough_fuel env category subcategory brand max_start l1 s3) as Hfuel.
      destruct (paginate_io env category subcategory brand max_start
                  (pagination_fuel (start l1) max_start) l1 s3)
        as (evs & [Ht Hsk] & Hp & Hck & Hpn).
      split; [done|].
      exists ((logs ++ [EvRequest Probe subcategory brand 0]) ++ logs3 ++ evs)%list.
      split; [by rewrite Ht, Ht3, Ht2, <- !app_assoc|].
      exists (io evs).
      split. { by rewrite !io_app, (io_logs _ Hlogs), (io_logs _ Hlogs3). }
      rewrite Hck3 in Hp, Hck.
      split; [exact Hp|]. split; [exact Hpn|]. split; [exact Hck|].
      by rewrite Hsk, Hsk3.
    + split; [done|]. simpl.
      exists (logs ++ [EvRequest Probe subcategory brand 0])%list.
      split; [done|]. exists [].
      split. { by rewrite io_app, (io_logs _ Hlogs). }
      split; [constructor|]. by repeat split.
  - split; [done|]. exists []. rewrite app_nil_r. repeat split; auto.
Qed.

Lemma process_brand_io env wl rs subcategory brands brand s :
  let d := resume_logic rs (skip_until_resume s) subcategory brand brands in
  let r := process_brand env wl rs subcategory brands brand s in
  (r.1 = Finished \/
   r.1 = Raised KeyboardInterrupt /\ exists st pn resumed, d = Proceed st pn resumed) /\
  exists evs, trace r.2 = (trace s ++ evs)%list /\
    unit_io subcategory brand (ck s) d (io evs) (ck r.2) /\
    skip_until_resume r.2 = flag_after d (skip_until_resume s).
Proof.
  cbv zeta. unfold process_brand.
  destruct (brand_body_io env (wl_category wl) rs subcategory brands brand
              (mkLocals 0 0 0 0 ∅) s) as (Hfuel & evs & Ht & Hd).
  destruct (brand_body _ _ _ _ _ _ _ _) as [[o l] s1]. simpl in Hfuel, Ht, Hd.
  set (d := resume_logic rs (skip_until_resume s) subcategory brand brands) in *.
  destruct o as [|e|]; [| |done]; cbv beta iota zeta.
  - set (s2 := set_stats _ s1).
    destruct (save_checkpoint_emits env UnitEnd (ck s2) s2) as (logs & Hlogs & [Hts Hsk] & Hck & _).
    set (s3 := save_checkpoint env UnitEnd (ck s2) s2) in *.
    change (ck s2) with (ck s1) in *. change (trace s2) with (trace s1) in Hts.
    change (skip_until_resume s2) with (skip_until_resume s1) in Hsk.
    split; [by left|].
    exists (evs ++ EvSaveCheckpoint UnitEnd (ck s1) :: logs)%list.
    change ((Finished, s3).2) with s3.
    split; [by rewrite Hts, Ht, <- app_assoc|].
    assert (Hio : io (evs ++ EvSaveCheckpoint UnitEnd (ck s1) :: logs)
                  = (io evs ++ [EvSaveCheckpoint UnitEnd (ck s1)])%list).
    { rewrite io_app. f_equal. simpl. by rewrite (io_logs _ Hlogs). }
    rewrite Hio, Hck, Hsk.
    destruct d as [|st pn resumed|].
    + destruct Hd as (-> & -> & -> & _). split; [|done]. constructor. by left.
    + destruct Hd as (pages & -> & Hp & Hpn & Hck1 & Hsk1).
      split; [|by destruct resumed]. by constructor.
    + destruct Hd as (-> & -> & -> & _). split; [|done]. constructor. by right.
  - set (s1' := if is_Exception e then log (LogBrandException brand) s1 else s1).
    set (s2 := set_stats _ s1').
    assert (H2 : exists logs2, Forall is_log logs2 /\ trace s2 = (trace s1 ++ logs2)%list /\
               ck s2 = ck s1 /\ skip_until_resume s2 = skip_until_resume s1).
    { unfold s2, s1'. destruct (is_Exception e).
      - exists [EvLog (LogBrandException brand)]. split; [by repeat constructor|done].
      - exists []. split; [done|]. simpl. by rewrite app_nil_r. }
    destruct H2 as (logs2 & Hlogs2 & Ht2 & Hck2 & Hsk2).
    destruct (save_checkpoint_emits env UnitEnd (ck s2) s2) as (logs & Hlogs & [Hts Hsk] & Hck & _).
    set (s3 := save_checkpoint env UnitEnd (ck s2) s2) in *.
    assert (Hout : (if is_Exception e then (Finished, s3) else (Raised e, s3)).2 = s3)
      by (by destruct (is_Exception e)).
    rewrite Hout. split.
    { destruct d as [|st pn resumed|].
      - destruct Hd as (_ & _ & _ & [?|[= ->]]); [done|]. by left.
      - destruct e; simpl; eauto 10.
      - destruct Hd as (_ & _ & _ & [?|[= ->]]); [done|]. by left. }
    exists (evs ++ logs2 ++ EvSaveCheckpoint UnitEnd (ck s1) :: logs)%list.
    split; [rewrite Hts, Ht2, Ht, Hck2; by rewrite <- !app_assoc|].
    assert (Hio : io (evs ++ logs2 ++ EvSaveCheckpoint UnitEnd (ck s1) :: logs)
                  = (io evs ++ [EvSaveCheckpoint UnitEnd (ck s1)])%list).
    { rewrite !io_app. f_equal. simpl. by rewrite (io_logs _ Hlogs), (io_logs _ Hlogs2). }
    rewrite Hio, Hck, Hck2, Hsk, Hsk2.
    destruct d as [|st pn resumed|].
    + destruct Hd as (-> & -> & -> & _). split; [|done]. constructor. by left.
    + destruct Hd as (pages & -> & Hp & Hpn & Hck1 & Hsk1).
      split; [|by destruct resumed]. by constructor.
    + destruct Hd as (-> & -> & -> & _). split; [|done]. constructor. by right.
Qed.


Lemma run_io_app p q c evs c' complete evs' c'' :
  run_io true p c evs c' -> run_io complete q c' evs' c'' ->
  run_io complete (p ++ q) c (evs ++ evs') c''.
Proof.
  intros Hp. remember true as b eqn:Hb. revert Hb.
  induction Hp as [c|? ? ? ? ? ? ? ? ? ?|b x y d p c evs c1 evs1 c2 Hu Hp IH];
    intros Hb Hq; [done|done|].
  rewrite <- app_assoc. simpl. econstructor; [exact Hu|]. by apply IH.
Qed.

Lemma run_io_extend p q c evs c' :
  run_io false p c evs c' -> run_io false (p ++ q) c evs c'.
Proof.
  intros Hp. remember false as b eqn:Hb. revert Hb.
  induction Hp as [c|x y st pn resumed p c evs c1 Hu
                   |b x y d p c evs c1 evs1 c2 Hu Hp IH]; intros Hb; [done| |].
  - simpl. by constructor.
  - simpl. econstructor; [exact Hu|]. by apply IH.
Qed.

Lemma plan_brands_flag rs subcategory brands todo : forall skip,
  (plan_brands rs skip subcategory brands todo).2 = true -> skip = true.
Proof.
  induction todo as [|b rest IH]; intros skip; simpl; [done|].
  destruct (plan_brands rs _ subcategory brands rest) as [p f] eqn:Hp. simpl.
  intros ->. specialize (IH (flag_after (resume_logic rs skip subcategory b brands) skip)).
  rewrite Hp in IH. specialize (IH eq_refl).
  destruct (resume_logic rs skip subcategory b brands) as [|? ? []|]; simpl in IH; done.
Qed.

Lemma for_brands_io env wl rs subcategory brands todo : forall s,
  let r := for_brands env wl rs subcategory brands todo s in
  let pl := plan_brands rs (skip_until_resume s) subcategory brands todo in
  exists evs, trace r.2 = (trace s ++ evs)%list /\
    (r.1 = Finished /\ run_io true pl.1 (ck s) (io evs) (ck r.2) /\
       skip_until_resume r.2 = pl.2
     \/ r.1 = Raised KeyboardInterrupt /\ run_io false pl.1 (ck s) (io evs) (ck r.2)).
Proof.
  induction todo as [|brand rest IH]; intros s; cbv zeta; simpl.
  - exists []. rewrite app_nil_r. split; [done|]. left. repeat split. constructor.
  - destruct (process_brand_io env wl rs subcategory brands brand s)
      as (Ho & evs & Ht & Hu & Hsk).
    destruct (process_brand env wl rs subcategory brands brand s) as [o s1].
    simpl in Ho, Ht, Hu, Hsk.
    set (d := resume_logic rs (skip_until_resume s) subcategory brand brands) in *.
    destruct Ho as [-> | [-> (st & pn & resumed & Hd)]].
    + destruct (IH s1) as (evs1 & Ht1 & H1). rewrite Hsk in H1.
      destruct (plan_brands rs (flag_after d (skip_until_resume s)) subcategory brands rest)
        as [p f]. simpl in H1. simpl.
      exists (evs ++ evs1)%list. split; [by rewrite Ht1, Ht, app_assoc|].
      rewrite io_app.
      destruct H1 as [(-> & Hr & ->) | (-> & Hr)]; [left|right].
      * split; [done|]. split; [|done]. by econstructor.
      * split; [done|]. by econstructor.
    + destruct (plan_brands rs (flag_after d (skip_until_resume s)) subcategory brands rest)
        as [p f]. simpl.
      exists evs. split; [done|]. right. split; [done|].
      rewrite Hd in Hu |- *. by constructor.
Qed.

Lemma for_subcategories_io env wl rs subcategories : forall s,
  (skip_until_resume s = true -> is_Some rs) ->
  let r := for_subcategories env wl rs subcategories s in
  let pl := plan rs (skip_until_resume s) subcategories in
  exists evs complete, trace r.2 = (trace s ++ evs)%list /\
    run_io complete pl (ck s) (io evs) (ck r.2) /\
    (r.1 = Finished \/ r.1 = Raised KeyboardInterrupt).
Proof.
  induction subcategories as [|[subcategory brands] rest IH]; intros s Hinv; cbv zeta; simpl.
  - exists [], true. rewrite app_nil_r. split; [done|]. split; [constructor|by left].
  - assert (Hbrands :
      exists evs complete,
        trace (match for_brands env wl rs subcategory brands brands s with
               | (Finished, s0) => for_subcategories env wl rs rest s0
               | stop => stop
               end).2 = (trace s ++ evs)%list /\
        run_io complete
          (let '(p, f) := plan_brands rs (skip_until_resume s) subcategory brands brands in
           (p ++ plan rs f rest)%list)
          (ck s) (io evs)
          (ck (match for_brands env wl rs subcategory brands brands s with
               | (Finished, s0) => for_subcategories env wl rs rest s0
               | stop => stop
               end).2) /\
        ((match for_brands env wl rs subcategory brands brands s with
          | (Finished, s0) => for_subcategories env wl rs rest s0
          | stop => stop
          end).1 = Finished \/
         (match for_brands env wl rs subcategory brands brands s with
          | (Finished, s0) => for_subcategories env wl rs rest s0
          | stop => stop
          end).1 = Raised KeyboardInterrupt)).
    { destruct (for_brands_io env wl rs subcategory brands brands s) as (evs & Ht & H).
      pose proof (plan_brands_flag rs subcategory brands brands (skip_until_resume s)) as Hflag.
      destruct (plan_brands rs (skip_until_resume s) subcategory brands brands) as [p f].
      destruct (for_brands env wl rs subcategory brands brands s) as [o s1].
      simpl in Ht, H, Hflag.
      destruct H as [(-> & Hr & Hsk) | (-> & Hr)].
      - destruct (IH s1) as (evs1 & complete & Ht1 & Hr1 & Ho1).
        { rewrite Hsk. intros Hf. apply Hinv, Hflag, Hf. }
        rewrite Hsk in Hr1.
        exists (evs ++ evs1)%list, complete. split; [by rewrite Ht1, Ht, app_assoc|].
        rewrite io_app. split; [by eapply run_io_app|done].
      - exists evs, false. split; [done|]. split; [by apply run_io_extend|by right]. }
    destruct (skip_until_resume s) eqn:Hskip; [|exact Hbrands].
    destruct (Hinv eq_refl) as [c ->]. simpl.
    destruct (bool_decide (Some subcategory = ck_subcategory c)); [exact Hbrands|].
    simpl.
    destruct (IH (log (LogSkipSubcategory subcategory) s)) as (evs1 & complete & Ht1 & Hr1 & Ho1).
    { simpl. eauto. }
    simpl in Hr1, Ht1. rewrite Hskip in Hr1.
    exists (EvLog (LogSkipSubcategory subcategory) :: evs1), complete.
    split; [by rewrite Ht1, <- app_assoc|]. by split.
Qed.


(** The requests and saves of one call of [crawl]: none when the run cannot
    start; otherwise those of the resume plan, followed by one more save
    when the run is interrupted. *)
Lemma crawl_io env sheet rs s wl :
  load_subcategories_from_excel env sheet = Some wl ->
  let r := crawl env sheet rs s in
  exists evs, trace r.2 = (trace s ++ evs)%list /\
    match credentials env, init_db (db_conn env (n_db_calls s)) with
    | true, Return _ =>
        exists complete evs1 c_out tail,
          io evs = (evs1 ++ tail)%list /\
          run_io complete (plan rs (bool_decide (is_Some rs)) (wl_subcategories wl))
                 (initial_ck sheet (wl_category wl) rs) evs1 c_out /\
          (tail = [] \/ tail = [EvSaveCheckpoint RunInterrupted c_out])
    | _, _ => io evs = []
    end.
Proof.
  intros Hwl. cbv zeta. unfold crawl. rewrite Hwl.
  destruct (credentials env); simpl.
  2: { by exists [EvLog LogCredentialsMissing]. }
  destruct (init_db (db_conn env (n_db_calls s))) as [[]|e]; simpl.
  2: { exists []. by rewrite app_nil_r. }
  set (s0 := set_skip _ _).
  destruct (for_subcategories_io env wl rs (wl_subcategories wl) s0)
    as (evs & complete & Ht & Hr & Ho).
  { simpl. intros H. by apply bool_decide_eq_true_1 in H. }
  destruct (for_subcategories env wl rs (wl_subcategories wl) s0) as [o s1].
  simpl in Ht, Hr, Ho.
  change (trace s0) with (trace s) in Ht.
  change (ck s0) with (initial_ck sheet (wl_category wl) rs) in Hr.
  change (skip_until_resume s0) with (bool_decide (is_Some rs)) in Hr.
  destruct Ho as [-> | ->]; simpl.
  - exists (evs ++ [EvLog (LogTotalFound (total_urls_found s1))])%list.
    split; [by rewrite Ht, app_assoc|].
    exists complete, (io evs), (ck s1), []. rewrite io_app, !app_nil_r. by repeat split; auto.
  - destruct (save_checkpoint_emits env RunInterrupted (ck s1) s1)
      as (logs & Hlogs & [Hts _] & Hck & _).
    set (s2 := save_checkpoint env RunInterrupted (ck s1) s1) in *.
    exists (evs ++ (EvSaveCheckpoint RunInterrupted (ck s1) :: logs)
              ++ [EvLog (LogTotalFound (total_urls_found s2))])%list.
    split; [rewrite Hts, Ht; by rewrite <- !app_assoc|].
    exists complete, (io evs), (ck s1), [EvSaveCheckpoint RunInterrupted (ck s1)].
    split; [|by auto].
    rewrite !io_app. f_equal. simpl. by rewrite (io_logs _ Hlogs).
Qed.

End TraceShape.

(** ** Termination: the unrolled loop never runs out of fuel *)

Section Termination.

Lemma crawl_returns env sheet rs s : (crawl env sheet rs s).1 <> OutOfFuel.
Proof.
  unfold crawl. destruct (load_subcategories_from_excel env sheet) as [wl|]; [|done].
  destruct (credentials env); simpl; [|done].
  destruct (init_db _); [|done].
  set (s0 := set_skip _ _).
  destruct (for_subcategories_io env wl rs (wl_subcategories wl) s0)
    as (evs & complete & _ & _ & Ho).
  { simpl. intros H. by apply bool_decide_eq_true_1 in H. }
  destruct (for_subcategories env wl rs (wl_subcategories wl) s0) as [o s1].
  simpl in Ho. by destruct Ho as [-> | ->].
Qed.

Lemma for_sheets_returns env sheets : forall resume s,
  (for_sheets env resume sheets s).1 <> OutOfFuel.
Proof.
  induction sheets as [|sheet rest IH]; intros resume s; simpl; [done|].
  destruct resume as [rs|].
  - destruct (bool_decide _); [|apply IH].
    pose proof (crawl_returns env sheet (Some rs) s) as Hc.
    destruct (crawl env sheet (Some rs) s) as [[|e|] s1]; [apply IH| |done].
    by destruct (is_Exception e).
  - pose proof (crawl_returns env sheet None s) as Hc.
    destruct (crawl env sheet None s) as [[|e|] s1]; [apply IH| |done].
    by destruct (is_Exception e).
Qed.

(** Every run ends, normally or with an exception that leaves [main]. *)
Lemma main_returns env s : (main env s).1 <> OutOfFuel.
Proof.
  unfold main. destruct (load_checkpoint env s) as [[resume|e] s1]; [|done].
  destruct (sheet_names env) as [sheets|]; [|done].
  pose proof (for_sheets_returns env sheets resume s1) as Hf.
  by destruct (for_sheets env resume sheets s1) as [[|e|] s2].
Qed.

End Termination.

(** ** The resume plan and the requests of a resumed run *)

Section Plan.

Lemma list_index_lookup x l : forall i,
  list_index (Some x) l = Some i -> l !! i = Some x.
Proof.
  induction l as [|y l IH]; intros i; simpl; [done|].
  case_bool_decide as Hy.
  - intros [= <-]. by injection Hy as ->.
  - destruct (list_index (Some x) l) as [k|]; [|done].
    intros [= <-]. by apply IH.
Qed.

Lemma list_index_None x l : list_index (Some x) l = None -> x ∉ l.
Proof.
  induction l as [|y l IH]; simpl; [intros _; apply not_elem_of_nil|].
  case_bool_decide as Hy; [done|].
  destruct (list_index (Some x) l); [done|]. intros _.
  apply not_elem_of_cons. split; [congruence|by apply IH].
Qed.

Lemma list_index_NoDup x l : forall i,
  NoDup l -> l !! i = Some x -> list_index (Some x) l = Some i.
Proof.
  induction l as [|y l IH]; intros i Hnd Hi; [done|]. simpl.
  apply NoDup_cons in Hnd as [Hy Hnd].
  destruct i as [|i]; simpl in Hi.
  - injection Hi as ->. by rewrite bool_decide_eq_true_2.
  - rewrite bool_decide_eq_false_2.
    + by rewrite (IH i Hnd Hi).
    + intros [= ->]. apply Hy. by eapply list_elem_of_lookup_2.
Qed.

(** Once the flag is cleared every unit is crawled from scratch. *)
Lemma plan_brands_fresh rs subcategory brands todo :
  plan_brands rs false subcategory brands todo
  = ((fun b => (subcategory, b, Proceed 0 0 false)) <$> todo, false).
Proof.
  induction todo as [|b rest IH]; [done|]. cbn [plan_brands].
  unfold resume_logic at 1. cbn [flag_after]. by rewrite IH.
Qed.

Variable c : Checkpoint.
Variables S B : string.
Hypothesis resume_sub : ck_subcategory c = Some S.
Hypothesis resume_brand : ck_brand c = Some B.

Lemma resume_logic_exact brands :
  resume_logic (Some c) true S B brands = Proceed (ck_start c) (ck_page_num c) true.
Proof.
  unfold resume_logic. rewrite resume_sub, resume_brand.
  by rewrite !bool_decide_eq_true_2.
Qed.

Lemma resume_logic_before brands b i j :
  b <> B -> list_index (Some b) brands = Some i ->
  list_index (Some B) brands = Some j -> (i < j)%nat ->
  resume_logic (Some c) true S b brands = SkipBrand.
Proof.
  intros Hb Hi Hj Hlt. unfold resume_logic. rewrite resume_sub, resume_brand, Hi, Hj.
  rewrite bool_decide_eq_true_2 by done.
  rewrite (bool_decide_eq_false_2 (Some b = Some B)) by congruence. simpl.
  by rewrite (proj2 (Nat.ltb_lt _ _) Hlt).
Qed.

Lemma resume_logic_absent brands b :
  b <> B -> list_index (Some B) brands = None ->
  resume_logic (Some c) true S b brands = Proceed 0 0 false.
Proof.
  intros Hb Hj. unfold resume_logic. rewrite resume_sub, resume_brand, Hj.
  rewrite bool_decide_eq_true_2 by done.
  rewrite (bool_decide_eq_false_2 (Some b = Some B)) by congruence. simpl.
  by destruct (list_index (Some b) brands).
Qed.

(** In the checkpoint's subcategory: the brands before the checkpoint's
    brand are skipped, that brand is resumed, the later ones are fresh. *)
Lemma plan_brands_resume brands j :
  NoDup brands -> list_index (Some B) brands = Some j ->
  forall n k, (j = k + n)%nat ->
  plan_brands (Some c) true S brands (drop k brands)
  = ((((fun b => (S, b, SkipBrand)) <$> take n (drop k brands))
       ++ (S, B, Proceed (ck_start c) (ck_page_num c) true)
       :: ((fun b => (S, b, Proceed 0 0 false)) <$> drop (Datatypes.S j) brands))%list,
     false).
Proof.
  intros Hnd Hj. pose proof (list_index_lookup _ _ _ Hj) as HB.
  induction n as [|n IH]; intros k Hk.
  - assert (k = j) as -> by lia.
    rewrite (drop_S _ _ _ HB). cbn [plan_brands].
    rewrite resume_logic_exact. cbn [flag_after]. by rewrite plan_brands_fresh.
  - assert (Hlt : (k < length brands)%nat).
    { apply lookup_lt_Some in HB. lia. }
    destruct (lookup_lt_is_Some_2 _ _ Hlt) as [b Hb].
    rewrite (drop_S _ _ _ Hb). cbn [plan_brands].
    assert (b <> B).
    { intros ->. pose proof (NoDup_lookup _ _ _ _ Hnd Hb HB). lia. }
    rewrite (resume_logic_before brands b k j);
      [|done|by apply list_index_NoDup|done|lia].
    cbn [flag_after]. by rewrite (IH (Datatypes.S k)) by lia.
Qed.

(** When the checkpoint's brand is not in the list, every brand of the
    subcategory is crawled from scratch and the flag stays set. *)
Lemma plan_brands_absent brands todo :
  list_index (Some B) brands = None -> todo ⊆ brands ->
  plan_brands (Some c) true S brands todo
  = ((fun b => (S, b, Proceed 0 0 false)) <$> todo, true).
Proof.
  intros Hj. induction todo as [|b rest IH]; intros Hsub; [done|]. cbn [plan_brands].
  assert (b <> B).
  { intros ->. apply (list_index_None _ _ Hj). apply Hsub. by left. }
  rewrite resume_logic_absent by done. cbn [flag_after].
  rewrite IH; [done|]. intros x Hx. apply Hsub. by right.
Qed.

End Plan.

Section Requests.

Lemma unit_requests_app x y a b :
  unit_requests x y (a ++ b) = (unit_requests x y a ++ unit_requests x y b)%list.
Proof. apply omap_app. Qed.

Lemma unit_requests_same x y site st evs :
  unit_requests x y (EvRequest site x y st :: evs) = (site, st) :: unit_requests x y evs.
Proof. unfold unit_requests. simpl. by rewrite bool_decide_eq_true_2. Qed.

Lemma unit_requests_other u v x y site st evs :
  (u, v) <> (x, y) ->
  unit_requests u v (EvRequest site x y st :: evs) = unit_requests u v evs.
Proof.
  intros Hne. unfold unit_requests. simpl.
  rewrite bool_decide_eq_false_2; [done|]. intros [-> ->]. done.
Qed.

Lemma unit_requests_save u v site c evs :
  unit_requests u v (EvSaveCheckpoint site c :: evs) = unit_requests u v evs.
Proof. done. Qed.

(** The page requests of a brand are all for that brand, and the first
    one is for the offset the pagination starts at. *)
Lemma page_tail_requests x y c more :
  Forall (page_tail_event x y c) more ->
  (forall u v, (u, v) <> (x, y) -> unit_requests u v more = []) /\
  Forall (fun q => q.1 = PageFetch) (unit_requests x y more).
Proof.
  induction 1 as [|e more [->| ->] _ [IH1 IH2]]; [done| |].
  - split.
    + intros u v Hne. rewrite unit_requests_other by done. by apply IH1.
    + rewrite unit_requests_same. by constructor.
  - split; [intros u v Hne; by apply IH1|done].
Qed.

Lemma pages_io_requests x y c0 st pages :
  pages_io x y c0 st pages ->
  (forall u v, (u, v) <> (x, y) -> unit_requests u v pages = []) /\
  Forall (fun q => q.1 = PageFetch) (unit_requests x y pages) /\
  (head (unit_requests x y pages) = None \/
   head (unit_requests x y pages) = Some (PageFetch, st)).
Proof.
  induction 1 as [|st c more rest Hu Hst Hmore _ (IH1 & IH2 & _)]; [by auto|].
  destruct (page_tail_requests _ _ _ _ Hmore) as [Hm1 Hm2].
  split; [|split].
  - intros u v Hne. rewrite unit_requests_save, unit_requests_other by done.
    rewrite unit_requests_app, Hm1, IH1 by done. done.
  - rewrite unit_requests_save, unit_requests_same, unit_requests_app.
    constructor; [done|]. by apply Forall_app.
  - right. by rewrite unit_requests_save, unit_requests_same.
Qed.

Lemma unit_io_requests x y c d evs c' :
  unit_io x y c d evs c' ->
  (forall u v, (u, v) <> (x, y) -> unit_requests u v evs = []) /\
  match d with
  | Proceed st _ _ =>
      exists rest, unit_requests x y evs = (Probe, 0) :: rest /\
        Forall (fun q => q.1 = PageFetch) rest /\
        (head rest = None \/ head rest = Some (PageFetch, st))
  | _ => unit_requests x y evs = []
  end.
Proof.
  intros [d' Hd | st pn resumed pages c_out Hp Hpn Hc].
  - split; [done|]. by destruct Hd as [-> | ->].
  - destruct (pages_io_requests _ _ _ _ _ Hp) as (H1 & H2 & H3). split.
    + intros u v Hne. rewrite unit_requests_other, unit_requests_app by done.
      by rewrite H1.
    + exists (unit_requests x y pages).
      rewrite unit_requests_same, unit_requests_app. simpl. rewrite app_nil_r.
      by repeat split.
Qed.

(** A unit that the plan does not crawl is never requested. *)
Lemma run_io_not_crawled complete p c evs c' x y :
  run_io complete p c evs c' ->
  (forall d, (x, y, d) ∈ p -> d = SkipBrand \/ d = ResumeError) ->
  unit_requests x y evs = [].
Proof.
  induction 1 as [c|x' y' st pn resumed p c evs c' Hu
                  |b x' y' d p c evs c1 evs1 c2 Hu Hr IH]; intros Hp; [done| |].
  - destruct (unit_io_requests _ _ _ _ _ _ Hu) as [H1 _].
    apply H1. intros [= -> ->].
    destruct (Hp (Proceed st pn resumed)) as [?|?]; [by left|done|done].
  - rewrite unit_requests_app. rewrite IH by (intros d' Hd'; apply Hp; by right).
    rewrite app_nil_r.
    destruct (unit_io_requests _ _ _ _ _ _ Hu) as [H1 H2].
    destruct (decide ((x, y) = (x', y'))) as [[= -> ->]|Hne]; [|by apply H1].
    destruct (Hp d) as [-> | ->]; [by left|done|done].
Qed.

(** The unit the plan resumes, after units it skips: its first request is
    the probe at offset 0 and its first page request is at the resumed
    offset. *)
Lemma run_io_resumed complete skips x y st pn resumed later c evs c' :
  run_io complete (skips ++ (x, y, Proceed st pn resumed) :: later) c evs c' ->
  Forall (fun u => u.2 = SkipBrand) skips ->
  (forall d, (x, y, d) ∉ later) ->
  exists rest, unit_requests x y evs = (Probe, 0) :: rest /\
    Forall (fun q => q.1 = PageFetch) rest /\
    (head rest = None \/ head rest = Some (PageFetch, st)).
Proof.
  intros Hr Hskips Hlater. revert c evs Hr.
  induction Hskips as [|[[u v] d] skips Hd _ IH]; intros c evs Hr; simpl in Hr.
  - inversion Hr as [|? ? ? ? ? ? ? ? ? Hu|? ? ? ? ? ? ? ? ? ? Hu Hr']; subst.
    + by destruct (unit_io_requests _ _ _ _ _ _ Hu) as [_ H].
    + destruct (unit_io_requests _ _ _ _ _ _ Hu) as [_ (rest & H1 & H2 & H3)].
      exists rest. rewrite unit_requests_app, H1.
      rewrite (run_io_not_crawled _ _ _ _ _ x y Hr'), app_nil_r; [done|].
      intros d Hin. by destruct (Hlater d).
  - simpl in Hd. subst d.
    inversion Hr as [| |? ? ? ? ? ? ? ? ? ? Hu Hr']; subst.
    inversion Hu as [d' _|]; subst.
    rewrite unit_requests_app. simpl app. by eapply IH.
Qed.

End Requests.

Section PlanUnits.

Lemma plan_brands_units rs x brands todo : forall skip x' y d,
  (x', y, d) ∈ (plan_brands rs skip x brands todo).1 -> x' = x /\ y ∈ todo.
Proof.
  induction todo as [|b rest IH]; intros skip x' y d; simpl.
  - by intros ?%elem_of_nil.
  - specialize (IH (flag_after (resume_logic rs skip x b brands) skip) x' y d).
    destruct (plan_brands rs _ x brands rest) as [p f]. simpl in *.
    intros [[= -> -> ->] | Hin]%elem_of_cons.
    + split; [done|by left].
    + destruct (IH Hin) as [-> ?]. split; [done|by right].
Qed.

Lemma plan_units rs subcategories : forall skip x y d,
  (x, y, d) ∈ plan rs skip subcategories -> x ∈ subcategories.*1.
Proof.
  induction subcategories as [|[x0 brands] rest IH]; intros skip x y d; simpl.
  - by intros ?%elem_of_nil.
  - destruct (skip && _).
    + intros Hin. right. by eapply IH.
    + pose proof (plan_brands_units rs x0 brands brands skip x y d) as Hb.
      destruct (plan_brands rs skip x0 brands brands) as [p f]. simpl in Hb.
      intros [Hin | Hin]%elem_of_app.
      * destruct (Hb Hin) as [-> _]. by left.
      * right. by eapply IH.
Qed.

Lemma plan_absent c S subcategories :
  ck_subcategory c = Some S -> S ∉ subcategories.*1 ->
  plan (Some c) true subcategories = [].
Proof.
  intros Hc. induction subcategories as [|[x brands] rest IH]; intros Hn; [done|].
  simpl in *. rewrite Hc. apply not_elem_of_cons in Hn as [Hx Hn].
  rewrite bool_decide_eq_false_2 by congruence. simpl. by apply IH.
Qed.

Lemma NoDup_before_index (l : list string) j B v :
  NoDup l -> l !! j = Some B -> v ∈ take j l ->
  v <> B /\ v ∉ drop (Datatypes.S j) l.
Proof.
  intros Hnd HB Hv. rewrite <- (take_drop_middle l j B HB) in Hnd.
  apply NoDup_app in Hnd as (_ & Hdisj & _).
  specialize (Hdisj v Hv). apply not_elem_of_cons in Hdisj. done.
Qed.

Lemma NoDup_after_index (l : list string) j B :
  NoDup l -> l !! j = Some B -> B ∉ drop (Datatypes.S j) l.
Proof.
  intros Hnd HB. rewrite <- (take_drop_middle l j B HB) in Hnd.
  apply NoDup_app in Hnd as (_ & _ & Hnd). by apply NoDup_cons in Hnd as [? _].
Qed.

Variable c : Checkpoint.
Variables S B : string.
Hypothesis resume_sub : ck_subcategory c = Some S.
Hypothesis resume_brand : ck_brand c = Some B.

Lemma plan_resume_requests subcategories : forall complete c0 evs c',
  wf_subcategories subcategories ->
  run_io complete (plan (Some c) true subcategories) c0 evs c' ->
  (forall x y, (x, y) ∈ units_before subcategories S B -> unit_requests x y evs = []) /\
  ((exists brands, (S, brands) ∈ subcategories /\ B ∈ brands) ->
     resumed_requests (ck_start c) (unit_requests S B evs)) /\
  (~ (exists brands, (S, brands) ∈ subcategories /\ B ∈ brands) ->
     unit_requests S B evs = []).
Proof.
  induction subcategories as [|[x brands] rest IH]; intros complete c0 evs c' [Hk Hb] Hr.
  { simpl in Hr. inversion Hr; subst. split; [done|]. split; [|done].
    intros (brands & Hin & _). by apply elem_of_nil in Hin. }
  simpl in Hk. apply NoDup_cons in Hk as [Hx Hk].
  apply Forall_cons in Hb as [Hbrands Hb]. simpl in Hbrands.
  simpl in Hr. rewrite resume_sub in Hr. simpl in Hr. simpl units_before.
  case_bool_decide as HxS.
  - (* the checkpoint's subcategory *)
    injection HxS as ->. rewrite bool_decide_eq_true_2 by done. simpl in Hr.
    destruct (list_index (Some B) brands) as [j|] eqn:Hj.
    + pose proof (list_index_lookup _ _ _ Hj) as HB.
      rewrite <- (drop_0 brands) in Hr at 2.
      rewrite (plan_brands_resume c S B resume_sub resume_brand brands j Hbrands Hj j 0%nat)
        in Hr by done.
      rewrite drop_0 in Hr. rewrite <- app_assoc in Hr. simpl in Hr.
      assert (Hlater : forall d,
                (S, B, d) ∉ (((fun b => (S, b, Proceed 0 0 false)) <$> drop (Datatypes.S j) brands)
                             ++ plan (Some c) false rest)%list).
      { intros d [Hin | Hin]%elem_of_app.
        - apply list_elem_of_fmap in Hin as (b & [= <- _] & Hin).
          by apply (NoDup_after_index brands j B).
        - apply plan_units in Hin. done. }
      split; [|split].
      * intros x y (v & [= -> ->] & Hv)%list_elem_of_fmap.
        destruct (NoDup_before_index brands j B v Hbrands HB Hv) as [HvB Hvd].
        eapply run_io_not_crawled; [exact Hr|].
        intros d [Hin | [[= -> _] | Hin]%elem_of_cons]%elem_of_app.
        -- apply list_elem_of_fmap in Hin as (b & [= _ <-] & _). by left.
        -- done.
        -- apply elem_of_app in Hin as [Hin | Hin].
           ++ apply list_elem_of_fmap in Hin as (b & [= <- _] & Hin). done.
           ++ apply plan_units in Hin. done.
      * intros _. eapply run_io_resumed; [exact Hr| |exact Hlater].
        apply Forall_fmap, Forall_forall. by intros.
      * intros Hno. destruct Hno. exists brands. split; [by left|].
        by eapply list_elem_of_lookup_2.
    + rewrite (plan_brands_absent c S B resume_sub resume_brand brands brands Hj) in Hr by done.
      rewrite (plan_absent c S rest resume_sub Hx), app_nil_r in Hr.
      assert (Hno : unit_requests S B evs = []).
      { eapply run_io_not_crawled; [exact Hr|].
        intros d (b & [= <- _] & Hin)%list_elem_of_fmap.
        by apply list_index_None in Hj. }
      split; [by intros x y ?%elem_of_nil|]. split; [|done].
      intros (brands' & [[= <-] | Hin]%elem_of_cons & HB).
      * by apply list_index_None in Hj.
      * destruct Hx. apply list_elem_of_fmap. by exists (S, brands').
  - (* a subcategory before the checkpoint's: skipped *)
    simpl in Hr. rewrite bool_decide_eq_false_2 by congruence.
    destruct (IH complete c0 evs c' (conj Hk Hb) Hr) as (IH1 & IH2 & IH3).
    split; [|split].
    + intros u v [Hin | Hin]%elem_of_app; [|by apply IH1].
      apply list_elem_of_fmap in Hin as (b & [= -> ->] & _).
      eapply run_io_not_crawled; [exact Hr|].
      intros d Hin. apply plan_units in Hin. done.
    + intros (brands' & [[= -> _] | Hin]%elem_of_cons & HB); [done|].
      apply IH2. by exists brands'.
    + intros Hno. apply IH3. intros (brands' & Hin & HB). apply Hno.
      exists brands'. split; [by right|done].
Qed.

End PlanUnits.

(** ** Resuming from a checkpoint *)

Section Resume.

Lemma unit_requests_io x y evs : unit_requests x y (io evs) = unit_requests x y evs.
Proof.
  induction evs as [|e evs IH]; [done|].
  destruct e; simpl; try done; unfold unit_requests in *; simpl; by rewrite IH.
Qed.

(** C1, as stated, fails: in the resumed run of the scenario the first
    request for (Shoes, Adidas) is the probe, at offset 0 and not at 20. *)
Lemma first_request_of_resumed_unit_is_probe :
  unit_requests "Shoes" "Adidas" (trace resumed_run.2)
    = [(Probe, 0); (PageFetch, 20); (PageFetch, 30)] /\
  ~ resume_exact_as_stated (wl_subcategories shoes_worklist) "Shoes" "Adidas" 20
      (trace resumed_run.2).
Proof.
  assert (H : unit_requests "Shoes" "Adidas" (trace resumed_run.2)
              = [(Probe, 0); (PageFetch, 20); (PageFetch, 30)]) by (by vm_compute).
  split; [done|]. intros [Hfirst _]. rewrite H in Hfirst. discriminate.
Qed.

(** C1, amended. In a run resumed from a checkpoint [(S, B, N)] no request
    is made for any unit before [(S, B)] in iteration order; the requests for
    [(S, B)], if there are any, are the probe at offset 0 followed by page
    requests of which the first is at offset exactly [N]; and there are
    requests for [(S, B)] whenever the run starts (credentials, database) and
    the unit is in the work list. *)
Theorem resume_exactness (env : Env) (sheet : string) (rs : Checkpoint)
    (wl : WorkList) (S B : string) (s : State) :
  load_subcategories_from_excel env sheet = Some wl ->
  wf_subcategories (wl_subcategories wl) ->
  ck_sheet rs = sheet -> ck_subcategory rs = Some S -> ck_brand rs = Some B ->
  exists evs,
    trace (crawl env sheet (Some rs) s).2 = (trace s ++ evs)%list /\
    (forall x y, (x, y) ∈ units_before (wl_subcategories wl) S B ->
                 unit_requests x y evs = []) /\
    (unit_requests S B evs = [] \/
     resumed_requests (ck_start rs) (unit_requests S B evs)) /\
    (credentials env = true ->
     init_db (db_conn env (n_db_calls s)) = Return () ->
     (exists brands, (S, brands) ∈ wl_subcategories wl /\ B ∈ brands) ->
     resumed_requests (ck_start rs) (unit_requests S B evs)).
Proof.
  intros Hwl Hwf _ HS HB.
  destruct (crawl_io env sheet (Some rs) s wl Hwl) as (evs & Ht & Hio).
  exists evs. split; [exact Ht|].
  destruct (credentials env); cycle 1.
  { rewrite <- !(unit_requests_io _ _ evs).
    split; [intros x y _; by rewrite <- unit_requests_io, Hio|].
    split; [left; by rewrite Hio|done]. }
  destruct (init_db (db_conn env (n_db_calls s))) as [[]|e]; cycle 1.
  { rewrite <- !(unit_requests_io _ _ evs).
    split; [intros x y _; by rewrite <- unit_requests_io, Hio|].
    split; [left; by rewrite Hio|done]. }
  destruct Hio as (complete & evs1 & c_out & tail & Hio & Hr & Htail).
  rewrite bool_decide_eq_true_2 in Hr by eauto.
  destruct (plan_resume_requests rs S B HS HB _ _ _ _ _ Hwf Hr) as (H1 & H2 & H3).
  assert (Hreq : forall x y, unit_requests x y evs = unit_requests x y evs1).
  { intros x y. rewrite <- unit_requests_io, Hio, unit_requests_app.
    destruct Htail as [-> | ->]; by rewrite app_nil_r. }
  split; [intros x y Hxy; rewrite Hreq; by apply H1|].
  rewrite Hreq. split; [|intros _ _; exact H2].
  destruct (decide (Exists (fun sb : string * list string => sb.1 = S /\ B ∈ sb.2)
                      (wl_subcategories wl))) as [Hin | Hnot].
  - right. apply H2. apply Exists_exists in Hin as ([x brands] & Hin & Hx & HB').
    simpl in *. subst. eauto.
  - left. apply H3. intros (brands & Hin & HB'). apply Hnot, Exists_exists.
    exists (S, brands). eauto.
Qed.

Lemma resume_exactness_witness :
  resumed_requests 20 (unit_requests "Shoes" "Adidas" (trace resumed_run.2)) /\
  unit_requests "Shoes" "Nike" (trace resumed_run.2) = [].
Proof.
  destruct (resume_exactness (example_env shoes_worklist provider_empty) "S1"
              adidas_checkpoint shoes_worklist "Shoes" "Adidas" (initial_state ∅ ∅)
              eq_refl) as (evs & Ht & H1 & _ & H3); try reflexivity.
  { unfold wf_subcategories. apply (bool_decide_unpack _). by vm_compute. }
  change (trace (initial_state ∅ ∅)) with (@nil Event) in Ht.
  rewrite (app_nil_l evs) in Ht.
  unfold resumed_run. rewrite Ht. split.
  - apply H3; try reflexivity. exists ["Nike"; "Adidas"].
    split; [by left|]. right. by left.
  - apply H1. simpl. by left.
Defined.

End Resume.

Section ResumedUnit.

(** C2, as stated, fails in its first half: in the resumed run of the
    scenario the probe request at offset 0 is made for (Shoes, Adidas). *)
Lemma probe_made_for_resumed_unit :
  ~ probe_skipped "Shoes" "Adidas" (trace resumed_run.2).
Proof.
  intros H. apply (H 0). apply (bool_decide_unpack _). by vm_compute.
Qed.

(** C2, amended. For the unit that matches the checkpoint the probe request
    at offset 0 is still made, before anything else, and the resumed offset
    is not reset: if the pagination begins, its first save carries the
    checkpoint's offset and page number and its first request is at the
    checkpoint's offset; if it does not begin, the record saved at the end
    of the unit carries them; and the "still skipping" flag is cleared. *)
Theorem resumed_unit_probes_and_keeps_offset (env : Env) (wl : WorkList)
    (rs : Checkpoint) (subcategory : string) (brands : list string) (brand : string)
    (s : State) :
  skip_until_resume s = true ->
  ck_subcategory rs = Some subcategory -> ck_brand rs = Some brand ->
  exists evs pages c_out,
    trace (process_brand env wl (Some rs) subcategory brands brand s).2
      = (trace s ++ evs)%list /\
    io evs = EvRequest Probe subcategory brand 0
               :: (pages ++ [EvSaveCheckpoint UnitEnd c_out])%list /\
    (pages = [] /\ ck_start c_out = ck_start rs /\ ck_page_num c_out = ck_page_num rs
     \/
     exists c rest,
       pages = EvSaveCheckpoint BeforePage c
                 :: EvRequest PageFetch subcategory brand (ck_start rs) :: rest /\
       ck_start c = ck_start rs /\ ck_page_num c = ck_page_num rs) /\
    skip_until_resume (process_brand env wl (Some rs) subcategory brands brand s).2 = false.
Proof.
  intros Hskip HS HB.
  destruct (process_brand_io env wl (Some rs) subcategory brands brand s)
    as (_ & evs & Ht & Hu & Hsk).
  rewrite Hskip, (resume_logic_exact rs subcategory brand HS HB) in Hu, Hsk.
  inversion Hu as [d Hd|st pn resumed pages c_out Hp Hpn Hc Hd Hio Hout];
    [by destruct Hd|]. subst st pn resumed.
  exists evs, pages, (last_saved pages (ck_set_unit subcategory brand (ck_start rs)
                                          (ck_page_num rs) (ck s))).
  split; [exact Ht|]. split; [by rewrite <- Hio, Hout, Hc|]. split; [|exact Hsk].
  inversion Hp as [|st c more rest Hsame Hst Hmore Hrest]; subst.
  - left. by repeat split.
  - right. exists c, (more ++ rest)%list. by repeat split.
Qed.

Lemma resumed_unit_probes_and_keeps_offset_witness :
  exists evs pages c_out,
    trace (process_brand (example_env shoes_worklist provider_empty) shoes_worklist
             (Some adidas_checkpoint) "Shoes" ["Nike"; "Adidas"] "Adidas"
             (set_skip true (initial_state ∅ ∅))).2 = evs /\
    io evs = EvRequest Probe "Shoes" "Adidas" 0
               :: (pages ++ [EvSaveCheckpoint UnitEnd c_out])%list.
Proof.
  destruct (resumed_unit_probes_and_keeps_offset
              (example_env shoes_worklist provider_empty) shoes_worklist
              adidas_checkpoint "Shoes" ["Nike"; "Adidas"] "Adidas"
              (set_skip true (initial_state ∅ ∅)) eq_refl eq_refl eq_refl)
    as (evs & pages & c_out & Ht & Hio & _).
  exists evs, pages, c_out. split; [|exact Hio].
  rewrite Ht. reflexivity.
Defined.

End ResumedUnit.

(** ** The persisted offset *)

Section PersistedOffset.

Lemma aligned_0 : aligned 0.
Proof. by split. Qed.

Lemma aligned_next n : aligned n -> aligned (n + RESULTS_PER_PAGE).
Proof.
  unfold aligned, RESULTS_PER_PAGE. intros [H0 Hm]. split; [lia|].
  rewrite Z.add_mod by lia. rewrite Hm. done.
Qed.

Lemma saves_followed_app a b :
  saves_followed a -> saves_followed b -> saves_followed (a ++ b).
Proof.
  induction a as [|e a IH]; intros Ha Hb; [done|].
  destruct e as [| [] c | | |]; simpl in *; try by apply IH.
  destruct Ha as [Hnext Ha]. split; [|by apply IH].
  destruct a as [|[[] ? ? ?| | | |] a]; done.
Qed.

Lemma saves_followed_split evs : forall pre c post,
  saves_followed evs ->
  evs = (pre ++ EvSaveCheckpoint BeforePage c :: post)%list ->
  exists x y post', ck_subcategory c = Some x /\ ck_brand c = Some y /\
    post = EvRequest PageFetch x y (ck_start c) :: post'.
Proof.
  induction evs as [|e evs IH]; intros pre c post Hf Heq.
  - by destruct pre.
  - destruct pre as [|e' pre]; simpl in Heq; injection Heq as -> ->.
    + simpl in Hf. destruct Hf as [Hnext _].
      destruct post as [|[[] x y st| | | |] post]; try done.
      destruct Hnext as (? & ? & ->). by exists x, y, post.
    + eapply IH; [|done]. destruct e' as [| [] ? | | |]; simpl in Hf; tauto.
Qed.

Lemma save_aligned_io evs : Forall save_aligned (io evs) -> Forall save_aligned evs.
Proof.
  induction evs as [|e evs IH]; [done|].
  destruct e; simpl; intros H; try (constructor; [done|by apply IH]).
  - inversion H; subst. constructor; [done|by apply IH].
  - inversion H; subst. constructor; [done|by apply IH].
Qed.

Lemma last_saved_aligned evs : forall c,
  Forall save_aligned evs -> aligned (ck_start c) ->
  aligned (ck_start (last_saved evs c)).
Proof.
  induction evs as [|e evs IH]; intros c Hall Hc; [done|].
  inversion Hall as [|? ? He Hrest]; subst.
  destruct e; simpl; by apply IH.
Qed.

Lemma page_tail_saves x y c more :
  Forall (page_tail_event x y c) more -> aligned (ck_start c) ->
  Forall save_aligned more /\ saves_followed more.
Proof.
  intros Hmore Hc. induction Hmore as [|e more [->| ->] _ [IH1 IH2]]; [done| |].
  - split; [by constructor|done].
  - split; [by constructor|done].
Qed.

Lemma pages_io_saves x y c0 st pages :
  pages_io x y c0 st pages ->
  aligned st -> ck_subcategory c0 = Some x -> ck_brand c0 = Some y ->
  Forall save_aligned pages /\ saves_followed pages.
Proof.
  intros Hp. induction Hp as [|st c more rest (_ & _ & Hsx & Hsy) Hst Hmore _ IH];
    intros Hal Hx Hy; [done|].
  destruct (IH (aligned_next _ Hal) Hx Hy) as [IH1 IH2].
  destruct (page_tail_saves _ _ _ _ Hmore) as [Hm1 Hm2]; [by rewrite Hst|].
  split.
  - constructor; [simpl; by rewrite Hst|]. constructor; [done|]. by apply Forall_app.
  - simpl. split; [by rewrite Hsx, Hsy, Hx, Hy, Hst|]. by apply saves_followed_app.
Qed.

Lemma unit_io_saves x y c d evs c' :
  unit_io x y c d evs c' ->
  aligned (ck_start c) ->
  (forall st pn resumed, d = Proceed st pn resumed -> aligned st) ->
  Forall save_aligned evs /\ saves_followed evs /\ aligned (ck_start c').
Proof.
  intros [d' Hd | st pn resumed pages c_out Hp Hpn ->] Hc Hdec.
  - split; [by constructor|done].
  - pose proof (Hdec st pn resumed eq_refl) as Hst.
    destruct (pages_io_saves _ _ _ _ _ Hp Hst eq_refl eq_refl) as [H1 H2].
    assert (Hout : aligned (ck_start (last_saved pages (ck_set_unit x y st pn c)))).
    { by apply last_saved_aligned. }
    split; [|split; [|done]].
    + constructor; [done|]. apply Forall_app. split; [done|]. by constructor.
    + simpl. by apply saves_followed_app.
Qed.

Lemma run_io_saves complete p c evs c' :
  run_io complete p c evs c' ->
  aligned (ck_start c) ->
  Forall (fun u => forall st pn resumed, u.2 = Proceed st pn resumed -> aligned st) p ->
  Forall save_aligned evs /\ saves_followed evs /\ aligned (ck_start c').
Proof.
  induction 1 as [c|x y st pn resumed p c evs c' Hu
                  |b x y d p c evs c1 evs1 c2 Hu Hr IH]; intros Hc Hp; [done| |].
  - apply Forall_cons in Hp as [Hd _]. by eapply unit_io_saves.
  - apply Forall_cons in Hp as [Hd Hp].
    destruct (unit_io_saves _ _ _ _ _ _ Hu Hc Hd) as (H1 & H2 & H3).
    destruct (IH H3 Hp) as (H4 & H5 & H6).
    split; [by apply Forall_app|]. split; [by apply saves_followed_app|done].
Qed.

(** The offsets the resume logic starts a brand at: 0, or the checkpoint's. *)
Lemma resume_logic_aligned rs skip x y brands st pn resumed :
  (forall c, rs = Some c -> aligned (ck_start c)) ->
  resume_logic rs skip x y brands = Proceed st pn resumed -> aligned st.
Proof.
  intros Hrs. unfold resume_logic. destruct skip; [|intros [= <- _ _]; apply aligned_0].
  destruct rs as [c|]; [|done].
  destruct (if _ && _ then _ else false); [done|].
  destruct (_ && _); intros [= <- _ _]; [by apply Hrs|apply aligned_0].
Qed.

Lemma plan_brands_aligned rs x brands todo : forall skip,
  (forall c, rs = Some c -> aligned (ck_start c)) ->
  Forall (fun u => forall st pn resumed, u.2 = Proceed st pn resumed -> aligned st)
         (plan_brands rs skip x brands todo).1.
Proof.
  induction todo as [|b rest IH]; intros skip Hrs; simpl; [done|].
  specialize (IH (flag_after (resume_logic rs skip x b brands) skip) Hrs).
  destruct (plan_brands rs _ x brands rest) as [p f]. simpl in *.
  constructor; [|done]. simpl. intros st pn resumed Hd.
  by eapply resume_logic_aligned.
Qed.

Lemma plan_aligned rs subcategories : forall skip,
  (forall c, rs = Some c -> aligned (ck_start c)) ->
  Forall (fun u => forall st pn resumed, u.2 = Proceed st pn resumed -> aligned st)
         (plan rs skip subcategories).
Proof.
  induction subcategories as [|[x brands] rest IH]; intros skip Hrs; simpl; [done|].
  destruct (skip && _); [by apply IH|].
  pose proof (plan_brands_aligned rs x brands brands skip Hrs) as Hb.
  destruct (plan_brands rs skip x brands brands) as [p f]. simpl in Hb.
  apply Forall_app. split; [done|by apply IH].
Qed.

Lemma initial_ck_aligned sheet category rs :
  (forall c, rs = Some c -> aligned (ck_start c)) ->
  aligned (ck_start (initial_ck sheet category rs)).
Proof.
  intros Hrs. unfold initial_ck. destruct rs as [c|]; [|apply aligned_0].
  destruct (bool_decide _); simpl; [by apply Hrs|apply aligned_0].
Qed.

(** C7, as stated, fails at unit completion: after two empty pages the
    record saved when the brand ends carries offset 10, the offset of the
    page just fetched and stored, not the next one. *)
Lemma unit_end_save_repeats_fetched_offset :
  ~ persisted_start_is_next (trace empty_pages_run.2).
Proof.
  assert (Htr : exists pre c,
             trace empty_pages_run.2
               = (pre ++ EvSaveCheckpoint UnitEnd c :: [EvLog (LogTotalFound 0)])%list /\
             ck_subcategory c = Some "Shoes" /\ ck_brand c = Some "Nike" /\
             ck_start c = 10 /\
             EvPageDone "Shoes" "Nike" 10 2 0 ∈ pre).
  { eexists (removelast (removelast (trace empty_pages_run.2))), _.
    split; [vm_compute; reflexivity|]. repeat split.
    apply (bool_decide_unpack _). by vm_compute. }
  destruct Htr as (pre & c & Heq & Hx & Hy & Hst & Hin).
  intros Hclaim. apply (Hclaim pre UnitEnd c _ "Shoes" "Nike" 2 0 Heq Hx Hy).
  by rewrite Hst.
Qed.

(** C7, amended. In every run of [crawl], resumed from a checkpoint whose
    start is a non-negative multiple of the page size or not resumed, every
    checkpoint save persists a start that is a non-negative multiple of the
    page size; and every save made before a page fetch is followed at once,
    among the requests and saves, by the page request of the same brand for
    the offset it persisted: it persists the next offset to fetch. *)
Theorem persisted_start_aligned (env : Env) (sheet : string)
    (rs : option Checkpoint) (s : State) :
  (forall c, rs = Some c -> aligned (ck_start c)) ->
  exists evs,
    trace (crawl env sheet rs s).2 = (trace s ++ evs)%list /\
    (forall site c, EvSaveCheckpoint site c ∈ evs -> aligned (ck_start c)) /\
    (forall pre c post,
        io evs = (pre ++ EvSaveCheckpoint BeforePage c :: post)%list ->
        exists x y post',
          ck_subcategory c = Some x /\ ck_brand c = Some y /\
          post = EvRequest PageFetch x y (ck_start c) :: post').
Proof.
  intros Hrs.
  assert (Hgen : forall evs,
            Forall save_aligned (io evs) -> saves_followed (io evs) ->
            (forall site c, EvSaveCheckpoint site c ∈ evs -> aligned (ck_start c)) /\
            (forall pre c post,
                io evs = (pre ++ EvSaveCheckpoint BeforePage c :: post)%list ->
                exists x y post',
                  ck_subcategory c = Some x /\ ck_brand c = Some y /\
                  post = EvRequest PageFetch x y (ck_start c) :: post')).
  { intros evs Hal Hfo. split.
    - intros site c Hin. apply save_aligned_io in Hal.
      rewrite Forall_forall in Hal. exact (Hal _ Hin).
    - intros pre c post. by apply saves_followed_split. }
  destruct (load_subcategories_from_excel env sheet) as [wl|] eqn:Hwl; cycle 1.
  { exists []. unfold crawl. rewrite Hwl. simpl. rewrite app_nil_r.
    split; [done|]. by apply Hgen. }
  destruct (crawl_io env sheet rs s wl Hwl) as (evs & Ht & Hio).
  exists evs. split; [exact Ht|]. apply Hgen.
  - destruct (credentials env); [|by rewrite Hio].
    destruct (init_db _); [|by rewrite Hio].
    destruct Hio as (complete & evs1 & c_out & tail & -> & Hr & Htail).
    destruct (run_io_saves _ _ _ _ _ Hr) as (H1 & _ & H3);
      [by apply initial_ck_aligned|by apply plan_aligned|].
    apply Forall_app. split; [done|]. destruct Htail as [-> | ->]; [done|].
    by constructor.
  - destruct (credentials env); [|by rewrite Hio].
    destruct (init_db _); [|by rewrite Hio].
    destruct Hio as (complete & evs1 & c_out & tail & -> & Hr & Htail).
    destruct (run_io_saves _ _ _ _ _ Hr) as (_ & H2 & _);
      [by apply initial_ck_aligned|by apply plan_aligned|].
    apply saves_followed_app; [done|]. by destruct Htail as [-> | ->].
Qed.

Lemma persisted_start_aligned_witness :
  exists evs, trace resumed_run.2 = evs /\
    forall site c, EvSaveCheckpoint site c ∈ evs -> aligned (ck_start c).
Proof.
  destruct (persisted_start_aligned (example_env shoes_worklist provider_empty) "S1"
              (Some adidas_checkpoint) (initial_state ∅ ∅)) as (evs & Ht & H & _).
  { intros c [= <-]. split; [simpl; lia|reflexivity]. }
  exists evs. split; [|exact H]. unfold resumed_run. rewrite Ht. reflexivity.
Defined.

End PersistedOffset.

(** ** Faults of the checkpoint saves do not reach the crawl

    Two runs in environments that differ in the faults of the checkpoint
    saves only are compared piece by piece: they stay in states that agree
    on everything but the files and the log lines of the failed saves. *)

Section NonInterference.

Variable env : Env.
Variable faults : nat -> option nat.
Local Abbreviation env' := (with_ck_fault faults env).

Lemma wsf_app a b :
  without_save_failures (a ++ b) = (without_save_failures a ++ without_save_failures b)%list.
Proof. apply List.filter_app. Qed.

Lemma sbf_refl s : same_but_files s s.
Proof. by repeat split. Qed.

Lemma sbf_emit e s1 s2 : same_but_files s1 s2 -> same_but_files (emit e s1) (emit e s2).
Proof.
  intros (?&?&?&?&?&?&?&?&Ht). repeat split; try done.
  simpl. by rewrite !wsf_app, Ht.
Qed.

Lemma sbf_set_ck c s1 s2 : same_but_files s1 s2 -> same_but_files (set_ck c s1) (set_ck c s2).
Proof. intros (?&?&?&?&?&?&?&?&?). by repeat split. Qed.

Lemma sbf_set_skip b s1 s2 : same_but_files s1 s2 -> same_but_files (set_skip b s1) (set_skip b s2).
Proof. intros (?&?&?&?&?&?&?&?&?). by repeat split. Qed.

Lemma sbf_set_total n s1 s2 : same_but_files s1 s2 -> same_but_files (set_total n s1) (set_total n s2).
Proof. intros (?&?&?&?&?&?&?&?&?). by repeat split. Qed.

Lemma sbf_set_stats l s1 s2 : same_but_files s1 s2 -> same_but_files (set_stats l s1) (set_stats l s2).
Proof. intros (?&?&?&?&?&?&?&?&?). by repeat split. Qed.

Lemma sbf_db_called d s1 s2 : same_but_files s1 s2 -> same_but_files (db_called d s1) (db_called d s2).
Proof. intros (?&?&?&?&?&?&?&?&?). repeat split; simpl; congruence. Qed.

Lemma sbf_count_request s1 s2 : same_but_files s1 s2 -> same_but_files (count_request s1) (count_request s2).
Proof. intros (?&?&?&?&?&?&?&?&?). repeat split; simpl; congruence. Qed.

Lemma save_checkpoint_trace e site c s :
  exists logs, trace (save_checkpoint e site c s) = (trace s ++ EvSaveCheckpoint site c :: logs)%list /\
    without_save_failures logs = [].
Proof.
  unfold save_checkpoint, save_checkpoint_result.
  destruct (write_checkpoint _ _ _) as [[[]|x] f]; simpl.
  - by exists [].
  - destruct (is_Exception x); simpl.
    + exists [EvLog LogCheckpointSaveFailed]. split; [by rewrite <- app_assoc|done].
    + by exists [].
Qed.

Lemma save_checkpoint_frame e site c s :
  ck (save_checkpoint e site c s) = ck s /\
  skip_until_resume (save_checkpoint e site c s) = skip_until_resume s /\
  total_urls_found (save_checkpoint e site c s) = total_urls_found s /\
  log_stats (save_checkpoint e site c s) = log_stats s /\
  db (save_checkpoint e site c s) = db s /\
  n_requests (save_checkpoint e site c s) = n_requests s /\
  n_db_calls (save_checkpoint e site c s) = n_db_calls s /\
  n_saves (save_checkpoint e site c s) = Datatypes.S (n_saves s).
Proof.
  unfold save_checkpoint, save_checkpoint_result.
  destruct (write_checkpoint _ _ _) as [[[]|x] f]; simpl; [done|].
  by destruct (is_Exception x).
Qed.

Lemma sbf_save_checkpoint site c s1 s2 :
  same_but_files s1 s2 ->
  same_but_files (save_checkpoint env' site c s1) (save_checkpoint env site c s2).
Proof.
  intros (?&?&?&?&?&?&?&?&Ht).
  destruct (save_checkpoint_frame env' site c s1) as (?&?&?&?&?&?&?&?).
  destruct (save_checkpoint_frame env site c s2) as (?&?&?&?&?&?&?&?).
  destruct (save_checkpoint_trace env' site c s1) as (l1 & Ht1 & Hl1).
  destruct (save_checkpoint_trace env site c s2) as (l2 & Ht2 & Hl2).
  repeat split; try congruence.
  rewrite Ht1, Ht2, !wsf_app, Ht. f_equal.
  change (EvSaveCheckpoint site c :: l1) with ([EvSaveCheckpoint site c] ++ l1)%list.
  change (EvSaveCheckpoint site c :: l2) with ([EvSaveCheckpoint site c] ++ l2)%list.
  by rewrite !wsf_app, Hl1, Hl2.
Qed.

Lemma sbf_fetch_with_retries subcategory brand st attempts : forall s1 s2,
  same_but_files s1 s2 ->
  (fetch_with_retries env' subcategory brand st attempts s1).1
    = (fetch_with_retries env subcategory brand st attempts s2).1 /\
  same_but_files (fetch_with_retries env' subcategory brand st attempts s1).2
                 (fetch_with_retries env subcategory brand st attempts s2).2.
Proof.
  induction attempts as [|a later IH]; intros s1 s2 H; simpl; [done|].
  assert (Hn : n_requests s1 = n_requests s2) by (by destruct H as (?&?&?&?&?&?&?&?&?)).
  rewrite Hn.
  destruct (provider env (n_requests s2) _ _); simpl;
    try (split; [done|]; by apply sbf_count_request, sbf_emit).
  apply IH. by apply sbf_emit, sbf_count_request, sbf_emit.
Qed.

Lemma sbf_store_results category subcategory brand organic : forall found l s1 s2,
  same_but_files s1 s2 ->
  (store_results env' category subcategory brand organic found l s1).1
    = (store_results env category subcategory brand organic found l s2).1 /\
  same_but_files (store_results env' category subcategory brand organic found l s1).2
                 (store_results env category subcategory brand organic found l s2).2.
Proof.
  induction organic as [|res rest IH]; intros found l s1 s2 H; simpl; [done|].
  destruct (extract_link_from_result res) as [link|e]; simpl; [|done].
  destruct (contains _ link); [|by apply IH].
  destruct (bool_decide _); [by apply IH|].
  assert (Hn : n_db_calls s1 = n_db_calls s2) by (by destruct H as (?&?&?&?&?&?&?&?&?)).
  assert (Hd : db s1 = db s2) by (by destruct H as (?&?&?&?&?&?&?&?&?)).
  assert (Htot : total_urls_found s1 = total_urls_found s2)
    by (by destruct H as (?&?&?&?&?&?&?&?&?)).
  rewrite Hn, Hd.
  destruct (save_url _ _ _ _ _ _) as [[[]|e] d'].
  - apply IH. simpl. rewrite Htot. by apply sbf_set_total, sbf_emit, sbf_db_called.
  - apply IH. by apply sbf_emit, sbf_db_called.
  - destruct (is_Exception e).
    + apply IH. by apply sbf_emit, sbf_db_called.
    + split; [done|]. by apply sbf_db_called.
Qed.

Lemma sbf_process_page category subcategory brand data l s1 s2 :
  same_but_files s1 s2 ->
  (process_page env' category subcategory brand data l s1).1
    = (process_page env category subcategory brand data l s2).1 /\
  same_but_files (process_page env' category subcategory brand data l s1).2
                 (process_page env category subcategory brand data l s2).2.
Proof.
  intros H. unfold process_page.
  destruct (extract_results_from_oxylabs data); [|done].
  destruct (extract_total_results data); [|done].
  destruct (py_iter _); [|done].
  by apply sbf_store_results.
Qed.

Lemma sbf_on_page_exception e l s1 s2 :
  same_but_files s1 s2 ->
  same_step (on_page_exception env' e l s1) (on_page_exception env e l s2).
Proof.
  intros H. unfold on_page_exception.
  assert (Hck : ck s1 = ck s2) by (by destruct H as (?&?&?&?&?&?&?&?&?)).
  rewrite Hck. destruct (bool_decide _); simpl; [|done].
  split; [done|]. split; [done|]. by apply sbf_save_checkpoint.
Qed.

Lemma sbf_after_fetch category subcategory brand max_start data l s1 s2 :
  same_but_files s1 s2 ->
  same_step (after_fetch env' category subcategory brand max_start data l s1)
            (after_fetch env category subcategory brand max_start data l s2).
Proof.
  intros H. unfold after_fetch.
  destruct (sbf_process_page category subcategory brand data l s1 s2 H) as [Hr Hs].
  destruct (process_page env' category subcategory brand data l s1) as [[r1 l1] t1].
  destruct (process_page env category subcategory brand data l s2) as [[r2 l2] t2].
  simpl in Hr, Hs. injection Hr as -> ->.
  destruct r2 as [found|e]; [|by apply sbf_on_page_exception].
  destruct ((found =? 0) && _); simpl.
  - split; [done|]. split; [done|]. by apply sbf_emit, sbf_emit.
  - destruct (_ >? max_start); simpl.
    + split; [done|]. split; [done|]. by apply sbf_emit, sbf_emit.
    + split; [done|]. by apply sbf_emit.
Qed.

Lemma sbf_page_step category subcategory brand max_start l s1 s2 :
  same_but_files s1 s2 ->
  same_step (page_step env' category subcategory brand max_start l s1)
            (page_step env category subcategory brand max_start l s2).
Proof.
  intros H. unfold page_step.
  assert (Hck : ck s1 = ck s2) by (by destruct H as (?&?&?&?&?&?&?&?&?)).
  assert (Hn : n_saves s1 = n_saves s2) by (by destruct H as (?&?&?&?&?&?&?&?&?)).
  change (utcnow env') with (utcnow env). rewrite Hck, Hn.
  set (c := ck_update_position _ _ _ _).
  change (ck (set_ck c s1)) with c. change (ck (set_ck c s2)) with c.
  assert (H2 : same_but_files (save_checkpoint env' BeforePage c (set_ck c s1))
                              (save_checkpoint env BeforePage c (set_ck c s2))).
  { by apply sbf_save_checkpoint, sbf_set_ck. }
  destruct (sbf_fetch_with_retries subcategory brand (start l) (seq 1 MAX_RETRIES) _ _ H2)
    as [Hr Hs].
  destruct (fetch_with_retries env' _ _ _ _ _) as [r1 t1].
  destruct (fetch_with_retries env _ _ _ _ _) as [r2 t2].
  simpl in Hr, Hs. subst r1.
  destruct r2 as [data|e]; [|by apply sbf_on_page_exception].
  destruct data; try by apply sbf_after_fetch.
  simpl. split; [done|]. by apply sbf_emit.
Qed.

Lemma sbf_paginate category subcategory brand max_start fuel : forall l s1 s2,
  same_but_files s1 s2 ->
  (paginate fuel env' category subcategory brand max_start l s1).1
    = (paginate fuel env category subcategory brand max_start l s2).1 /\
  same_but_files (paginate fuel env' category subcategory brand max_start l s1).2
                 (paginate fuel env category subcategory brand max_start l s2).2.
Proof.
  induction fuel as [|fuel IH]; intros l s1 s2 H; simpl; [done|].
  destruct (start l <=? max_start); [|done].
  pose proof (sbf_page_step category subcategory brand max_start l s1 s2 H) as Hstep.
  destruct (page_step env' _ _ _ _ _ _) as [l1 t1|o1 l1 t1];
    destruct (page_step env _ _ _ _ _ _) as [l2 t2|o2 l2 t2]; simpl in Hstep; try done.
  - destruct Hstep as [-> Hs]. by apply IH.
  - by destruct Hstep as (-> & -> & Hs).
Qed.


Lemma sbf_brand_body category rs subcategory brands brand l s1 s2 :
  same_but_files s1 s2 ->
  (brand_body env' category rs subcategory brands brand l s1).1
    = (brand_body env category rs subcategory brands brand l s2).1 /\
  same_but_files (brand_body env' category rs subcategory brands brand l s1).2
                 (brand_body env category rs subcategory brands brand l s2).2.
Proof.
  intros H. unfold brand_body.
  pose proof H as (Hck & Hsk & _ & _ & Hd & _ & Hn & _ & _).
  rewrite Hsk.
  destruct (resume_logic rs (skip_until_resume s2) subcategory brand brands)
    as [|st pn resumed|]; [split; [done|by apply sbf_emit]| |done].
  set (t1 := if resumed then _ else s1). set (t2 := if resumed then _ else s2).
  assert (Ht : same_but_files t1 t2).
  { unfold t1, t2. destruct resumed; [|done]. by apply sbf_set_skip, sbf_emit. }
  pose proof Ht as (Hck' & _ & _ & _ & Hd' & _ & Hn' & _ & _).
  rewrite Hck'.
  change (db_conn env') with (db_conn env). change (provider env') with (provider env).
  change (n_db_calls (set_ck ?c t1)) with (n_db_calls t1).
  change (n_db_calls (set_ck ?c t2)) with (n_db_calls t2).
  change (db (set_ck ?c t1)) with (db t1). change (db (set_ck ?c t2)) with (db t2).
  rewrite Hn', Hd'.
  set (c := ck_set_unit _ _ _ _ _). set (l1 := set_seen_urls _ _).
  assert (Hu : same_but_files (db_called (db t2) (set_ck c t1)) (db_called (db t2) (set_ck c t2))).
  { by apply sbf_db_called, sbf_set_ck. }
  unfold oxylabs_search. cbv beta iota zeta.
  change (provider env') with (provider env).
  assert (Hnr : n_requests (db_called (db t2) (set_ck c t1))
                = n_requests (db_called (db t2) (set_ck c t2))).
  { by destruct Hu as (?&?&?&?&?&?&?&?&?). }
  rewrite Hnr.
  assert (Hv : same_but_files
            (count_request (emit (EvRequest Probe subcategory brand 0)
               (db_called (db t2) (set_ck c t1))))
            (count_request (emit (EvRequest Probe subcategory brand 0)
               (db_called (db t2) (set_ck c t2))))).
  { by apply sbf_count_request, sbf_emit. }
  destruct (probe_max_start _) as [max_start|e]; [|done].
  apply sbf_paginate. destruct (probe_body _); [done|by apply sbf_emit].
Qed.

Lemma sbf_process_brand wl rs subcategory brands brand s1 s2 :
  same_but_files s1 s2 ->
  (process_brand env' wl rs subcategory brands brand s1).1
    = (process_brand env wl rs subcategory brands brand s2).1 /\
  same_but_files (process_brand env' wl rs subcategory brands brand s1).2
                 (process_brand env wl rs subcategory brands brand s2).2.
Proof.
  intros H. unfold process_brand.
  destruct (sbf_brand_body (wl_category wl) rs subcategory brands brand
              (mkLocals 0 0 0 0 ∅) s1 s2 H) as [Hr Hs].
  destruct (brand_body env' _ _ _ _ _ _ _) as [[r1 l1] t1].
  destruct (brand_body env _ _ _ _ _ _ _) as [[r2 l2] t2].
  simpl in Hr, Hs. injection Hr as -> ->.
  destruct r2 as [|e|]; [| |done].
  - cbv beta iota zeta.
    pose proof Hs as (_ & _ & _ & Hst & _).
    change (log_stats t1) with (log_stats t1). rewrite Hst.
    set (u1 := set_stats _ t1). set (u2 := set_stats _ t2).
    assert (Hu : same_but_files u1 u2) by (by apply sbf_set_stats).
    pose proof Hu as (Hck & _). rewrite Hck.
    split; [done|]. by apply sbf_save_checkpoint.
  - cbv beta iota zeta.
    set (v1 := if is_Exception e then _ else t1).
    set (v2 := if is_Exception e then _ else t2).
    assert (Hv : same_but_files v1 v2).
    { unfold v1, v2. destruct (is_Exception e); [by apply sbf_emit|done]. }
    pose proof Hv as (_ & _ & _ & Hst & _). rewrite Hst.
    set (u1 := set_stats _ v1). set (u2 := set_stats _ v2).
    assert (Hu : same_but_files u1 u2) by (by apply sbf_set_stats).
    pose proof Hu as (Hck & _). rewrite Hck.
    destruct (is_Exception e); (split; [done|]; by apply sbf_save_checkpoint).
Qed.

Lemma sbf_for_brands wl rs subcategory brands todo : forall s1 s2,
  same_but_files s1 s2 ->
  (for_brands env' wl rs subcategory brands todo s1).1
    = (for_brands env wl rs subcategory brands todo s2).1 /\
  same_but_files (for_brands env' wl rs subcategory brands todo s1).2
                 (for_brands env wl rs subcategory brands todo s2).2.
Proof.
  induction todo as [|brand rest IH]; intros s1 s2 H; simpl; [done|].
  destruct (sbf_process_brand wl rs subcategory brands brand s1 s2 H) as [Hr Hs].
  destruct (process_brand env' _ _ _ _ _ _) as [o1 t1].
  destruct (process_brand env _ _ _ _ _ _) as [o2 t2].
  simpl in Hr, Hs. subst o1. destruct o2; [by apply IH|done|done].
Qed.

Lemma sbf_for_subcategories wl rs subcategories : forall s1 s2,
  same_but_files s1 s2 ->
  (for_subcategories env' wl rs subcategories s1).1
    = (for_subcategories env wl rs subcategories s2).1 /\
  same_but_files (for_subcategories env' wl rs subcategories s1).2
                 (for_subcategories env wl rs subcategories s2).2.
Proof.
  induction subcategories as [|[subcategory brands] rest IH]; intros s1 s2 H; simpl; [done|].
  assert (Hb : forall t1 t2, same_but_files t1 t2 ->
    (match for_brands env' wl rs subcategory brands brands t1 with
     | (Finished, s) => for_subcategories env' wl rs rest s
     | stop => stop
     end).1 =
    (match for_brands env wl rs subcategory brands brands t2 with
     | (Finished, s) => for_subcategories env wl rs rest s
     | stop => stop
     end).1 /\
    same_but_files
      (match for_brands env' wl rs subcategory brands brands t1 with
       | (Finished, s) => for_subcategories env' wl rs rest s
       | stop => stop
       end).2
      (match for_brands env wl rs subcategory brands brands t2 with
       | (Finished, s) => for_subcategories env wl rs rest s
       | stop => stop
       end).2).
  { intros t1 t2 Ht.
    destruct (sbf_for_brands wl rs subcategory brands brands t1 t2 Ht) as [Hr Hs].
    destruct (for_brands env' _ _ _ _ _ _) as [o1 u1].
    destruct (for_brands env _ _ _ _ _ _) as [o2 u2].
    simpl in Hr, Hs. subst o1. destruct o2; [by apply IH|done|done]. }
  pose proof H as (_ & Hsk & _). rewrite Hsk.
  destruct (skip_until_resume s2); [|by apply Hb].
  destruct rs as [c|]; [|done].
  destruct (bool_decide _); [by apply Hb|]. by apply IH, sbf_emit.
Qed.

(** Faults of the checkpoint saves change nothing in a run of [crawl] but
    the files and the log lines of the failed saves. *)
Lemma sbf_crawl sheet rs s :
  (crawl env' sheet rs s).1 = (crawl env sheet rs s).1 /\
  same_but_files (crawl env' sheet rs s).2 (crawl env sheet rs s).2.
Proof.
  unfold crawl. change (load_subcategories_from_excel env') with (load_subcategories_from_excel env).
  change (credentials env') with (credentials env). change (db_conn env') with (db_conn env).
  destruct (load_subcategories_from_excel env sheet) as [wl|]; [|split; [done|apply sbf_refl]].
  destruct (credentials env); simpl; [|split; [done|apply sbf_refl]].
  destruct (init_db _); [|split; [done|apply sbf_refl]].
  set (s0 := set_skip _ _).
  destruct (sbf_for_subcategories wl rs (wl_subcategories wl) s0 s0 (sbf_refl _)) as [Hr Hs].
  destruct (for_subcategories env' _ _ _ _) as [o1 t1].
  destruct (for_subcategories env _ _ _ _) as [o2 t2].
  simpl in Hr, Hs. subst o1.
  pose proof Hs as (Hck & _ & Htot & _).
  destruct o2 as [|e|]; [| |done].
  - rewrite Htot. split; [done|]. by apply sbf_emit.
  - set (w1 := if bool_decide (e = KeyboardInterrupt) then _ else t1).
    set (w2 := if bool_decide (e = KeyboardInterrupt) then _ else t2).
    assert (Hw : same_but_files w1 w2).
    { unfold w1, w2. rewrite Hck.
      destruct (bool_decide (e = KeyboardInterrupt)); [|done].
      by apply sbf_save_checkpoint. }
    pose proof Hw as (_ & _ & Htot' & _). rewrite Htot'.
    split; [done|]. by apply sbf_emit.
Qed.

End NonInterference.

(** ** Failures of checkpoint input and output *)

Section CheckpointFailures.

Lemma write_checkpoint_fault_keeps_canonical k chunks (f : FS) :
  (k < length (save_checkpoint_ops chunks))%nat ->
  write_checkpoint (Some k) chunks f
    = (Raise OtherException, crash_during_save k chunks f).
Proof.
  intros Hk. unfold write_checkpoint.
  by rewrite (proj2 (Nat.ltb_lt _ _) Hk).
Qed.

(** C10. Checkpoint input and output never raise into the crawl:
    [save_checkpoint] returns normally whatever fault strikes the write, and
    a fault leaves the canonical file as it was, with one line in the log;
    [load_checkpoint] never raises, and returns [None], with one line in the
    log, when the file cannot be opened or parsed; and a run of [crawl] under
    any faults of the checkpoint saves ends as the run without them does,
    with the same requests, stored URLs, statistics and checkpoint record:
    the two differ in the files and in the log lines of failed saves only. *)
Theorem checkpoint_io_failures_contained (env : Env) :
  (forall site state s, (save_checkpoint_result env site state s).1 = Return ()) /\
  (forall site state s k,
      ck_fault env (n_saves s) = Some k ->
      (k < length (save_checkpoint_ops (json_dump env state)))%nat ->
      fs (save_checkpoint env site state s) !! CHECKPOINT_FILE = fs s !! CHECKPOINT_FILE /\
      trace (save_checkpoint env site state s)
        = (trace s ++ [EvSaveCheckpoint site state; EvLog LogCheckpointSaveFailed])%list) /\
  (forall s, exists r, (load_checkpoint env s).1 = Return r) /\
  (forall s content,
      fs s !! CHECKPOINT_FILE = Some content ->
      ck_unreadable env = true \/ json_load env content = None ->
      load_checkpoint env s = (Return None, log LogCheckpointReadFailed s)) /\
  (forall faults sheet resume_state s,
      (crawl (with_ck_fault faults env) sheet resume_state s).1
        = (crawl env sheet resume_state s).1 /\
      same_but_files (crawl (with_ck_fault faults env) sheet resume_state s).2
                     (crawl env sheet resume_state s).2).
Proof.
  split; [|split; [|split; [|split]]]; [| | | |apply sbf_crawl].
  - intros site state s. unfold save_checkpoint_result.
    destruct (write_checkpoint _ _ _) as [[[]|e] f] eqn:Hw; [done|].
    assert (e = OtherException) as ->; [|done].
    unfold write_checkpoint in Hw.
    destruct (ck_fault env (n_saves s)) as [k|]; [|done].
    destruct (k <? _)%nat; congruence.
  - intros site state s k Hk Hlt. unfold save_checkpoint, save_checkpoint_result.
    rewrite Hk, write_checkpoint_fault_keeps_canonical by done. simpl.
    split; [by apply save_checkpoint_ops_prefix|by rewrite <- app_assoc].
  - intros s. unfold load_checkpoint.
    destruct (fs s !! CHECKPOINT_FILE); [|eexists; reflexivity].
    destruct (ck_unreadable env); [eexists; reflexivity|].
    destruct (json_load env _); eexists; reflexivity.
  - intros s content Hc Hbad. unfold load_checkpoint. rewrite Hc.
    destruct (ck_unreadable env); [done|].
    destruct Hbad as [?| ->]; done.
Qed.

Lemma checkpoint_io_failures_contained_witness :
  fs (save_checkpoint disk_full_env BeforePage adidas_checkpoint
        (initial_state ∅ {[ CHECKPOINT_FILE := "garbled" ]})) !! CHECKPOINT_FILE
    = Some "garbled" /\
  load_checkpoint disk_full_env (initial_state ∅ {[ CHECKPOINT_FILE := "garbled" ]})
    = (Return None,
       log LogCheckpointReadFailed (initial_state ∅ {[ CHECKPOINT_FILE := "garbled" ]})).
Proof.
  destruct (checkpoint_io_failures_contained disk_full_env) as (_ & Hsave & _ & Hload & _).
  split.
  - destruct (Hsave BeforePage adidas_checkpoint
                (initial_state ∅ {[ CHECKPOINT_FILE := "garbled" ]}) 0%nat eq_refl)
      as [Hfs _]; [simpl; lia|].
    rewrite Hfs. apply lookup_singleton_eq.
  - apply (Hload _ "garbled"); [apply lookup_singleton_eq|by right].
Defined.

End CheckpointFailures.

(** ** The work list of a sheet *)

Section Strip.

Lemma lstrip_head s :
  lstrip s = EmptyString \/ exists c r, lstrip s = String c r /\ is_space c = false.
Proof.
  induction s as [|c s IH]; [by left|]. simpl.
  destruct (is_space c) eqn:Hc; [done|]. right. by exists c, s.
Qed.

Lemma rstrip_idem s : rstrip (rstrip s) = rstrip s.
Proof.
  induction s as [|c s IH]; [done|]. simpl.
  destruct (rstrip s) as [|a r] eqn:Hr.
  - destruct (is_space c) eqn:Hc; [done|]. simpl. by rewrite Hc.
  - simpl. simpl in IH. destruct (rstrip r) as [|a' r'] eqn:Hr'.
    + destruct (is_space a); [done|]. by injection IH as <-.
    + by rewrite IH.
Qed.

Lemma rstrip_head c r :
  is_space c = false -> exists r', rstrip (String c r) = String c r'.
Proof.
  intros Hc. simpl. destruct (rstrip r); [rewrite Hc|]; eauto.
Qed.

Lemma strip_idem s : strip (strip s) = strip s.
Proof.
  unfold strip. destruct (lstrip_head s) as [-> | (c & r & -> & Hc)]; [done|].
  destruct (rstrip_head c r Hc) as [r' Hr']. rewrite Hr'. simpl lstrip. rewrite Hc.
  rewrite <- Hr'. apply rstrip_idem.
Qed.

End Strip.

Section Loader.

Import Excel.

Lemma add_brand_keys x y subs :
  (add_brand x y subs).*1 = if bool_decide (x ∈ subs.*1) then subs.*1 else (subs.*1 ++ [x])%list.
Proof.
  induction subs as [|[k brands] rest IH]; cbn [add_brand]; [done|].
  destruct (decide (k = x)) as [->|Hk].
  - rewrite (bool_decide_eq_true_2 (x = x)) by done. rewrite !fmap_cons. cbn [fst].
    rewrite bool_decide_eq_true_2; [done|by left].
  - rewrite (bool_decide_eq_false_2 (k = x)) by done. rewrite !fmap_cons, IH. cbn [fst].
    destruct (decide (x ∈ rest.*1)) as [Hin|Hin].
    + rewrite !bool_decide_eq_true_2; [done|by right|done].
    + rewrite !bool_decide_eq_false_2; [done| |done].
      intros [?|?]%elem_of_cons; [congruence|done].
Qed.

Lemma add_brand_keys_NoDup x y subs : NoDup subs.*1 -> NoDup (add_brand x y subs).*1.
Proof.
  intros Hnd. rewrite add_brand_keys. case_bool_decide as Hin; [done|].
  apply NoDup_app. split; [done|]. split; [|apply NoDup_singleton].
  intros k Hk ->%list_elem_of_singleton. done.
Qed.

Lemma add_brand_brands_NoDup x y subs :
  Forall (fun sb => NoDup sb.2) subs -> Forall (fun sb => NoDup sb.2) (add_brand x y subs).
Proof.
  induction 1 as [|[k brands] rest Hb Hrest IH]; simpl.
  - repeat constructor. by intros ?%elem_of_nil.
  - case_bool_decide; [|by constructor].
    constructor; [|done]. simpl in *. case_bool_decide as Hy; [done|].
    apply NoDup_app. split; [done|]. split; [|apply NoDup_singleton].
    intros b Hb' ->%list_elem_of_singleton. done.
Qed.

Lemma add_brand_unit x y subs x' y' :
  is_unit (add_brand x y subs) x' y' <-> is_unit subs x' y' \/ (x' = x /\ y' = y).
Proof.
  unfold is_unit. induction subs as [|[k brands] rest IH]; simpl.
  - split.
    + intros (bs & [= -> ->]%list_elem_of_singleton & ->%list_elem_of_singleton). by right.
    + intros [(bs & []%elem_of_nil & _) | [-> ->]].
      exists [y]. split; by apply list_elem_of_singleton.
  - case_bool_decide as Hk.
    + subst k. split.
      * intros (bs & [[= -> ->] | Hin]%elem_of_cons & Hy).
        -- case_bool_decide as Hyb.
           ++ left. exists brands. split; [by left|done].
           ++ apply elem_of_app in Hy as [Hy | ->%list_elem_of_singleton]; [|by right].
              left. exists brands. split; [by left|done].
        -- left. exists bs. split; [by right|done].
      * intros [(bs & [[= -> ->] | Hin]%elem_of_cons & Hy) | [-> ->]].
        -- eexists. split; [by left|]. case_bool_decide; [done|].
           apply elem_of_app. by left.
        -- exists bs. split; [by right|done].
        -- eexists. split; [by left|]. case_bool_decide; [done|].
           apply elem_of_app. right. by apply list_elem_of_singleton.
    + split.
      * intros (bs & [[= -> ->] | Hin]%elem_of_cons & Hy).
        -- left. exists brands. split; [by left|done].
        -- destruct (proj1 IH (ex_intro _ bs (conj Hin Hy))) as [(bs' & ? & ?) | ?]; [|by right].
           left. exists bs'. split; [by right|done].
      * intros [(bs & [[= -> ->] | Hin]%elem_of_cons & Hy) | Hxy].
        -- exists brands. split; [by left|done].
        -- destruct (proj2 IH (or_introl (ex_intro _ bs (conj Hin Hy)))) as (bs' & ? & ?).
           exists bs'. split; [by right|done].
        -- destruct (proj2 IH (or_intror Hxy)) as (bs' & ? & ?).
           exists bs'. split; [by right|done].
Qed.

Lemma decide_pair (a b c d : string) :
  bool_decide (a = b) && bool_decide (c = d) = bool_decide (b = a /\ d = c).
Proof. rewrite bool_decide_and. f_equal; apply bool_decide_ext; split; congruence. Qed.

Lemma row_lookup_set_row x y r m x' y' :
  row_lookup x' y' (set_row x y r m)
  = if bool_decide (x' = x /\ y' = y) then Some r else row_lookup x' y' m.
Proof.
  induction m as [|[[sb b] r0] rest IH]; cbn [set_row row_lookup].
  - by rewrite decide_pair.
  - rewrite (decide_pair sb x b y).
    destruct (decide (x = sb /\ y = b)) as [[-> ->]|Hne].
    + rewrite (bool_decide_eq_true_2 (sb = sb /\ b = b)) by done.
      cbn [row_lookup]. rewrite decide_pair. by destruct (bool_decide _).
    + rewrite (bool_decide_eq_false_2 _ Hne). cbn [row_lookup]. rewrite IH, decide_pair.
      destruct (decide (x' = sb /\ y' = b)) as [[-> ->]|Hne'].
      * rewrite (bool_decide_eq_true_2 (sb = sb /\ b = b)) by done.
        rewrite bool_decide_eq_false_2; [done|]. intros [-> ->]. by apply Hne.
      * by rewrite (bool_decide_eq_false_2 _ Hne').
Qed.

Lemma iterrows_columns df idxs : forall acc,
  "SubCategories" ∈ df_columns df -> "Brand" ∈ df_columns df ->
  iterrows df idxs acc = Return (foldl (add_unit df) acc idxs).
Proof.
  induction idxs as [|i rest IH]; intros acc Hs Hb; [done|].
  cbn [iterrows foldl]. unfold add_row, cell.
  rewrite !bool_decide_eq_true_2 by done. exact (IH _ Hs Hb).
Qed.

Lemma iterrows_missing df i rest acc :
  ~ ("SubCategories" ∈ df_columns df /\ "Brand" ∈ df_columns df) ->
  iterrows df (i :: rest) acc = Raise KeyError.
Proof.
  intros Hno. cbn [iterrows]. unfold add_row, cell.
  destruct (decide ("SubCategories" ∈ df_columns df)) as [Hs|Hs].
  - rewrite (bool_decide_eq_true_2 _ Hs).
    rewrite bool_decide_eq_false_2; [done|]. intros Hb. by apply Hno.
  - by rewrite (bool_decide_eq_false_2 _ Hs).
Qed.

Lemma loaded_S df n : loaded df (S n) = add_unit df (loaded df n) n.
Proof. unfold loaded. by rewrite seq_S, foldl_app. Qed.

Lemma load_columns df :
  df_empty df = false -> has_columns df ->
  load_subcategories_from_excel (Return df)
  = Return (mkWorkList (strip (df_str df 0 "Category"))
              (loaded df (df_len df)).1 (loaded df (df_len df)).2).
Proof.
  intros He (Hc & Hs & Hb). unfold load_subcategories_from_excel. rewrite He.
  unfold cell at 1. rewrite (bool_decide_eq_true_2 _ Hc).
  cbn [mbind result_bind]. by rewrite iterrows_columns.
Qed.

Lemma load_missing df :
  df_empty df = false -> ~ has_columns df ->
  load_subcategories_from_excel (Return df) = Raise KeyError.
Proof.
  intros He Hno. unfold load_subcategories_from_excel. rewrite He.
  unfold cell at 1.
  destruct (decide ("Category" ∈ df_columns df)) as [Hc|Hc];
    [rewrite (bool_decide_eq_true_2 _ Hc)|by rewrite (bool_decide_eq_false_2 _ Hc)].
  cbn [mbind result_bind].
  destruct (df_len df) as [|n] eqn:Hn.
  { unfold df_empty in He. rewrite Hn in He. done. }
  cbn [seq]. rewrite iterrows_missing; [done|].
  intros [Hs Hb]. by apply Hno.
Qed.

Lemma load_inv df wl :
  load_subcategories_from_excel (Return df) = Return wl ->
  (0 < df_len df)%nat /\ has_columns df /\
  wl = mkWorkList (strip (df_str df 0 "Category"))
         (loaded df (df_len df)).1 (loaded df (df_len df)).2.
Proof.
  intros Hl. destruct (df_empty df) eqn:He.
  { unfold load_subcategories_from_excel in Hl. by rewrite He in Hl. }
  destruct (decide (has_columns df)) as [Hc|Hc].
  - rewrite (load_columns df He Hc) in Hl. injection Hl as <-.
    split; [|done]. unfold df_empty in He. apply orb_false_iff in He as [He _].
    apply bool_decide_eq_false in He. lia.
  - by rewrite (load_missing df He Hc) in Hl.
Qed.

Lemma loaded_wf df n :
  NoDup (loaded df n).1.*1 /\ Forall (fun sb => NoDup sb.2) (loaded df n).1.
Proof.
  induction n as [|n [IH1 IH2]]; [split; constructor|].
  rewrite loaded_S. split.
  - by apply add_brand_keys_NoDup.
  - by apply add_brand_brands_NoDup.
Qed.

Lemma loaded_units df n x y :
  is_unit (loaded df n).1 x y <-> exists i, (i < n)%nat /\ row_unit df i = (x, y).
Proof.
  induction n as [|n IH].
  - split; [intros (bs & []%elem_of_nil & _)|intros (i & ? & _); lia].
  - rewrite loaded_S. cbn [add_unit fst]. rewrite add_brand_unit, IH. split.
    + intros [(i & Hi & Hu) | [-> ->]].
      * exists i. split; [lia|done].
      * exists n. split; [lia|]. by destruct (row_unit df n).
    + intros (i & Hi & Hu). destruct (decide (i = n)) as [->|Hne].
      * right. by rewrite Hu.
      * left. exists i. split; [lia|done].
Qed.

Lemma loaded_rows_none df n x y :
  (forall i, (i < n)%nat -> row_unit df i <> (x, y)) ->
  row_lookup x y (loaded df n).2 = None.
Proof.
  induction n as [|n IH]; intros Hno; [done|].
  rewrite loaded_S. cbn [add_unit snd]. rewrite row_lookup_set_row.
  rewrite bool_decide_eq_false_2.
  - apply IH. intros i Hi. apply Hno. lia.
  - intros [-> ->]. apply (Hno n); [lia|]. by destruct (row_unit df n).
Qed.

Lemma loaded_rows_last df n x y i :
  (i < n)%nat -> row_unit df i = (x, y) ->
  (forall j, (i < j < n)%nat -> row_unit df j <> (x, y)) ->
  row_lookup x y (loaded df n).2 = Some (Z.of_nat i + 2).
Proof.
  induction n as [|n IH]; intros Hi Hu Hlast; [lia|].
  rewrite loaded_S. cbn [add_unit snd]. rewrite row_lookup_set_row.
  destruct (decide (i = n)) as [->|Hne].
  - rewrite bool_decide_eq_true_2; [done|]. by rewrite Hu.
  - rewrite bool_decide_eq_false_2.
    + apply IH; [lia|done|]. intros j Hj. apply Hlast. lia.
    + intros [-> ->]. apply (Hlast n); [lia|]. by destruct (row_unit df n).
Qed.

(** Among the rows that hold a pair there is a last one. *)
Lemma last_row_with df x y : forall n i,
  (i < n)%nat -> row_unit df i = (x, y) ->
  exists k, (k < n)%nat /\ row_unit df k = (x, y) /\
    forall j, (k < j < n)%nat -> row_unit df j <> (x, y).
Proof.
  induction n as [|n IH]; intros i Hi Hu; [lia|].
  destruct (decide (row_unit df n = (x, y))) as [Hn|Hn].
  - exists n. split; [lia|]. split; [done|]. intros j Hj. lia.
  - assert (Hi' : (i < n)%nat).
    { destruct (decide (i = n)) as [->|]; [done|lia]. }
    destruct (IH i Hi' Hu) as (k & Hk & Hku & Hlast).
    exists k. split; [lia|]. split; [done|]. intros j Hj.
    destruct (decide (j = n)) as [->|]; [done|]. apply Hlast. lia.
Qed.

Lemma extends_refl subs : extends subs subs.
Proof. split; [done|]. intros x bs Hin. by exists bs. Qed.

Lemma extends_trans a b c : extends a b -> extends b c -> extends a c.
Proof.
  intros [Hk1 He1] [Hk2 He2]. split; [by etrans|].
  intros x bs Hin. destruct (He1 x bs Hin) as (bs1 & Hin1 & Hp1).
  destruct (He2 x bs1 Hin1) as (bs2 & Hin2 & Hp2). exists bs2. split; [done|by etrans].
Qed.

Lemma add_brand_extends x y subs : extends subs (add_brand x y subs).
Proof.
  split.
  - rewrite add_brand_keys. case_bool_decide; [done|]. by apply prefix_app_r.
  - induction subs as [|[k bs] rest IH]; intros x' bs' Hin; [by apply elem_of_nil in Hin|].
    cbn [add_brand]. destruct (decide (k = x)) as [->|Hk].
    + rewrite (bool_decide_eq_true_2 (x = x)) by done.
      apply elem_of_cons in Hin as [[= -> ->] | Hin].
      * eexists. split; [by left|]. case_bool_decide; [done|]. by apply prefix_app_r.
      * exists bs'. split; [by right|done].
    + rewrite (bool_decide_eq_false_2 (k = x)) by done.
      apply elem_of_cons in Hin as [[= -> ->] | Hin].
      * exists bs. split; [by left|done].
      * destruct (IH x' bs' Hin) as (bs2 & Hin2 & Hp). exists bs2. split; [by right|done].
Qed.

Lemma loaded_extends df n k : extends (loaded df n).1 (loaded df (n + k)).1.
Proof.
  induction k as [|k IH].
  - rewrite Nat.add_0_r. apply extends_refl.
  - rewrite Nat.add_succ_r, loaded_S. eapply extends_trans; [exact IH|].
    apply add_brand_extends.
Qed.

Lemma add_brand_nonempty x y subs :
  Forall (fun sb => sb.2 <> []) subs -> Forall (fun sb : string * list string => sb.2 <> []) (add_brand x y subs).
Proof.
  induction 1 as [|[k bs] rest Hb Hrest IH]; cbn [add_brand].
  - by repeat constructor.
  - destruct (bool_decide (k = x)); [|by constructor].
    constructor; [|done]. simpl in *. destruct (bool_decide (y ∈ bs)); [done|].
    by destruct bs.
Qed.

Lemma loaded_nonempty df n : Forall (fun sb => sb.2 <> []) (loaded df n).1.
Proof.
  induction n as [|n IH]; [constructor|]. rewrite loaded_S. by apply add_brand_nonempty.
Qed.

End Loader.

Section LoaderProperties.

Import Excel.







(** X4. Rows added at the bottom of a sheet leave what was there in place: the
    work list of the longer sheet goes on from that of the shorter one. *)
Theorem appended_rows_keep_order (df : DataFrame) (n : nat) (wl : WorkList) :
  (0 < n <= df_len df)%nat ->
  load_subcategories_from_excel (Return df) = Return wl ->
  exists wl0,
    load_subcategories_from_excel (Return (first_rows n df)) = Return wl0 /\
    wl_category wl0 = wl_category wl /\
    extends (wl_subcategories wl0) (wl_subcategories wl).
Proof.
  intros Hn (Hlen & Hcols & ->)%load_inv.
  assert (Hmin : (n `min` df_len df = n)%nat) by lia.
  eexists. split.
  - apply load_columns; [|exact Hcols].
    unfold df_empty, first_rows. cbn [df_len df_columns]. rewrite Hmin.
    apply orb_false_iff. split; apply bool_decide_eq_false_2; [lia|].
    destruct Hcols as [Hc _]. intros Heq. rewrite Heq in Hc. by apply elem_of_nil in Hc.
  - split; [done|]. cbn [wl_subcategories first_rows df_len]. rewrite Hmin.
    change (loaded (first_rows n df) n) with (loaded df n).
    pose proof (loaded_extends df n (df_len df - n)) as He.
    by replace (n + (df_len df - n))%nat with (df_len df) in He by lia.
Qed.

Lemma appended_rows_keep_order_witness :
  extends [("Shoes", ["Nike"])] (wl_subcategories shoes_worklist).
Proof.
  destruct (appended_rows_keep_order shoes_frame 1 shoes_worklist) as (wl0 & Hl & _ & He);
    [simpl; lia|reflexivity|].
  injection Hl as <-. exact He.
Defined.

(** X5. How the loader fails: an exception of the read is raised again, a sheet
    without rows or columns gives [ValueError], a missing column gives
    [KeyError]; with rows and the three columns the loader returns. *)
Theorem loader_failure_modes (read : result DataFrame) :
  match read with
  | Raise e => load_subcategories_from_excel read = Raise e
  | Return df =>
      (df_empty df = true -> load_subcategories_from_excel read = Raise ValueError) /\
      (df_empty df = false -> ~ has_columns df ->
         load_subcategories_from_excel read = Raise KeyError) /\
      (df_empty df = false -> has_columns df ->
         exists wl, load_subcategories_from_excel read = Return wl)
  end.
Proof.
  destruct read as [df|e]; [|done]. split; [|split].
  - intros He. unfold load_subcategories_from_excel. by rewrite He.
  - apply load_missing.
  - intros He Hc. eexists. by apply load_columns.
Qed.

Lemma loader_failure_modes_witness :
  load_subcategories_from_excel (Return frame_without_brands) = Raise KeyError.
Proof.
  apply (loader_failure_modes (Return frame_without_brands)); [reflexivity|].
  intros (_ & _ & Hb). revert Hb. apply (bool_decide_unpack (_ ∉ _)). by vm_compute.
Defined.

End LoaderProperties.

(** ** Stored URLs, extractors, retries and the checkpoint file *)

Section StoredUrls.

Lemma load_saved_urls_lookup c s o u (d : DB) :
  u ∈ load_saved_urls ExecOk c s o d <-> d !! u = Some (c, s, o).
Proof.
  unfold load_saved_urls. rewrite elem_of_dom. split.
  - intros [row Hrow]. apply map_lookup_filter_Some in Hrow as [Hrow Heq].
    simpl in Heq. by subst.
  - intros Hrow. exists (c, s, o). by apply map_lookup_filter_Some.
Qed.

(** X6. What [load_saved_urls] returns after a [save_url]: a stored URL is
    loaded for the category, subcategory and brand it was first saved
    under, and for no other; a call that finds the URL in the table changes
    no set. *)
Theorem saved_url_loaded_for_first_owner (category subcategory others url : string)
    (d : DB) :
  let d' := (save_url ExecOk category subcategory others url d).2 in
  (forall c s o u, u ∈ load_saved_urls ExecOk c s o d <-> d !! u = Some (c, s, o)) /\
  (forall c s o u,
     u ∈ load_saved_urls ExecOk c s o d' <->
     u ∈ load_saved_urls ExecOk c s o d \/
     (u = url /\ d !! url = None /\ (c, s, o) = (category, subcategory, others))) /\
  (forall o' c s o, o' <> ExecOk -> load_saved_urls o' c s o d' = ∅).
Proof.
  cbv zeta. split; [intros; apply load_saved_urls_lookup|]. split.
  - intros c s o u. rewrite !load_saved_urls_lookup. simpl.
    unfold insert_on_conflict_do_nothing.
    destruct (d !! url) as [row|] eqn:Hurl.
    + split; [by left|]. intros [?|(_ & ? & _)]; done.
    + destruct (decide (u = url)) as [->|Hne].
      * rewrite lookup_insert_eq, Hurl. split.
        -- intros [= <- <- <-]. by right.
        -- intros [?|(_ & _ & [= -> -> ->])]; done.
      * rewrite lookup_insert_ne by done. split; [by left|].
        intros [?|(? & _)]; done.
  - intros o' c s o Ho. by destruct o'.
Qed.

End StoredUrls.

Section ExtractorExceptions.

Lemma py_get_raises v key dflt e : py_get v key dflt = Raise e -> e = AttributeError.
Proof. destruct v; simpl; congruence. Qed.

Lemma py_index0_raises v e :
  py_index0 v = Raise e -> e = IndexError \/ e = KeyError \/ e = TypeError.
Proof. destruct v as [| | |[|]|[|]|]; simpl; intros [= <-]; auto. Qed.

Lemma int_of_total_raises v e : int_of_total v = Raise e -> e = ValueError.
Proof.
  destruct v as [| | |s| |]; simpl; try congruence. unfold py_int.
  destruct (match strip _ with EmptyString => _ | _ => _ end); congruence.
Qed.

Lemma extract_results_raises data e :
  extract_results_from_oxylabs data = Raise e -> e = AttributeError.
Proof.
  unfold extract_results_from_oxylabs.
  destruct (py_get data "results" (PList [])) as [results|e1] eqn:H1;
    [|apply py_get_raises in H1 as ->; by intros [= <-]].
  cbn [mbind result_bind]. destruct (py_truthy results); cbn [negb]; [|done].
  destruct (py_index0 results) as [first|e1] eqn:H2.
  2: { by apply py_index0_raises in H2 as [-> | [-> | ->]]. }
  cbn [mbind result_bind].
  destruct (py_get first "content" (PDict [])) as [content|e1] eqn:H3;
    [|apply py_get_raises in H3 as ->; by intros [= <-]].
  cbn [mbind result_bind].
  destruct (py_get content "results" (PDict [])) as [inner|e1] eqn:H4;
    [|apply py_get_raises in H4 as ->; by intros [= <-]].
  cbn [mbind result_bind].
  destruct (py_get inner "organic" (PList [])) as [organic|e1] eqn:H5;
    [|apply py_get_raises in H5 as ->; by intros [= <-]].
  done.
Qed.

Lemma extract_total_results_raises data e :
  extract_total_results data = Raise e -> e = AttributeError.
Proof.
  unfold extract_total_results.
  destruct (py_get data "results" (PList [])) as [results|e1] eqn:H1;
    [|apply py_get_raises in H1 as ->; by intros [= <-]].
  cbn [mbind result_bind]. destruct (py_truthy results); cbn [negb]; [|done].
  destruct (py_index0 results) as [first|e1] eqn:H2.
  2: { by apply py_index0_raises in H2 as [-> | [-> | ->]]. }
  cbn [mbind result_bind].
  destruct (py_get first "content" (PDict [])) as [content|e1] eqn:H3;
    [|apply py_get_raises in H3 as ->; by intros [= <-]].
  cbn [mbind result_bind].
  destruct (py_get content "results" (PDict [])) as [inner|e1] eqn:H4;
    [|apply py_get_raises in H4 as ->; by intros [= <-]].
  cbn [mbind result_bind].
  destruct (py_get inner "search_information" (PDict [])) as [si|e1] eqn:H5;
    [|apply py_get_raises in H5 as ->; by intros [= <-]].
  cbn [mbind result_bind].
  destruct (py_get si "total_results_count" PNone) as [total|e1] eqn:H6;
    [|apply py_get_raises in H6 as ->; by intros [= <-]].
  cbn [mbind result_bind].
  destruct (py_truthy total); [|done].
  destruct (int_of_total total) as [n|e1] eqn:H7; [done|].
  by apply int_of_total_raises in H7 as ->.
Qed.

(** X7. Of the exceptions the extractors can meet, [AttributeError] is the one
    that leaves them: the others are answered with the empty result; and a
    dict without results gives the empty result at once. *)
Theorem extractors_raise_attribute_error_only (data : pyval) :
  (extract_results_from_oxylabs data = Raise AttributeError \/
   exists organic, extract_results_from_oxylabs data = Return organic) /\
  (extract_total_results data = Raise AttributeError \/
   exists total, extract_total_results data = Return total) /\
  (forall items,
     data = PDict items -> ~ py_truthy (default (PList []) (items_lookup "results" items)) ->
     extract_results_from_oxylabs data = Return (PList []) /\
     extract_total_results data = Return None).
Proof.
  split; [|split].
  - destruct (extract_results_from_oxylabs data) as [v|e] eqn:H; [right; by exists v|].
    left. by rewrite (extract_results_raises _ _ H).
  - destruct (extract_total_results data) as [v|e] eqn:H; [right; by exists v|].
    left. by rewrite (extract_total_results_raises _ _ H).
  - intros items -> Hfalsy. unfold extract_results_from_oxylabs, extract_total_results.
    cbn [py_get mbind result_bind].
    destruct (py_truthy _); [by destruct Hfalsy|done].
Qed.

Lemma extractors_raise_attribute_error_only_witness :
  extract_results_from_oxylabs (PDict [("results", PList [])]) = Return (PList []).
Proof.
  destruct (extractors_raise_attribute_error_only (PDict [("results", PList [])]))
    as (_ & _ & H).
  destruct (H [("results", PList [])] eq_refl) as [Hr _]; [|exact Hr].
  simpl. intros [].
Defined.

End ExtractorExceptions.

Section Links.

Lemma is_http_str_Some v s :
  is_http_str v = Some s -> v = PStr s /\ startswith "http" s = true.
Proof.
  destruct v as [| | |t| |]; cbn [is_http_str]; try done.
  destruct (startswith "http" t) eqn:Hs; [|done]. intros [= <-]. by split.
Qed.



End Links.

Section Ceiling.


End Ceiling.

Section Retries.

Lemma fetch_with_retries_requests env subcategory brand st attempts : forall s,
  let q := query_for subcategory brand in
  let page := start_page st RESULTS_PER_PAGE in
  let r := fetch_with_retries env subcategory brand st attempts s in
  (forall k, (k < length attempts)%nat ->
     (forall i, (i < k)%nat -> provider env (n_requests s + i) q page = RespRequestError) ->
     provider env (n_requests s + k) q page <> RespRequestError ->
     n_requests r.2 = (n_requests s + k + 1)%nat /\
     r.1 = match provider env (n_requests s + k) q page with
           | RespOk data => Return data
           | RespInterrupt => Raise KeyboardInterrupt
           | _ => Raise OtherException
           end) /\
  ((forall i, (i < length attempts)%nat ->
      provider env (n_requests s + i) q page = RespRequestError) ->
     r.1 = Return PNone /\ n_requests r.2 = (n_requests s + length attempts)%nat) /\
  (n_requests s + 1 `min` length attempts <= n_requests r.2
   <= n_requests s + length attempts)%nat.
Proof.
  induction attempts as [|a later IH]; intros s; cbv zeta.
  { cbn [fetch_with_retries length fst snd]. split; [intros k Hk; lia|].
    split; [intros _; split; [done|lia]|lia]. }
  cbn [fetch_with_retries length]. unfold oxylabs_search.
  set (s1 := count_request _).
  assert (Hn1 : n_requests s1 = S (n_requests s)) by done.
  destruct (provider env (n_requests s) (query_for subcategory brand)
              (start_page st RESULTS_PER_PAGE)) as [data| | |] eqn:Hp.
  2: { (* a request error: the next attempt *)
    specialize (IH (log (LogRequestError a st) s1)). cbv zeta in IH.
    change (n_requests (log (LogRequestError a st) s1)) with (S (n_requests s)) in IH.
    destruct IH as (IHk & IHall & IHb).
    split; [|split; [|lia]].
    - intros k Hk Hbefore Hnow. destruct k as [|k].
      { rewrite Nat.add_0_r in Hnow. done. }
      destruct (IHk k) as [Hn Hr]; [lia| |by rewrite Nat.add_succ_comm|].
      { intros i Hi. specialize (Hbefore (S i)). rewrite Nat.add_succ_comm.
        apply Hbefore. lia. }
      rewrite Nat.add_succ_comm in Hr. split; [lia|done].
    - intros Hall. destruct IHall as [Hr Hn].
      { intros i Hi. rewrite Nat.add_succ_comm. apply Hall. lia. }
      split; [done|lia]. }
  all: cbn [fst snd]; rewrite Hn1;
    (split; [|split; [|lia]];
     [ intros k Hk Hbefore Hnow; destruct k as [|k];
       [ rewrite Nat.add_0_r, Hp; split; [lia|done]
       | specialize (Hbefore 0%nat); rewrite Nat.add_0_r, Hp in Hbefore;
         discriminate Hbefore; lia ]
     | intros Hall; specialize (Hall 0%nat); rewrite Nat.add_0_r, Hp in Hall;
       discriminate Hall; lia ]).
Qed.

(** X10. The retry loop of one page: at most [MAX_RETRIES] = 5 requests; it stops
    at the first answer that is not a request error, with that answer; when
    all five are request errors it gives the page up. *)
Theorem retries_stop_at_first_answer (env : Env) (subcategory brand : string)
    (st : Z) (s : State) :
  let q := query_for subcategory brand in
  let page := start_page st RESULTS_PER_PAGE in
  let r := fetch_with_retries env subcategory brand st (seq 1 MAX_RETRIES) s in
  (forall k, (k < 5)%nat ->
     (forall i, (i < k)%nat -> provider env (n_requests s + i) q page = RespRequestError) ->
     provider env (n_requests s + k) q page <> RespRequestError ->
     n_requests r.2 = (n_requests s + k + 1)%nat /\
     r.1 = match provider env (n_requests s + k) q page with
           | RespOk data => Return data
           | RespInterrupt => Raise KeyboardInterrupt
           | _ => Raise OtherException
           end) /\
  ((forall i, (i < 5)%nat -> provider env (n_requests s + i) q page = RespRequestError) ->
     r.1 = Return PNone /\ n_requests r.2 = (n_requests s + 5)%nat) /\
  (n_requests s < n_requests r.2 <= n_requests s + 5)%nat.
Proof.
  cbv zeta.
  destruct (fetch_with_retries_requests env subcategory brand st (seq 1 MAX_RETRIES) s)
    as (Hk & Hall & Hb).
  change (length (seq 1 MAX_RETRIES)) with 5%nat in *.
  split; [exact Hk|]. split; [exact Hall|]. lia.
Qed.

Lemma retries_stop_at_first_answer_witness :
  (fetch_with_retries (example_env one_brand_worklist provider_down) "Shoes" "Nike" 0
     (seq 1 MAX_RETRIES) (initial_state ∅ ∅)).1 = Return PNone.
Proof.
  destruct (retries_stop_at_first_answer (example_env one_brand_worklist provider_down)
              "Shoes" "Nike" 0 (initial_state ∅ ∅)) as (_ & Hall & _).
  by destruct Hall as [Hr _].
Defined.

End Retries.

Section CheckpointRoundTrip.

Lemma save_checkpoint_ops_lookup chunks (f : FS) p :
  fs_run (save_checkpoint_ops chunks) f !! p =
    if bool_decide (p = CHECKPOINT_FILE) then Some (join chunks)
    else if bool_decide (p = tmp_path) then None else f !! p.
Proof.
  unfold save_checkpoint_ops, fs_run. cbn [foldl]. rewrite foldl_app. cbn [foldl fs_apply].
  destruct (fs_run_writes chunks (<[tmp_path := EmptyString]> f) EmptyString) as [H1 H2];
    [by rewrite lookup_insert_eq|].
  unfold fs_run in H1, H2. rewrite H1. change (EmptyString ++ join chunks)%string with (join chunks).
  destruct (decide (p = CHECKPOINT_FILE)) as [->|Hp].
  - by rewrite bool_decide_eq_true_2, lookup_insert_eq.
  - rewrite (bool_decide_eq_false_2 _ Hp), lookup_insert_ne by done.
    destruct (decide (p = tmp_path)) as [->|Hq].
    + by rewrite bool_decide_eq_true_2, lookup_delete_eq.
    + rewrite (bool_decide_eq_false_2 _ Hq), lookup_delete_ne by done.
      rewrite H2 by done. by rewrite lookup_insert_ne.
Qed.

(** X11. A saved checkpoint is what the next run loads: after a save that meets
    no fault, [load_checkpoint] returns the saved record, the temporary file
    is gone and no other file has changed; after a save that fails,
    [load_checkpoint] returns what it would have returned before. *)
Theorem saved_checkpoint_is_loaded (env : Env) (site : save_site) (c : Checkpoint)
    (s : State) :
  let s' := save_checkpoint env site c s in
  (ck_fault env (n_saves s) = None -> ck_unreadable env = false ->
   json_load env (join (json_dump env c)) = Some c ->
     load_checkpoint env s' = (Return (Some c), s') /\
     fs s' !! tmp_path = None /\
     (forall p, p <> CHECKPOINT_FILE -> p <> tmp_path -> fs s' !! p = fs s !! p)) /\
  (forall k, ck_fault env (n_saves s) = Some k ->
     (k < length (save_checkpoint_ops (json_dump env c)))%nat ->
     (load_checkpoint env s').1 = (load_checkpoint env s).1).
Proof.
  cbv zeta. split.
  - intros Hf Hr Hj. unfold save_checkpoint, save_checkpoint_result, write_checkpoint.
    rewrite Hf. cbn [snd]. split; [|split].
    + unfold load_checkpoint. cbn [fs file_saved].
      rewrite save_checkpoint_ops_lookup, bool_decide_eq_true_2 by done.
      by rewrite Hr, Hj.
    + cbn [fs file_saved]. rewrite save_checkpoint_ops_lookup.
      rewrite bool_decide_eq_false_2 by apply tmp_path_not_canonical.
      by rewrite bool_decide_eq_true_2.
    + intros p Hp Hq. cbn [fs file_saved emit]. rewrite save_checkpoint_ops_lookup.
      by rewrite !bool_decide_eq_false_2.
  - intros k Hk Hlt. unfold save_checkpoint, save_checkpoint_result.
    rewrite Hk, write_checkpoint_fault_keeps_canonical by done.
    change (is_Exception OtherException) with true. cbn [snd].
    unfold load_checkpoint. cbn [fs log emit file_saved].
    unfold crash_during_save. rewrite save_checkpoint_ops_prefix by done.
    destruct (fs s !! CHECKPOINT_FILE); [|done].
    destruct (ck_unreadable env); [done|]. by destruct (json_load env _).
Qed.

Lemma saved_checkpoint_is_loaded_witness :
  (load_checkpoint adidas_on_disk_env
     (save_checkpoint adidas_on_disk_env UnitEnd adidas_checkpoint (initial_state ∅ ∅))).1
  = Return (Some adidas_checkpoint).
Proof.
  destruct (saved_checkpoint_is_loaded adidas_on_disk_env UnitEnd adidas_checkpoint
              (initial_state ∅ ∅)) as [H _].
  destruct H as [Hl _]; [reflexivity..|]. by rewrite Hl.
Defined.

End CheckpointRoundTrip.

(** ** What a crawl keeps *)

Section ListingLinks.

Lemma extract_link_http res link :
  extract_link_from_result res = Return link ->
  link = EmptyString \/ startswith "http" link = true.
Proof.
  unfold extract_link_from_result.
  destruct (py_get res "url" PNone) as [v1|e]; [|done]. cbn [mbind result_bind].
  destruct (is_http_str v1) as [s|] eqn:H1.
  { intros [= <-]. right. by apply is_http_str_Some in H1 as [_ ?]. }
  destruct (py_get res "link" PNone) as [v2|e]; [|done]. cbn [mbind result_bind].
  destruct (is_http_str v2) as [s|] eqn:H2.
  - intros [= <-]. right. by apply is_http_str_Some in H2 as [_ ?].
  - intros [= <-]. by left.
Qed.

Lemma listing_link_http res link :
  extract_link_from_result res = Return link ->
  contains "catawiki.com/en/l/" link = true -> startswith "http" link = true.
Proof.
  intros [-> | H]%extract_link_http; [done|]. by intros _.
Qed.

End ListingLinks.

(** ** What the loop of one brand preserves

    A relation between the variables and state before and after, which the
    steps of the loop body keep, is kept by the whole pagination. *)

Section PaginationKeeps.

Variable env : Env.
Variables category subcategory brand : string.
Variable R : Locals -> State -> Locals -> State -> Prop.

Hypothesis R_refl : forall l s, R l s l s.
Hypothesis R_trans : forall l1 s1 l2 s2 l3 s3,
  R l1 s1 l2 s2 -> R l2 s2 l3 s3 -> R l1 s1 l3 s3.
Hypothesis R_emit : forall e l s, is_plain e -> R l s l (emit e s).
Hypothesis R_set_ck : forall c l s, R l s l (set_ck c s).
Hypothesis R_count_request : forall l s, R l s l (count_request s).
Hypothesis R_save_checkpoint : forall site c l s,
  R l s l (save_checkpoint env site c s).
Hypothesis R_set_start : forall n l s, R l s (set_start n l) s.
Hypothesis R_set_page_num : forall n l s, R l s (set_page_num n l) s.
Hypothesis R_set_consecutive_empty : forall n l s, R l s (set_consecutive_empty n l) s.
Hypothesis R_save_step : forall link l s,
  startswith "http" link = true ->
  contains "catawiki.com/en/l/" link = true ->
  split_head "&" link ∉ seen_urls l ->
  R l s (save_step env category subcategory brand (split_head "&" link) l s).1
        (save_step env category subcategory brand (split_head "&" link) l s).2.

Lemma R_log line l s : R l s l (log line s).
Proof. unfold log. apply R_emit. exact I. Qed.

Lemma fetch_with_retries_keeps st attempts l : forall s,
  R l s l (fetch_with_retries env subcategory brand st attempts s).2.
Proof.
  induction attempts as [|a later IH]; intros s; cbn [fetch_with_retries]; [done|].
  unfold oxylabs_search.
  assert (H1 : R l s l (count_request (emit (EvRequest PageFetch subcategory brand st) s))).
  { eapply R_trans; [|apply R_count_request]. apply R_emit. exact I. }
  destruct (provider env _ _ _); cbn [snd]; try done.
  eapply R_trans; [exact H1|]. eapply R_trans; [apply R_log|apply IH].
Qed.

Lemma store_results_keeps organic : forall found l s,
  R l s (store_results env category subcategory brand organic found l s).1.2
        (store_results env category subcategory brand organic found l s).2.
Proof.
  induction organic as [|res rest IH]; intros found l s; cbn [store_results]; [done|].
  destruct (extract_link_from_result res) as [link|e] eqn:Hlink; [|done].
  destruct (contains "catawiki.com/en/l/" link) eqn:Hc; [|apply IH].
  case_bool_decide as Hseen; [apply IH|].
  pose proof (R_save_step link l s (listing_link_http _ _ Hlink Hc) Hc Hseen) as Hs.
  unfold save_step in Hs.
  destruct (save_url _ _ _ _ _ _) as [[[]|e] d'].
  - eapply R_trans; [exact Hs|apply IH].
  - eapply R_trans; [exact Hs|apply IH].
  - destruct (is_Exception e).
    + eapply R_trans; [exact Hs|apply IH].
    + exact Hs.
Qed.

Lemma process_page_keeps data l s :
  R l s (process_page env category subcategory brand data l s).1.2
        (process_page env category subcategory brand data l s).2.
Proof.
  unfold process_page.
  destruct (extract_results_from_oxylabs data); [|done].
  destruct (extract_total_results data); [|done].
  destruct (py_iter _); [|done]. apply store_results_keeps.
Qed.

Lemma on_page_exception_keeps e l s :
  R l s (step_locals (on_page_exception env e l s))
        (step_state (on_page_exception env e l s)).
Proof.
  unfold on_page_exception. destruct (bool_decide _); [apply R_save_checkpoint|done].
Qed.

Lemma after_fetch_keeps max_start data l s :
  R l s (step_locals (after_fetch env category subcategory brand max_start data l s))
        (step_state (after_fetch env category subcategory brand max_start data l s)).
Proof.
  unfold after_fetch.
  pose proof (process_page_keeps data l s) as Hp.
  destruct (process_page env category subcategory brand data l s) as [[r l1] s1].
  cbn [fst snd] in Hp. destruct r as [found|e].
  2: { eapply R_trans; [exact Hp|apply on_page_exception_keeps]. }
  set (s2 := emit _ s1). set (l2 := set_page_num _ l1).
  set (l3 := if found =? 0 then _ else _).
  assert (H3 : R l s l3 s2).
  { eapply R_trans; [exact Hp|].
    apply (R_trans _ _ l1 s2); [unfold s2; apply R_emit; exact I|].
    apply (R_trans _ _ l2 s2); [apply R_set_page_num|].
    unfold l3. destruct (found =? 0); apply R_set_consecutive_empty. }
  destruct ((found =? 0) && _); cbn [step_locals step_state].
  { eapply R_trans; [exact H3|apply R_log]. }
  destruct (start l3 + RESULTS_PER_PAGE >? max_start); cbn [step_locals step_state].
  - eapply R_trans; [exact H3|apply R_log].
  - eapply R_trans; [exact H3|apply R_set_start].
Qed.

Lemma page_step_keeps max_start l s :
  R l s (step_locals (page_step env category subcategory brand max_start l s))
        (step_state (page_step env category subcategory brand max_start l s)).
Proof.
  unfold page_step.
  set (s1 := save_checkpoint env BeforePage _ _).
  assert (H1 : R l s l s1).
  { eapply R_trans; [apply R_set_ck|apply R_save_checkpoint]. }
  pose proof (fetch_with_retries_keeps (start l) (seq 1 MAX_RETRIES) l s1) as Hf.
  destruct (fetch_with_retries _ _ _ _ _ s1) as [r s2]. cbn [snd] in Hf.
  assert (H2 : R l s l s2) by (by eapply R_trans).
  destruct r as [data|e].
  2: { eapply R_trans; [exact H2|apply on_page_exception_keeps]. }
  destruct data; try (eapply R_trans; [exact H2|apply after_fetch_keeps]).
  cbn [step_locals step_state].
  eapply R_trans; [exact H2|]. eapply R_trans; [apply R_log|].
  eapply R_trans; [apply R_set_consecutive_empty|apply R_set_start].
Qed.

Lemma paginate_keeps max_start fuel : forall l s,
  R l s (paginate fuel env category subcategory brand max_start l s).1.2
        (paginate fuel env category subcategory brand max_start l s).2.
Proof.
  induction fuel as [|fuel IH]; intros l s; cbn [paginate]; [done|].
  destruct (start l <=? max_start); [|done].
  pose proof (page_step_keeps max_start l s) as Hp.
  destruct (page_step _ _ _ _ _ _ _) as [l1 s1|o l1 s1]; cbn [step_locals step_state] in Hp.
  - eapply R_trans; [exact Hp|apply IH].
  - done.
Qed.

End PaginationKeeps.

(** ** What a run preserves

    A relation between the state before and after, which the steps of the
    crawl keep, is kept by the crawl of a brand, of a sheet, and by the
    whole run. *)

Section BrandKeeps.

Variable env : Env.
Variable Q : State -> State -> Prop.
Variable ok_unit : string -> string -> string -> Prop.

Hypothesis Q_refl : forall s, Q s s.
Hypothesis Q_trans : forall s1 s2 s3, Q s1 s2 -> Q s2 s3 -> Q s1 s3.
Hypothesis Q_emit : forall e s, is_plain e -> Q s (emit e s).
Hypothesis Q_set_ck : forall c s, Q s (set_ck c s).
Hypothesis Q_set_skip : forall b s, Q s (set_skip b s).
Hypothesis Q_set_total : forall n s, Q s (set_total n s).
Hypothesis Q_set_stats : forall st s, Q s (set_stats st s).
Hypothesis Q_count_request : forall s, Q s (count_request s).
Hypothesis Q_db_called : forall s, Q s (db_called (db s) s).
Hypothesis Q_save_checkpoint : forall site c s, Q s (save_checkpoint env site c s).
Hypothesis Q_save_step : forall category subcategory brand link l s,
  ok_unit category subcategory brand ->
  startswith "http" link = true ->
  contains "catawiki.com/en/l/" link = true ->
  split_head "&" link ∉ seen_urls l ->
  Q s (save_step env category subcategory brand (split_head "&" link) l s).2.

Lemma Q_log line s : Q s (log line s).
Proof. unfold log. apply Q_emit. exact I. Qed.

Lemma brand_body_keeps category rs subcategory brands brand l s :
  ok_unit category subcategory brand ->
  Q s (brand_body env category rs subcategory brands brand l s).2.
Proof.
  intros Hu. unfold brand_body.
  destruct (resume_logic _ _ _ _ _) as [|st pn resumed|]; cbn [snd]; [apply Q_log| |done].
  cbv zeta. set (s1 := if resumed then _ else s).
  assert (H1 : Q s s1).
  { unfold s1. destruct resumed; [|done].
    eapply Q_trans; [apply Q_log|apply Q_set_skip]. }
  set (s2 := set_ck _ s1). set (s3 := db_called (db s2) s2).
  assert (H3 : Q s s3).
  { eapply Q_trans; [exact H1|]. eapply Q_trans; [apply Q_set_ck|apply Q_db_called]. }
  unfold oxylabs_search. set (s4 := count_request _).
  assert (H4 : Q s s4).
  { eapply Q_trans; [exact H3|]. eapply Q_trans; [|apply Q_count_request].
    apply Q_emit. exact I. }
  destruct (probe_max_start _) as [max_start|e]; [|done].
  set (s5 := match probe_body _ with Raise _ => _ | Return _ => _ end).
  assert (H5 : Q s s5).
  { eapply Q_trans; [exact H4|]. unfold s5. destruct (probe_body _); [done|apply Q_log]. }
  eapply Q_trans; [exact H5|].
  apply (paginate_keeps env category subcategory brand (fun _ s _ s' => Q s s'));
    try solve [intros; first [apply Q_refl | by apply Q_emit | apply Q_set_ck
                             | apply Q_count_request | apply Q_save_checkpoint]].
  - intros _ s6 _ s7 _ s8. apply Q_trans.
  - intros link l0 s0 ? ? ?. by apply Q_save_step.
Qed.

Lemma process_brand_keeps wl rs subcategory brands brand s :
  ok_unit (wl_category wl) subcategory brand ->
  Q s (process_brand env wl rs subcategory brands brand s).2.
Proof.
  intros Hu. unfold process_brand.
  pose proof (brand_body_keeps (wl_category wl) rs subcategory brands brand
                (mkLocals 0 0 0 0 ∅) s Hu) as Hb.
  destruct (brand_body _ _ _ _ _ _ _ _) as [[o l] s1]. cbn [snd] in Hb.
  assert (Hend : forall s2, Q s s2 ->
            Q s (save_checkpoint env UnitEnd
                   (ck (set_stats (log_stats s2 ++
                          [mkStat (row_lookup subcategory brand (wl_row_mapping wl))
                             (wl_category wl) subcategory brand (page_num l)
                             (brand_urls l)]) s2))
                   (set_stats (log_stats s2 ++
                          [mkStat (row_lookup subcategory brand (wl_row_mapping wl))
                             (wl_category wl) subcategory brand (page_num l)
                             (brand_urls l)]) s2))).
  { intros s2 H2. eapply Q_trans; [exact H2|].
    eapply Q_trans; [apply Q_set_stats|apply Q_save_checkpoint]. }
  destruct o as [|e|]; [| |done].
  - by apply Hend.
  - destruct (is_Exception e); apply Hend; [|done].
    eapply Q_trans; [exact Hb|apply Q_log].
Qed.

End BrandKeeps.

Section LoopsKeep.

Variable env : Env.
Variable wl : WorkList.
Variable rs : option Checkpoint.
Variable Q : State -> State -> Prop.
Variable P : string -> string -> Prop.

Hypothesis Q_refl : forall s, Q s s.
Hypothesis Q_trans : forall s1 s2 s3, Q s1 s2 -> Q s2 s3 -> Q s1 s3.
Hypothesis Q_skip : forall x s, Q s (log (LogSkipSubcategory x) s).
Hypothesis Q_process_brand : forall x brands y s,
  P x y -> Q s (process_brand env wl rs x brands y s).2.

Lemma for_brands_keeps subcategory brands todo : forall s,
  Forall (P subcategory) todo ->
  Q s (for_brands env wl rs subcategory brands todo s).2.
Proof.
  induction todo as [|brand rest IH]; intros s Hall; cbn [for_brands]; [done|].
  apply Forall_cons in Hall as [Hu Hall].
  pose proof (Q_process_brand subcategory brands brand s Hu) as Hp.
  destruct (process_brand _ _ _ _ _ _ _) as [[|e|] s1]; cbn [snd] in *; try done.
  eapply Q_trans; [exact Hp|by apply IH].
Qed.

Lemma for_subcategories_keeps todo : forall s,
  Forall (fun sb => Forall (P sb.1) sb.2) todo ->
  Q s (for_subcategories env wl rs todo s).2.
Proof.
  induction todo as [|[subcategory brands] rest IH]; intros s Hall;
    cbn [for_subcategories]; [done|].
  apply Forall_cons in Hall as [Hu Hall]. cbn [fst snd] in Hu.
  assert (Hb : Q s (match for_brands env wl rs subcategory brands brands s with
                    | (Finished, s0) => for_subcategories env wl rs rest s0
                    | stop => stop
                    end).2).
  { pose proof (for_brands_keeps subcategory brands brands s Hu) as Hf.
    destruct (for_brands _ _ _ _ _ _ _) as [[|e|] s1]; cbn [snd] in *; try done.
    eapply Q_trans; [exact Hf|by apply IH]. }
  destruct (skip_until_resume s); [|exact Hb].
  destruct rs as [c|]; [|done].
  destruct (bool_decide _); [exact Hb|].
  eapply Q_trans; [apply Q_skip|by apply IH].
Qed.

Lemma units_Forall (subcategories : list (string * list string)) :
  (forall x y, is_unit subcategories x y -> P x y) ->
  Forall (fun sb => Forall (P sb.1) sb.2) subcategories.
Proof.
  intros H. apply Forall_forall. intros [x brands] Hin.
  apply Forall_forall. intros y Hy. apply H. by exists brands.
Qed.

End LoopsKeep.

Section RunKeeps.

Variable env : Env.
Variable Q : State -> State -> Prop.
Variable ok_unit : string -> string -> string -> Prop.

Hypothesis Q_refl : forall s, Q s s.
Hypothesis Q_trans : forall s1 s2 s3, Q s1 s2 -> Q s2 s3 -> Q s1 s3.
Hypothesis Q_emit : forall e s, is_plain e -> Q s (emit e s).
Hypothesis Q_set_ck : forall c s, Q s (set_ck c s).
Hypothesis Q_set_skip : forall b s, Q s (set_skip b s).
Hypothesis Q_set_total : forall n s, Q s (set_total n s).
Hypothesis Q_set_stats : forall st s, Q s (set_stats st s).
Hypothesis Q_count_request : forall s, Q s (count_request s).
Hypothesis Q_db_called : forall s, Q s (db_called (db s) s).
Hypothesis Q_save_checkpoint : forall site c s, Q s (save_checkpoint env site c s).
Hypothesis Q_save_step : forall category subcategory brand link l s,
  ok_unit category subcategory brand ->
  startswith "http" link = true ->
  contains "catawiki.com/en/l/" link = true ->
  split_head "&" link ∉ seen_urls l ->
  Q s (save_step env category subcategory brand (split_head "&" link) l s).2.

Lemma crawl_keeps sheet rs s :
  (forall wl x y, load_subcategories_from_excel env sheet = Some wl ->
     is_unit (wl_subcategories wl) x y -> ok_unit (wl_category wl) x y) ->
  Q s (crawl env sheet rs s).2.
Proof.
  intros units_ok. unfold crawl. destruct (load_subcategories_from_excel env sheet) as [wl|] eqn:Hwl; [|done].
  destruct (credentials env); cbn [negb]; [|unfold log; apply Q_emit; exact I].
  set (s1 := db_called (db s) s).
  destruct (init_db _); [|apply Q_db_called].
  set (s2 := set_skip _ _).
  assert (H2 : Q s s2).
  { eapply Q_trans; [apply Q_db_called|]. eapply Q_trans; [apply Q_set_total|].
    eapply Q_trans; [apply Q_set_stats|]. eapply Q_trans; [apply Q_set_ck|apply Q_set_skip]. }
  assert (Hlog : forall line s0, Q s0 (log line s0)).
  { intros line s0. unfold log. apply Q_emit. exact I. }
  pose proof (for_subcategories_keeps env wl rs Q (ok_unit (wl_category wl))
                Q_refl Q_trans (fun x => Hlog _)
                (fun x brands y s0 =>
                   process_brand_keeps env Q ok_unit Q_refl Q_trans Q_emit Q_set_ck
                     Q_set_skip Q_set_stats Q_count_request Q_db_called
                     Q_save_checkpoint Q_save_step wl rs x brands y s0)
                (wl_subcategories wl) s2) as Hf.
  destruct (for_subcategories _ _ _ _ _) as [o s3]. cbn [snd] in Hf.
  assert (H3 : Q s s3).
  { eapply Q_trans; [exact H2|]. apply Hf. apply units_Forall.
    intros x y Hu. by apply (units_ok wl). }
  destruct o as [|e|]; cbn [snd]; [| |done].
  - eapply Q_trans; [exact H3|apply Hlog].
  - eapply Q_trans; [|apply Hlog].
    destruct (bool_decide (e = KeyboardInterrupt)); [|exact H3].
    eapply Q_trans; [exact H3|apply Q_save_checkpoint].
Qed.

Hypothesis units_ok : forall sheet wl x y,
  load_subcategories_from_excel env sheet = Some wl ->
  is_unit (wl_subcategories wl) x y -> ok_unit (wl_category wl) x y.

Lemma Q_log' line s : Q s (log line s).
Proof. unfold log. apply Q_emit. exact I. Qed.

Lemma for_sheets_keeps sheets : forall resume s,
  Q s (for_sheets env resume sheets s).2.
Proof.
  induction sheets as [|sheet rest IH]; intros resume s; cbn [for_sheets]; [done|].
  assert (Hc : forall rs,
            Q s (match crawl env sheet rs s with
                 | (Finished, s0) => for_sheets env None rest s0
                 | (Raised e, s0) =>
                     if is_Exception e then (Finished, log (LogSheetStopped sheet) s0)
                     else (Raised e, s0)
                 | stop => stop
                 end).2).
  { intros rs. pose proof (crawl_keeps sheet rs s (units_ok sheet)) as Hk.
    destruct (crawl env sheet rs s) as [[|e|] s1]; cbn [snd] in *; [|
      |done].
    - eapply Q_trans; [exact Hk|apply IH].
    - destruct (is_Exception e); [|done]. eapply Q_trans; [exact Hk|apply Q_log']. }
  destruct resume as [rs|]; [|apply Hc].
  destruct (bool_decide _); [apply Hc|].
  eapply Q_trans; [apply Q_log'|apply IH].
Qed.

Lemma main_keeps s : Q s (main env s).2.
Proof.
  unfold main.
  assert (Hl : Q s (load_checkpoint env s).2).
  { unfold load_checkpoint. destruct (fs s !! CHECKPOINT_FILE); [|done].
    destruct (ck_unreadable env); [apply Q_log'|].
    destruct (json_load env _); [done|apply Q_log']. }
  destruct (load_checkpoint env s) as [[resume|e] s1]; cbn [snd] in *; [|done].
  destruct (sheet_names env) as [sheets|]; [|done].
  pose proof (for_sheets_keeps sheets resume s1) as Hf.
  destruct (for_sheets env resume sheets s1) as [[|e|] s2]; cbn [snd] in *;
    try (by eapply Q_trans).
  eapply Q_trans; [exact Hl|]. eapply Q_trans; [exact Hf|apply Q_log'].
Qed.

End RunKeeps.

(** ** Rows of the table and the checkpoint file *)

Section StoredForm.

Lemma contains_amp_split_head s : contains "&" (split_head "&" s) = false.
Proof.
  induction s as [|c s IH]; [done|]. cbn [split_head].
  destruct (decide (c = "&"%char)) as [->|Hc].
  - by rewrite bool_decide_eq_true_2.
  - rewrite (bool_decide_eq_false_2 _ Hc). cbn [contains startswith].
    rewrite IH. rewrite (bool_decide_eq_false_2 ("&"%char = c)) by congruence. done.
Qed.

Lemma startswith_http_split_head s :
  startswith "http" s = true -> startswith "http" (split_head "&" s) = true.
Proof.
  destruct s as [|c1 [|c2 [|c3 [|c4 s]]]]; cbn [startswith]; try done;
    rewrite ?andb_false_r; try done.
  intros H. repeat (apply andb_true_iff in H as [?%bool_decide_eq_true H]). subst.
  done.
Qed.

Lemma stored_form_split_head link :
  startswith "http" link = true -> stored_form (split_head "&" link).
Proof.
  intros H. split; [by apply startswith_http_split_head|apply contains_amp_split_head].
Qed.

End StoredForm.

Section Rows.

Variable env : Env.
Variable ok : string -> string -> string -> Prop.

Lemma rows_added_refl s : rows_added ok s s.
Proof. split; [done|]. intros url c x y H1 H2. congruence. Qed.

Lemma rows_added_same s s' : db s' = db s -> rows_added ok s s'.
Proof. intros H. unfold rows_added. rewrite H. apply rows_added_refl. Qed.

Lemma rows_added_trans s1 s2 s3 :
  rows_added ok s1 s2 -> rows_added ok s2 s3 -> rows_added ok s1 s3.
Proof.
  intros [Hs1 Hn1] [Hs2 Hn2]. split; [by etrans|].
  intros url c x y H3 H1. destruct (db s2 !! url) as [row|] eqn:H2.
  - pose proof (lookup_weaken _ _ _ _ H2 Hs2) as H3'.
    rewrite H3 in H3'. injection H3' as <-. by apply Hn1.
  - by apply Hn2.
Qed.

Lemma save_checkpoint_db site c s : db (save_checkpoint env site c s) = db s.
Proof.
  unfold save_checkpoint, save_checkpoint_result.
  destruct (write_checkpoint _ _ _) as [[[]|e] f]; [done|]. by destruct (is_Exception e).
Qed.

Lemma rows_added_save_step category subcategory brand link l s :
  ok category subcategory brand ->
  startswith "http" link = true ->
  rows_added ok s (save_step env category subcategory brand (split_head "&" link) l s).2.
Proof.
  intros Hok Hhttp. unfold save_step.
  destruct (db_conn env (n_db_calls s)); cbn [save_url snd];
    [by apply rows_added_same..|].
  unfold rows_added. cbn [db set_total emit db_called].
  unfold insert_on_conflict_do_nothing.
  destruct (db s !! split_head "&" link) eqn:Hu; [apply rows_added_refl|].
  split; [by apply insert_subseteq|].
  intros url c x y Hrow Hnew. destruct (decide (url = split_head "&" link)) as [->|Hne].
  - rewrite lookup_insert_eq in Hrow. injection Hrow as <- <- <-.
    split; [done|by apply stored_form_split_head].
  - rewrite lookup_insert_ne in Hrow by done. congruence.
Qed.

Lemma process_brand_rows_added wl rs x brands y s :
  ok (wl_category wl) x y ->
  rows_added ok s (process_brand env wl rs x brands y s).2.
Proof.
  apply (process_brand_keeps env (rows_added ok) ok);
    try solve [intros; by apply rows_added_same].
  - apply rows_added_trans.
  - intros site c s0. apply rows_added_same, save_checkpoint_db.
  - intros. by apply rows_added_save_step.
Qed.

Lemma crawl_rows_added sheet rs s :
  (forall wl x y, load_subcategories_from_excel env sheet = Some wl ->
     is_unit (wl_subcategories wl) x y -> ok (wl_category wl) x y) ->
  rows_added ok s (crawl env sheet rs s).2.
Proof.
  apply (crawl_keeps env (rows_added ok) ok);
    try solve [intros; by apply rows_added_same].
  - apply rows_added_trans.
  - intros site c s0. apply rows_added_same, save_checkpoint_db.
  - intros. by apply rows_added_save_step.
Qed.

End Rows.

Section RowsAdded.

(** X12. A crawl only adds rows to the table, and every row it adds is stored
    under the category of the sheet and a unit of its work list, with a URL
    that starts with "http" and holds no "&". The URL need not be that of a
    listing: the marker is looked for in the whole link, and the link is cut
    at its first "&" afterwards. *)
Theorem crawl_only_adds_rows (env : Env) (sheet : string) (rs : option Checkpoint)
    (s : State) (wl : WorkList) :
  load_subcategories_from_excel env sheet = Some wl ->
  let s' := (crawl env sheet rs s).2 in
  db s ⊆ db s' /\
  forall url c x y, db s' !! url = Some (c, x, y) -> db s !! url = None ->
    c = wl_category wl /\ is_unit (wl_subcategories wl) x y /\
    startswith "http" url = true /\ contains "&" url = false.
Proof.
  intros Hwl. cbv zeta.
  destruct (crawl_rows_added env
              (fun c x y => c = wl_category wl /\ is_unit (wl_subcategories wl) x y)
              sheet rs s) as [Hsub Hnew].
  { intros wl0 x y Hwl0 Hu. rewrite Hwl in Hwl0. injection Hwl0 as <-. done. }
  split; [done|]. intros url c x y H1 H2.
  destruct (Hnew url c x y H1 H2) as [[-> Hu] [Hh Ha]]. done.
Qed.

Lemma crawl_only_adds_rows_witness :
  db (crawl (example_env one_brand_worklist provider_foreign_link) "S1" None
            (initial_state ∅ ∅)).2 !! "https://example.com/?a=1"
    = Some ("Fashion", "Shoes", "Nike") /\
  contains "catawiki.com/en/l/" "https://example.com/?a=1" = false /\
  contains "&" "https://example.com/?a=1" = false.
Proof.
  assert (H : db (crawl (example_env one_brand_worklist provider_foreign_link) "S1" None
                    (initial_state ∅ ∅)).2 !! "https://example.com/?a=1"
              = Some ("Fashion", "Shoes", "Nike")) by (by vm_compute).
  split; [exact H|]. split; [reflexivity|].
  destruct (crawl_only_adds_rows (example_env one_brand_worklist provider_foreign_link)
              "S1" None (initial_state ∅ ∅) one_brand_worklist eq_refl) as [_ Hnew].
  by destruct (Hnew _ _ _ _ H eq_refl) as (_ & _ & _ & Ha).
Defined.

End RowsAdded.

Section CheckpointFileWhole.

Variable env : Env.

Lemma cfw_refl s : checkpoint_file_whole env s s.
Proof. exists []. rewrite app_nil_r. split; [done|by left]. Qed.

Lemma cfw_trans s1 s2 s3 :
  checkpoint_file_whole env s1 s2 -> checkpoint_file_whole env s2 s3 ->
  checkpoint_file_whole env s1 s3.
Proof.
  intros (evs1 & Ht1 & H1) (evs2 & Ht2 & H2). exists (evs1 ++ evs2)%list.
  split; [by rewrite Ht2, Ht1, app_assoc|].
  destruct H2 as [H2 | (site & c & Hin & H2)].
  - destruct H1 as [H1 | (site & c & Hin & H1)].
    + left. congruence.
    + right. exists site, c. split; [apply elem_of_app; by left|congruence].
  - right. exists site, c. split; [apply elem_of_app; by right|done].
Qed.

Lemma cfw_emit e s : checkpoint_file_whole env s (emit e s).
Proof. exists [e]. split; [done|by left]. Qed.

Lemma cfw_same s s' :
  trace s' = trace s -> fs s' = fs s -> checkpoint_file_whole env s s'.
Proof.
  intros Ht Hf. exists []. rewrite app_nil_r. split; [done|]. left. by rewrite Hf.
Qed.

Lemma cfw_save_checkpoint site c s :
  checkpoint_file_whole env s (save_checkpoint env site c s).
Proof.
  unfold save_checkpoint, save_checkpoint_result, write_checkpoint.
  destruct (ck_fault env (n_saves s)) as [k|].
  - destruct (k <? length (save_checkpoint_ops (json_dump env c)))%nat eqn:Hk.
    + apply Nat.ltb_lt in Hk. change (is_Exception OtherException) with true. cbn [snd].
      exists [EvSaveCheckpoint site c; EvLog LogCheckpointSaveFailed].
      split; [cbn [trace log emit file_saved]; by rewrite <- app_assoc|].
      left. cbn [fs log emit file_saved]. by apply save_checkpoint_ops_prefix.
    + cbn [snd]. exists [EvSaveCheckpoint site c]. split; [done|].
      right. exists site, c. split; [by left|].
      cbn [fs file_saved]. apply save_checkpoint_ops_complete.
  - cbn [snd]. exists [EvSaveCheckpoint site c]. split; [done|].
    right. exists site, c. split; [by left|].
    cbn [fs file_saved]. apply save_checkpoint_ops_complete.
Qed.

Lemma cfw_save_step category subcategory brand clean l s :
  checkpoint_file_whole env s (save_step env category subcategory brand clean l s).2.
Proof.
  unfold save_step.
  destruct (db_conn env (n_db_calls s)); cbn [save_url snd];
    (eexists [_]; split; [reflexivity|by left]).
Qed.

Lemma main_checkpoint_file_whole s : checkpoint_file_whole env s (main env s).2.
Proof.
  apply (main_keeps env (checkpoint_file_whole env) (fun _ _ _ => True));
    try solve [intros; first [apply cfw_emit | by apply cfw_same]].
  - apply cfw_trans.
  - apply cfw_save_checkpoint.
  - intros. apply cfw_save_step.
  - done.
Qed.

End CheckpointFileWhole.

Section CheckpointFileProperties.

(** X13. Whatever faults strike the saves of a run, the checkpoint file is at
    the end what it was at the start, or the complete record of one of the
    saves of the run: it is never left partial, and a run never removes it.
    [clear_checkpoint] is not called from anywhere. *)
Theorem run_leaves_checkpoint_file_whole (env : Env) (s : State) :
  let s' := (main env s).2 in
  (exists evs, trace s' = (trace s ++ evs)%list /\
     (fs s' !! CHECKPOINT_FILE = fs s !! CHECKPOINT_FILE \/
      exists site c, EvSaveCheckpoint site c ∈ evs /\
        fs s' !! CHECKPOINT_FILE = Some (join (json_dump env c)))) /\
  (is_Some (fs s !! CHECKPOINT_FILE) -> is_Some (fs s' !! CHECKPOINT_FILE)).
Proof.
  cbv zeta. pose proof (main_checkpoint_file_whole env s) as (evs & Ht & H).
  split; [by exists evs|].
  intros Hs. destruct H as [-> | (site & c & _ & ->)]; [done|eauto].
Qed.

Lemma run_leaves_checkpoint_file_whole_witness :
  is_Some (fs (main disk_full_env
                 (initial_state ∅ {[ CHECKPOINT_FILE := "garbled" ]})).2 !! CHECKPOINT_FILE).
Proof.
  apply (run_leaves_checkpoint_file_whole disk_full_env).
  cbn [fs initial_state]. rewrite lookup_singleton_eq. eauto.
Defined.

End CheckpointFileProperties.

(** ** The tallies *)

Section BrandStart.

Lemma save_checkpoint_rest env site c s :
  exists logs, Forall is_log logs /\
    trace (save_checkpoint env site c s) = (trace s ++ EvSaveCheckpoint site c :: logs)%list /\
    db (save_checkpoint env site c s) = db s /\
    total_urls_found (save_checkpoint env site c s) = total_urls_found s /\
    log_stats (save_checkpoint env site c s) = log_stats s /\
    n_requests (save_checkpoint env site c s) = n_requests s /\
    n_db_calls (save_checkpoint env site c s) = n_db_calls s.
Proof.
  unfold save_checkpoint, save_checkpoint_result.
  destruct (write_checkpoint _ _ _) as [[[]|e] f].
  - exists []. by repeat split.
  - destruct (is_Exception e).
    + exists [EvLog LogCheckpointSaveFailed]. repeat split; try done.
      * by repeat constructor.
      * simpl. by rewrite <- app_assoc.
    + exists []. by repeat split.
Qed.

(** How the crawl of a brand begins: the brand is skipped, or the resume
    state is missing, or the saved URLs are loaded and the probe is made,
    and then the probe is interrupted or pagination starts. *)
Lemma brand_body_cases env category rs subcategory brands brand l s :
  let r := brand_body env category rs subcategory brands brand l s in
  r = (Finished, l, log (LogSkipBrand brand) s) \/
  r = (Raised AttributeError, l, s) \/
  exists st pn resumed s1,
    resume_logic rs (skip_until_resume s) subcategory brand brands = Proceed st pn resumed /\
    let l1 := set_seen_urls
                (load_saved_urls (db_conn env (n_db_calls s)) category subcategory brand (db s))
                (set_page_num pn (set_start st l)) in
    prelude s s1 /\ n_db_calls s1 = S (n_db_calls s) /\
    (n_requests s < n_requests s1)%nat /\
    ((exists e, r = (Raised e, l1, s1)) \/
     exists max_start,
       r = paginate (pagination_fuel st max_start) env category subcategory brand
             max_start l1 s1).
Proof.
  cbv zeta. unfold brand_body.
  destruct (resume_logic _ _ _ _ _) as [|st pn resumed|] eqn:Hd; [by left| |by right; left].
  right; right. cbv zeta. unfold oxylabs_search.
  set (s0 := if resumed then _ else s).
  assert (H0 : prelude s s0 /\ n_db_calls s0 = n_db_calls s /\ n_requests s0 = n_requests s).
  { unfold s0. destruct resumed.
    - split; [|done]. split; [|done]. eexists [_]. split; [reflexivity|by repeat constructor].
    - split; [|done]. split; [|done]. exists []. by rewrite app_nil_r. }
  destruct H0 as (((ev0 & Ht0 & Hall0) & Hdb & Hfs & Htot & Hst & Hns) & Hnd & Hnr).
  set (s1 := count_request _).
  assert (H1 : prelude s s1 /\ n_db_calls s1 = S (n_db_calls s)
               /\ (n_requests s < n_requests s1)%nat).
  { split; [|split].
    - split; [|done]. exists (ev0 ++ [EvRequest Probe subcategory brand 0])%list.
      split; [cbn [s1 trace count_request emit db_called set_ck]; by rewrite Ht0, app_assoc|].
      apply Forall_app. split; [done|by repeat constructor].
    - cbn [s1 n_db_calls count_request emit db_called set_ck]. by rewrite Hnd.
    - cbn [s1 n_requests count_request emit db_called set_ck]. lia. }
  destruct H1 as (Hp1 & Hnd1 & Hnr1).
  assert (Hdb0 : db_conn env (n_db_calls s0) = db_conn env (n_db_calls s)) by (by rewrite Hnd).
  cbn [db n_db_calls set_ck]. rewrite Hdb0, Hdb.
  destruct (probe_max_start _) as [max_start|e] eqn:Hprobe.
  - destruct (probe_body _) as [m|e] eqn:Hbody.
    + exists st, pn, resumed, s1. split; [done|]. split; [done|]. split; [done|].
      split; [done|]. right. by exists max_start.
    + exists st, pn, resumed, (log LogProbeFailed s1). split; [done|].
      split; [|split; [done|split; [done|right; by exists max_start]]].
      destruct Hp1 as ((ev1 & Ht1 & Hall1) & ?). split; [|done].
      exists (ev1 ++ [EvLog LogProbeFailed])%list.
      split; [cbn [trace log emit]; by rewrite Ht1, app_assoc|].
      apply Forall_app. split; [done|by repeat constructor].
  - exists st, pn, resumed, s1. split; [done|]. split; [done|]. split; [done|].
    split; [done|]. left. by exists e.
Qed.

End BrandStart.

Section Tally.

Variable env : Env.

Lemma count_saved_other e : is_plain e -> count_saved [e] = 0.
Proof. by destruct e. Qed.

Lemma count_saved_logs evs : Forall is_log evs -> count_saved evs = 0.
Proof.
  induction 1 as [|e evs He _ IH]; [done|].
  rewrite count_saved_cons, IH. by destruct e.
Qed.

Lemma count_saved_prelude_events evs :
  Forall (fun e => match e with
                   | EvRequest _ _ _ _ | EvLog _ => True
                   | _ => False
                   end) evs -> count_saved evs = 0.
Proof.
  induction 1 as [|e evs He _ IH]; [done|].
  rewrite count_saved_cons, IH. by destruct e.
Qed.

Lemma tallied_refl l s : tallied l s l s.
Proof. exists []. rewrite app_nil_r. change (count_saved []) with 0. repeat split; lia. Qed.

Lemma tallied_trans l1 s1 l2 s2 l3 s3 :
  tallied l1 s1 l2 s2 -> tallied l2 s2 l3 s3 -> tallied l1 s1 l3 s3.
Proof.
  intros (evs1 & Ht1 & Hn1 & Hb1 & Hs1) (evs2 & Ht2 & Hn2 & Hb2 & Hs2).
  exists (evs1 ++ evs2)%list. rewrite count_saved_app.
  split; [by rewrite Ht2, Ht1, app_assoc|]. repeat split; [lia|lia|congruence].
Qed.

Lemma tallied_emit e l s : is_plain e -> tallied l s l (emit e s).
Proof.
  intros He. exists [e]. rewrite (count_saved_other e He).
  repeat split; cbn [total_urls_found emit]; lia.
Qed.

Lemma tallied_same l s l' s' :
  trace s' = trace s -> total_urls_found s' = total_urls_found s ->
  brand_urls l' = brand_urls l -> log_stats s' = log_stats s -> tallied l s l' s'.
Proof.
  intros Ht Hn Hb Hs. exists []. rewrite app_nil_r. change (count_saved []) with 0.
  repeat split; try done; lia.
Qed.

Lemma tallied_save_checkpoint site c l s : tallied l s l (save_checkpoint env site c s).
Proof.
  destruct (save_checkpoint_rest env site c s) as (logs & Hlogs & Ht & _ & Hn & Hs & _).
  exists (EvSaveCheckpoint site c :: logs). rewrite count_saved_cons, (count_saved_logs _ Hlogs).
  change (count_saved [EvSaveCheckpoint site c]) with 0.
  repeat split; [done|lia|lia|done].
Qed.

Lemma tallied_save_step category subcategory brand clean l s :
  tallied l s (save_step env category subcategory brand clean l s).1
              (save_step env category subcategory brand clean l s).2.
Proof.
  unfold save_step.
  destruct (db_conn env (n_db_calls s)); cbn [save_url fst snd];
    (eexists [_]; split; [reflexivity|]; repeat split; simpl;
     unfold count_saved; simpl; lia).
Qed.

Lemma paginate_tallied category subcategory brand max_start fuel l s :
  tallied l s (paginate fuel env category subcategory brand max_start l s).1.2
              (paginate fuel env category subcategory brand max_start l s).2.
Proof.
  apply (paginate_keeps env category subcategory brand tallied);
    try solve [intros; first [by apply tallied_emit | by apply tallied_same]].
  - apply tallied_trans.
  - intros. apply tallied_save_checkpoint.
  - intros. apply tallied_save_step.
Qed.

Lemma prelude_tallied l s l' s' :
  prelude s s' -> brand_urls l' = brand_urls l -> tallied l s l' s'.
Proof.
  intros ((evs & Ht & Hall) & _ & _ & Hn & Hs & _) Hb. exists evs.
  rewrite (count_saved_prelude_events _ Hall). repeat split; [done|lia|lia|done].
Qed.

Lemma brand_body_tallied category rs subcategory brands brand l s :
  tallied l s (brand_body env category rs subcategory brands brand l s).1.2
              (brand_body env category rs subcategory brands brand l s).2.
Proof.
  destruct (brand_body_cases env category rs subcategory brands brand l s)
    as [-> | [-> | (st & pn & resumed & s1 & _ & Hp & _ & _ & Hr)]].
  - cbn [fst snd]. unfold log. apply tallied_emit. exact I.
  - apply tallied_refl.
  - cbv zeta in Hr. set (l1 := set_seen_urls _ _) in Hr.
    assert (H1 : tallied l s l1 s1) by (by apply prelude_tallied).
    destruct Hr as [(e & ->) | (max_start & ->)]; [done|].
    eapply tallied_trans; [exact H1|apply paginate_tallied].
Qed.

Lemma summed_refl s : summed s s.
Proof. exists []. rewrite app_nil_r. change (count_saved []) with 0. repeat split; lia. Qed.

Lemma summed_trans s1 s2 s3 : summed s1 s2 -> summed s2 s3 -> summed s1 s3.
Proof.
  intros (evs1 & Ht1 & Hn1 & Hb1) (evs2 & Ht2 & Hn2 & Hb2).
  exists (evs1 ++ evs2)%list. rewrite count_saved_app.
  split; [by rewrite Ht2, Ht1, app_assoc|]. split; lia.
Qed.

Lemma summed_log line s : summed s (log line s).
Proof. exists [EvLog line]. change (count_saved [EvLog line]) with 0. repeat split; simpl; lia. Qed.

Lemma sum_urls_snoc stats st : sum_urls (stats ++ [st]) = sum_urls stats + stat_urls st.
Proof.
  unfold sum_urls. induction stats as [|x stats IH]; simpl; [lia|]. rewrite IH. lia.
Qed.

Lemma summed_save_checkpoint site c s : summed s (save_checkpoint env site c s).
Proof.
  destruct (save_checkpoint_rest env site c s) as (logs & Hlogs & Ht & _ & Hn & Hs & _).
  exists (EvSaveCheckpoint site c :: logs). rewrite count_saved_cons, (count_saved_logs _ Hlogs).
  change (count_saved [EvSaveCheckpoint site c]) with 0. rewrite Hs.
  repeat split; [done|lia|lia].
Qed.

Lemma process_brand_summed wl rs subcategory brands brand s :
  summed s (process_brand env wl rs subcategory brands brand s).2.
Proof.
  unfold process_brand.
  pose proof (brand_body_tallied (wl_category wl) rs subcategory brands brand
                (mkLocals 0 0 0 0 ∅) s) as (evs & Ht & Hn & Hb & Hs).
  pose proof (brand_body_io env (wl_category wl) rs subcategory brands brand
                (mkLocals 0 0 0 0 ∅) s) as [Hfuel _].
  destruct (brand_body _ _ _ _ _ _ _ _) as [[o l] s1]. cbn [fst snd brand_urls] in *.
  assert (H1 : summed s (set_stats (log_stats s1 ++
                 [mkStat (row_lookup subcategory brand (wl_row_mapping wl))
                    (wl_category wl) subcategory brand (page_num l) (brand_urls l)]) s1)).
  { exists evs. cbn [trace total_urls_found log_stats set_stats].
    rewrite sum_urls_snoc, Hs. cbn [stat_urls]. repeat split; [done|lia|lia]. }
  assert (H2 : forall line, summed s (set_stats (log_stats (log line s1) ++
                 [mkStat (row_lookup subcategory brand (wl_row_mapping wl))
                    (wl_category wl) subcategory brand (page_num l) (brand_urls l)])
                 (log line s1))).
  { intros line. exists (evs ++ [EvLog line])%list.
    rewrite count_saved_app. change (count_saved [EvLog line]) with 0.
    cbn [trace total_urls_found log_stats set_stats log emit].
    split; [by rewrite Ht, <- app_assoc|].
    rewrite sum_urls_snoc, Hs. cbn [stat_urls]. split; lia. }
  destruct o as [|e|]; [| |done].
  - eapply summed_trans; [exact H1|apply summed_save_checkpoint].
  - destruct (is_Exception e).
    + eapply summed_trans; [apply H2|apply summed_save_checkpoint].
    + eapply summed_trans; [exact H1|apply summed_save_checkpoint].
Qed.

End Tally.

Section Summary.

Lemma crawl_summary (env : Env) (sheet : string) (rs : option Checkpoint)
    (s : State) (wl : WorkList) :
  load_subcategories_from_excel env sheet = Some wl ->
  credentials env = true ->
  init_db (db_conn env (n_db_calls s)) = Return () ->
  let s' := (crawl env sheet rs s).2 in
  exists evs, trace s' = (trace s ++ evs)%list /\
    total_urls_found s' = count_saved evs /\
    total_urls_found s' = sum_urls (log_stats s') /\
    last evs = Some (EvLog (LogTotalFound (total_urls_found s'))).
Proof.
  intros Hwl Hc Hi. cbv zeta. unfold crawl. rewrite Hwl, Hc, Hi. cbn [negb].
  set (s0 := set_skip _ _).
  pose proof (for_subcategories_keeps env wl rs summed (fun _ _ => True)
                summed_refl summed_trans (fun x => summed_log _)
                (fun x brands y s1 _ => process_brand_summed env wl rs x brands y s1)
                (wl_subcategories wl) s0) as (evs & Ht & Hn & Hs).
  { by apply (units_Forall (fun _ _ => True)). }
  pose proof (crawl_returns env sheet rs s) as Hret.
  unfold crawl in Hret. rewrite Hwl, Hc, Hi in Hret. cbn [negb] in Hret. fold s0 in Hret.
  destruct (for_subcategories env wl rs (wl_subcategories wl) s0) as [o s1].
  cbn [snd] in *. change (trace s0) with (trace s) in Ht.
  change (total_urls_found s0) with 0 in Hn. change (sum_urls (log_stats s0)) with 0 in Hs.
  destruct o as [|e|]; [| |done]; cbn [snd].
  - exists (evs ++ [EvLog (LogTotalFound (total_urls_found s1))])%list.
    rewrite count_saved_app, last_snoc.
    change (count_saved [EvLog (LogTotalFound (total_urls_found s1))]) with 0.
    cbn [trace total_urls_found log_stats log emit].
    split; [by rewrite Ht, app_assoc|]. repeat split; lia.
  - set (s2 := if bool_decide (e = KeyboardInterrupt) then _ else _).
    assert (H2 : exists logs, trace s2 = (trace s1 ++ logs)%list /\ count_saved logs = 0 /\
                   total_urls_found s2 = total_urls_found s1 /\
                   log_stats s2 = log_stats s1).
    { unfold s2. destruct (bool_decide (e = KeyboardInterrupt)).
      - destruct (save_checkpoint_rest env RunInterrupted (ck s1) s1)
          as (logs & Hlogs & Ht2 & _ & Hn2 & Hs2 & _).
        exists (EvSaveCheckpoint RunInterrupted (ck s1) :: logs).
        rewrite count_saved_cons, (count_saved_logs _ Hlogs). by repeat split.
      - exists []. by rewrite app_nil_r. }
    destruct H2 as (logs & Ht2 & Hc2 & Hn2 & Hs2).
    exists ((evs ++ logs) ++ [EvLog (LogTotalFound (total_urls_found s2))])%list.
    rewrite !count_saved_app, last_snoc, Hc2.
    change (count_saved [EvLog (LogTotalFound (total_urls_found s2))]) with 0.
    cbn [trace total_urls_found log_stats log emit]. rewrite Hs2.
    split; [by rewrite Ht2, Ht, !app_assoc|]. repeat split; lia.
Qed.

(** X14. The summary adds up: at the end of a crawl the run total that the last
    log line reports is the sum of the "Total URLs" column of the summary,
    and it is the number of [save_url] calls of the crawl that returned
    [True]. *)
Theorem summary_adds_up (env : Env) (sheet : string) (rs : option Checkpoint)
    (s : State) (wl : WorkList) :
  load_subcategories_from_excel env sheet = Some wl ->
  credentials env = true ->
  init_db (db_conn env (n_db_calls s)) = Return () ->
  let s' := (crawl env sheet rs s).2 in
  exists evs, trace s' = (trace s ++ evs)%list /\
    total_urls_found s' = count_saved evs /\
    total_urls_found s' = sum_urls (log_stats s') /\
    last evs = Some (EvLog (LogTotalFound (total_urls_found s'))).
Proof. apply crawl_summary. Qed.

Lemma summary_adds_up_witness :
  total_urls_found same_listing_run.2 = sum_urls (log_stats same_listing_run.2).
Proof.
  destruct (summary_adds_up (example_env shoes_worklist provider_one_listing) "S1" None
              (initial_state ∅ ∅) shoes_worklist eq_refl eq_refl eq_refl)
    as (evs & _ & _ & H & _).
  exact H.
Defined.

End Summary.

(** ** URLs sent once *)

Section Dedupe.

Variable env : Env.

Lemma saves_app a b : saves (a ++ b) = (saves a ++ saves b)%list.
Proof. apply omap_app. Qed.

Lemma saves_other evs :
  Forall (fun e => forall x y u b, e <> EvSaveUrl x y u b) evs -> saves evs = [].
Proof.
  induction 1 as [|e evs He _ IH]; [done|].
  destruct e; try exact IH. by destruct (He subcategory brand url saved).
Qed.

Lemma saves_logs evs : Forall is_log evs -> saves evs = [].
Proof.
  intros H. apply saves_other. eapply Forall_impl; [exact H|].
  intros e He x y u b ->. done.
Qed.

Lemma saves_prelude_events evs :
  Forall (fun e => match e with
                   | EvRequest _ _ _ _ | EvLog _ => True
                   | _ => False
                   end) evs -> saves evs = [].
Proof.
  intros H. apply saves_other. eapply Forall_impl; [exact H|].
  intros e He x y u b ->. done.
Qed.

Lemma deduped_refl x y l s : deduped x y l s l s.
Proof.
  exists []. rewrite app_nil_r. split; [done|]. split; [constructor|].
  split; [by intros ? ? ? ?%elem_of_nil|done].
Qed.

Lemma deduped_trans x y l1 s1 l2 s2 l3 s3 :
  deduped x y l1 s1 l2 s2 -> deduped x y l2 s2 l3 s3 -> deduped x y l1 s1 l3 s3.
Proof.
  intros (evs1 & Ht1 & Hn1 & Hm1 & Hs1) (evs2 & Ht2 & Hn2 & Hm2 & Hs2).
  exists (evs1 ++ evs2)%list. rewrite saves_app.
  split; [by rewrite Ht2, Ht1, app_assoc|]. split; [|split; [|by etrans]].
  - apply NoDup_app. split; [done|]. split; [|done].
    intros [[x' y'] u] H1 H2.
    destruct (Hm1 _ _ _ H1) as (_ & _ & _ & Hin). destruct (Hm2 _ _ _ H2) as (_ & _ & Hnot & _).
    done.
  - intros x' y' u [H1 | H2]%elem_of_app.
    + destruct (Hm1 _ _ _ H1) as (? & ? & ? & ?). repeat split; try done. by apply Hs2.
    + destruct (Hm2 _ _ _ H2) as (? & ? & Hnot & ?). repeat split; try done.
      intros Hin. by apply Hnot, Hs1.
Qed.

Lemma deduped_same x y l s l' s' :
  trace s' = trace s -> seen_urls l' = seen_urls l -> deduped x y l s l' s'.
Proof.
  intros Ht Hs. exists []. rewrite app_nil_r, Hs. split; [done|]. split; [constructor|].
  split; [by intros ? ? ? ?%elem_of_nil|done].
Qed.

Lemma deduped_events x y l s s' evs :
  trace s' = (trace s ++ evs)%list -> saves evs = [] -> deduped x y l s l s'.
Proof.
  intros Ht Hs. exists evs. rewrite Hs. split; [done|]. split; [constructor|].
  split; [by intros ? ? ? ?%elem_of_nil|done].
Qed.

Lemma deduped_emit x y e l s : is_plain e -> deduped x y l s l (emit e s).
Proof. intros He. apply (deduped_events _ _ _ _ _ [e]); [done|]. by destruct e. Qed.

Lemma deduped_save_checkpoint x y site c l s :
  deduped x y l s l (save_checkpoint env site c s).
Proof.
  destruct (save_checkpoint_rest env site c s) as (logs & Hlogs & Ht & _).
  apply (deduped_events _ _ _ _ _ (EvSaveCheckpoint site c :: logs)); [done|].
  change (saves (EvSaveCheckpoint site c :: logs)) with (saves logs). by apply saves_logs.
Qed.

Lemma deduped_save_step category x y clean l s :
  clean ∉ seen_urls l ->
  deduped x y l s (save_step env category x y clean l s).1
                  (save_step env category x y clean l s).2.
Proof.
  intros Hnew. unfold save_step.
  destruct (db_conn env (n_db_calls s)); cbn [save_url fst snd];
    (eexists [_]; split; [reflexivity|]; cbn [saves omap seen_urls];
     split; [apply NoDup_singleton|]; split; [|set_solver];
     intros x' y' u [= -> -> ->]%list_elem_of_singleton;
     repeat split; try done; set_solver).
Qed.

Lemma paginate_deduped category x y max_start fuel l s :
  deduped x y l s (paginate fuel env category x y max_start l s).1.2
                  (paginate fuel env category x y max_start l s).2.
Proof.
  apply (paginate_keeps env category x y (deduped x y));
    try solve [intros; first [by apply deduped_emit | by apply deduped_same]].
  - apply deduped_trans.
  - intros. apply deduped_save_checkpoint.
  - intros. by apply deduped_save_step.
Qed.

End Dedupe.

Section SentOnce.

Variable env : Env.

Lemma brand_body_sent category rs x brands y l s :
  let r := brand_body env category rs x brands y l s in
  exists evs, trace r.2 = (trace s ++ evs)%list /\
    NoDup (saves evs) /\
    forall x' y' u, (x', y', u) ∈ saves evs ->
      x' = x /\ y' = y /\
      u ∉ load_saved_urls (db_conn env (n_db_calls s)) category x y (db s).
Proof.
  cbv zeta.
  destruct (brand_body_cases env category rs x brands y l s)
    as [-> | [-> | (st & pn & resumed & s1 & _ & Hp & _ & _ & Hr)]].
  - exists [EvLog (LogSkipBrand y)]. split; [done|]. split; [constructor|].
    by intros ? ? ? ?%elem_of_nil.
  - exists []. rewrite app_nil_r. split; [done|]. split; [constructor|].
    by intros ? ? ? ?%elem_of_nil.
  - cbv zeta in Hr. set (l1 := set_seen_urls _ _) in Hr.
    destruct Hp as ((pre & Ht1 & Hpre) & _).
    pose proof (saves_prelude_events _ Hpre) as Hs1.
    destruct Hr as [(e & ->) | (max_start & ->)].
    + exists pre. rewrite Hs1. split; [done|]. split; [constructor|].
      by intros ? ? ? ?%elem_of_nil.
    + destruct (paginate_deduped env category x y max_start
                  (pagination_fuel st max_start) l1 s1) as (evs & Ht & Hn & Hm & _).
      exists (pre ++ evs)%list. rewrite saves_app, Hs1. cbn [app].
      split; [by rewrite Ht, Ht1, app_assoc|]. split; [done|].
      intros x' y' u Hin. destruct (Hm _ _ _ Hin) as (? & ? & ? & _). done.
Qed.

Lemma process_brand_sent_once wl rs x brands y s :
  sent_once env (wl_category wl) (fun x' y' => x' = x /\ y' = y) s
            (process_brand env wl rs x brands y s).2.
Proof.
  pose proof (process_brand_rows_added env (fun _ _ _ => True) wl rs x brands y s I)
    as [Hsub _].
  revert Hsub. unfold process_brand.
  destruct (brand_body_sent (wl_category wl) rs x brands y (mkLocals 0 0 0 0 ∅) s)
    as (evs & Ht & Hn & Hm).
  destruct (brand_body _ _ _ _ _ _ _ _) as [[o l] s1]. cbn [snd] in Ht.
  assert (Hm' : forall x' y' u, (x', y', u) ∈ saves evs ->
            (x' = x /\ y' = y) /\
            ((forall n, db_conn env n = ExecOk) ->
             db s !! u <> Some (wl_category wl, x', y'))).
  { intros x' y' u Hin. destruct (Hm _ _ _ Hin) as (-> & -> & Hnot).
    split; [done|]. intros Hok Hrow. apply Hnot. rewrite Hok.
    by apply load_saved_urls_lookup. }
  assert (Hend : forall s2 logs,
            trace s2 = (trace s1 ++ logs)%list -> Forall is_log logs ->
            db s ⊆ db (save_checkpoint env UnitEnd (ck s2) s2) ->
            sent_once env (wl_category wl) (fun x' y' => x' = x /\ y' = y) s
              (save_checkpoint env UnitEnd (ck s2) s2)).
  { intros s2 logs Ht2 Hlogs Hsub.
    destruct (save_checkpoint_rest env UnitEnd (ck s2) s2) as (logs2 & Hlogs2 & Ht3 & _).
    exists ((evs ++ logs) ++ EvSaveCheckpoint UnitEnd (ck s2) :: logs2)%list.
    split; [by rewrite Ht3, Ht2, Ht, !app_assoc|].
    rewrite !saves_app, (saves_logs logs Hlogs).
    change (saves (EvSaveCheckpoint UnitEnd (ck s2) :: logs2)) with (saves logs2).
    rewrite (saves_logs logs2 Hlogs2), !app_nil_r. done. }
  destruct o as [|e|]; cbn [snd].
  - intros Hsub. apply (Hend _ []); [by rewrite app_nil_r|constructor|done].
  - destruct (is_Exception e); intros Hsub.
    + apply (Hend _ [EvLog (LogBrandException y)]); [done|by repeat constructor|done].
    + apply (Hend _ []); [by rewrite app_nil_r|constructor|done].
  - intros Hsub. exists evs. done.
Qed.

Lemma sent_once_refl category P s : sent_once env category P s s.
Proof.
  exists []. rewrite app_nil_r. split; [done|]. split; [constructor|]. split; [done|].
  by intros ? ? ? ?%elem_of_nil.
Qed.

Lemma sent_once_log category P line s : sent_once env category P s (log line s).
Proof.
  exists [EvLog line]. split; [done|]. split; [constructor|]. split; [done|].
  by intros ? ? ? ?%elem_of_nil.
Qed.

Lemma sent_once_weaken category (P P' : string -> string -> Prop) s s' :
  (forall x y, P x y -> P' x y) ->
  sent_once env category P s s' -> sent_once env category P' s s'.
Proof.
  intros HP (evs & Ht & Hn & Hsub & Hm). exists evs. repeat split; try done.
  - apply HP. by destruct (Hm _ _ _ H).
  - by destruct (Hm _ _ _ H).
Qed.

Lemma sent_once_app category (P1 P2 : string -> string -> Prop) s1 s2 s3 :
  (forall x y, P1 x y -> P2 x y -> False) ->
  sent_once env category P1 s1 s2 -> sent_once env category P2 s2 s3 ->
  sent_once env category (fun x y => P1 x y \/ P2 x y) s1 s3.
Proof.
  intros Hdisj (evs1 & Ht1 & Hn1 & Hsub1 & Hm1) (evs2 & Ht2 & Hn2 & Hsub2 & Hm2).
  exists (evs1 ++ evs2)%list. rewrite saves_app.
  split; [by rewrite Ht2, Ht1, app_assoc|]. split; [|split; [by etrans|]].
  - apply NoDup_app. split; [done|]. split; [|done].
    intros [[x y] u] H1 H2. apply (Hdisj x y).
    + by destruct (Hm1 _ _ _ H1).
    + by destruct (Hm2 _ _ _ H2).
  - intros x y u [H1 | H2]%elem_of_app.
    + destruct (Hm1 _ _ _ H1) as [? ?]. split; [by left|done].
    + destruct (Hm2 _ _ _ H2) as [? Hnot]. split; [by right|].
      intros Hok Hrow. apply (Hnot Hok). by eapply lookup_weaken.
Qed.

Lemma for_brands_sent_once wl rs x brands todo : forall s,
  NoDup todo ->
  sent_once env (wl_category wl) (fun x' y' => x' = x /\ y' ∈ todo) s
            (for_brands env wl rs x brands todo s).2.
Proof.
  induction todo as [|y rest IH]; intros s Hnd; cbn [for_brands]; [apply sent_once_refl|].
  apply NoDup_cons in Hnd as [Hy Hnd].
  pose proof (process_brand_sent_once wl rs x brands y s) as Hp.
  assert (Hw : sent_once env (wl_category wl) (fun x' y' => x' = x /\ y' ∈ y :: rest) s
                 (process_brand env wl rs x brands y s).2).
  { eapply sent_once_weaken; [|exact Hp]. intros x' y' [-> ->]. split; [done|by left]. }
  destruct (process_brand _ _ _ _ _ _ _) as [[|e|] s1]; cbn [snd] in *; try done.
  eapply sent_once_weaken; [|eapply sent_once_app; [|exact Hp|exact (IH s1 Hnd)]].
  - intros x' y' [[-> ->] | [-> Hin]]; (split; [done|]); [by left|by right].
  - intros x' y' [_ ->] [_ Hin]. done.
Qed.

Lemma for_subcategories_sent_once wl rs todo : forall s,
  wf_subcategories todo ->
  sent_once env (wl_category wl) (is_unit todo) s
            (for_subcategories env wl rs todo s).2.
Proof.
  induction todo as [|[x brands] rest IH]; intros s [Hk Hb];
    cbn [for_subcategories]; [apply sent_once_refl|].
  cbn [fmap list_fmap fst] in Hk. apply NoDup_cons in Hk as [Hx Hk].
  apply Forall_cons in Hb as [Hbrands Hb]. cbn [snd] in Hbrands.
  assert (Hrest : forall s0, sent_once env (wl_category wl) (is_unit ((x, brands) :: rest)) s0
                    (for_subcategories env wl rs rest s0).2).
  { intros s0. eapply sent_once_weaken; [|exact (IH s0 (conj Hk Hb))].
    intros x' y' (bs & Hin & Hy). exists bs. split; [by right|done]. }
  assert (Hhere : sent_once env (wl_category wl) (is_unit ((x, brands) :: rest)) s
            (match for_brands env wl rs x brands brands s with
             | (Finished, s0) => for_subcategories env wl rs rest s0
             | stop => stop
             end).2).
  { pose proof (for_brands_sent_once wl rs x brands brands s Hbrands) as Hf.
    destruct (for_brands _ _ _ _ _ _ _) as [[|e|] s1]; cbn [snd] in *.
    - eapply sent_once_weaken;
        [|eapply sent_once_app; [|exact Hf|exact (IH s1 (conj Hk Hb))]].
      + intros x' y' [[-> Hin] | (bs & Hin & Hy)].
        * exists brands. split; [by left|done].
        * exists bs. split; [by right|done].
      + intros x' y' [-> _] (bs & Hin & _). apply Hx.
        apply list_elem_of_fmap. by exists (x, bs).
    - eapply sent_once_weaken; [|exact Hf].
      intros x' y' [-> Hin]. exists brands. split; [by left|done].
    - eapply sent_once_weaken; [|exact Hf].
      intros x' y' [-> Hin]. exists brands. split; [by left|done]. }
  destruct (skip_until_resume s); [|exact Hhere].
  destruct rs as [c|]; [|apply sent_once_refl].
  destruct (bool_decide _); [exact Hhere|].
  destruct (Hrest (log (LogSkipSubcategory x) s)) as (evs & Ht & Hn & Hsub & Hm).
  exists (EvLog (LogSkipSubcategory x) :: evs). split; [|done].
  rewrite Ht. cbn [trace log emit]. by rewrite <- app_assoc.
Qed.

End SentOnce.

Section NoUrlTwice.

(** X15. In the crawl of a sheet no URL is sent to the table twice for the same
    brand; what is sent is sent for a unit of the work list; and when the
    database answers every call, a URL that the table already holds for a
    brand is not sent for that brand again. *)
Theorem no_url_sent_twice_for_a_brand (env : Env) (sheet : string)
    (rs : option Checkpoint) (s : State) (wl : WorkList) :
  load_subcategories_from_excel env sheet = Some wl ->
  wf_subcategories (wl_subcategories wl) ->
  let s' := (crawl env sheet rs s).2 in
  exists evs, trace s' = (trace s ++ evs)%list /\
    NoDup (saves evs) /\
    forall x y u, (x, y, u) ∈ saves evs ->
      is_unit (wl_subcategories wl) x y /\
      ((forall n, db_conn env n = ExecOk) -> db s !! u <> Some (wl_category wl, x, y)).
Proof.
  intros Hwl Hwf. cbv zeta. unfold crawl. rewrite Hwl.
  assert (Hnone : forall evs, saves evs = [] ->
            NoDup (saves evs) /\
            forall x y u, (x, y, u) ∈ saves evs ->
              is_unit (wl_subcategories wl) x y /\
              ((forall n, db_conn env n = ExecOk) ->
               db s !! u <> Some (wl_category wl, x, y))).
  { intros evs ->. split; [constructor|]. by intros ? ? ? ?%elem_of_nil. }
  destruct (credentials env); cbn [negb].
  2: { exists [EvLog LogCredentialsMissing]. split; [done|]. by apply Hnone. }
  destruct (init_db _).
  2: { exists []. rewrite app_nil_r. split; [done|]. by apply Hnone. }
  set (s0 := set_skip _ _).
  destruct (for_subcategories_sent_once env wl rs (wl_subcategories wl) s0 Hwf)
    as (evs & Ht & Hn & _ & Hm).
  destruct (for_subcategories env wl rs (wl_subcategories wl) s0) as [o s1].
  cbn [snd] in Ht. change (trace s0) with (trace s) in Ht. change (db s0) with (db s) in Hm.
  assert (Hevs : forall tail, saves tail = [] ->
            NoDup (saves (evs ++ tail)) /\
            forall x y u, (x, y, u) ∈ saves (evs ++ tail) ->
              is_unit (wl_subcategories wl) x y /\
              ((forall n, db_conn env n = ExecOk) ->
               db s !! u <> Some (wl_category wl, x, y))).
  { intros tail Htail. by rewrite saves_app, Htail, app_nil_r. }
  destruct o as [|e|]; cbn [snd].
  - exists (evs ++ [EvLog (LogTotalFound (total_urls_found s1))])%list.
    split; [cbn [trace log emit]; by rewrite Ht, app_assoc|]. by apply Hevs.
  - set (s2 := if bool_decide (e = KeyboardInterrupt) then _ else _).
    assert (H2 : exists logs, trace s2 = (trace s1 ++ logs)%list /\ saves logs = []).
    { unfold s2. destruct (bool_decide (e = KeyboardInterrupt)).
      - destruct (save_checkpoint_rest env RunInterrupted (ck s1) s1)
          as (logs & Hlogs & Ht2 & _).
        exists (EvSaveCheckpoint RunInterrupted (ck s1) :: logs). split; [done|].
        change (saves (EvSaveCheckpoint RunInterrupted (ck s1) :: logs)) with (saves logs).
        by apply saves_logs.
      - exists []. by rewrite app_nil_r. }
    destruct H2 as (logs & Ht2 & Hs2).
    exists (evs ++ (logs ++ [EvLog (LogTotalFound (total_urls_found s2))]))%list.
    split; [cbn [trace log emit]; by rewrite Ht2, Ht, !app_assoc|].
    apply Hevs. by rewrite saves_app, Hs2.
  - exists evs. split; [done|]. rewrite <- (app_nil_r evs). by apply Hevs.
Qed.

Lemma no_url_sent_twice_for_a_brand_witness :
  exists evs, trace same_listing_run.2 = evs /\ NoDup (saves evs).
Proof.
  destruct (no_url_sent_twice_for_a_brand (example_env shoes_worklist provider_one_listing)
              "S1" None (initial_state ∅ ∅) shoes_worklist eq_refl)
    as (evs & Ht & Hn & _).
  { unfold wf_subcategories. apply (bool_decide_unpack _). by vm_compute. }
  exists evs. split; [|done]. unfold same_listing_run. by rewrite Ht.
Defined.

End NoUrlTwice.

(** ** The ceiling of a pagination *)

Section PageCeiling.

Variable env : Env.
Variables category subcategory brand : string.
Variable max_start : Z.

Lemma save_step_requests clean l s :
  n_requests (save_step env category subcategory brand clean l s).2 = n_requests s.
Proof.
  unfold save_step. by destruct (db_conn env (n_db_calls s)).
Qed.

Lemma save_checkpoint_requests site c s :
  n_requests (save_checkpoint env site c s) = n_requests s.
Proof. by destruct (save_checkpoint_rest env site c s) as (? & _ & _ & _ & _ & _ & ? & _). Qed.

Lemma after_fetch_requests data l s :
  n_requests (step_state (after_fetch env category subcategory brand max_start data l s))
  = n_requests s.
Proof.
  apply (after_fetch_keeps env category subcategory brand
           (fun _ s _ s' => n_requests s' = n_requests s));
    try solve [intros; done].
  - intros; congruence.
  - intros. apply save_checkpoint_requests.
  - intros. apply save_step_requests.
Qed.

Lemma on_page_exception_requests e l s :
  n_requests (step_state (on_page_exception env e l s)) = n_requests s.
Proof.
  unfold on_page_exception. destruct (bool_decide _); [|done].
  apply save_checkpoint_requests.
Qed.

Lemma page_step_requests l s :
  (n_requests (step_state (page_step env category subcategory brand max_start l s))
   <= n_requests s + 5)%nat.
Proof.
  unfold page_step.
  set (s1 := save_checkpoint env BeforePage _ _).
  assert (H1 : n_requests s1 = n_requests s).
  { unfold s1. by rewrite save_checkpoint_requests. }
  pose proof (fetch_with_retries_requests env subcategory brand (start l)
                (seq 1 MAX_RETRIES) s1) as (_ & _ & Hb).
  cbv zeta in Hb. change (length (seq 1 MAX_RETRIES)) with 5%nat in Hb.
  destruct (fetch_with_retries _ _ _ _ _ s1) as [r s2]. cbn [snd] in Hb.
  destruct r as [data|e].
  2: { rewrite on_page_exception_requests. lia. }
  destruct data; try (rewrite after_fetch_requests; lia).
  cbn [step_state n_requests log emit]. lia.
Qed.

Lemma Forall_io (P : Event -> Prop) evs :
  (forall e, is_io e = false -> P e) -> Forall P (io evs) -> Forall P evs.
Proof.
  intros Hother. induction evs as [|e evs IH]; [done|]. unfold io. cbn [List.filter].
  destruct (is_io e) eqn:He.
  - intros [? ?]%Forall_cons. constructor; [done|by apply IH].
  - intros H. constructor; [by apply Hother|by apply IH].
Qed.

Lemma request_in_range_lower lo hi e :
  request_in_range subcategory brand (lo + RESULTS_PER_PAGE) hi e ->
  request_in_range subcategory brand lo hi e.
Proof.
  destruct e as [site x y st| | | |]; try done. unfold RESULTS_PER_PAGE.
  intros (? & ? & ? & ? & Hm). repeat split; try done; try lia.
  replace (st - lo) with (st - (lo + 10) + 1 * 10) by lia.
  by rewrite Z.mod_add.
Qed.

Lemma pages_left_next st :
  st <= max_start -> pages_left (st + RESULTS_PER_PAGE) max_start + 1 = pages_left st max_start.
Proof.
  intros Hle. unfold pages_left, RESULTS_PER_PAGE.
  rewrite (proj2 (Z.leb_le st max_start) Hle).
  destruct (st + 10 <=? max_start) eqn:Hn.
  - replace (max_start - (st + 10)) with ((max_start - st) + (-1) * 10) by lia.
    rewrite Z.div_add by lia. lia.
  - apply Z.leb_gt in Hn. rewrite Z.div_small by lia. lia.
Qed.

Lemma pages_left_nonneg st : 0 <= pages_left st max_start.
Proof.
  unfold pages_left, RESULTS_PER_PAGE. destruct (st <=? max_start) eqn:Hle; [|lia].
  apply Z.leb_le in Hle. assert (0 <= (max_start - st) / 10) by (apply Z.div_pos; lia). lia.
Qed.

Lemma paginate_bounded fuel : forall l s,
  let r := paginate fuel env category subcategory brand max_start l s in
  exists evs, trace r.2 = (trace s ++ evs)%list /\
    Forall (request_in_range subcategory brand (start l) max_start) evs /\
    Z.of_nat (n_requests r.2)
      <= Z.of_nat (n_requests s) + 5 * pages_left (start l) max_start.
Proof.
  induction fuel as [|fuel IH]; intros l s; cbv zeta; cbn [paginate].
  { exists []. rewrite app_nil_r. split; [done|]. split; [constructor|].
    pose proof (pages_left_nonneg (start l)). cbn [snd]. lia. }
  destruct (start l <=? max_start) eqn:Hle.
  2: { exists []. rewrite app_nil_r. split; [done|]. split; [constructor|].
       pose proof (pages_left_nonneg (start l)). cbn [snd]. lia. }
  apply Z.leb_le in Hle.
  pose proof (page_step_requests l s) as Hreq.
  destruct (page_step_ok env category subcategory brand max_start l s)
    as (evs & more & l' & s' & Hr & [Ht _] & Hck & Hio & Hmore).
  assert (Hevs : Forall (request_in_range subcategory brand (start l) max_start) evs).
  { apply Forall_io; [by intros []|]. rewrite Hio.
    constructor; [done|]. constructor.
    { cbn. repeat split; try done; try lia. by rewrite Z.sub_diag. }
    eapply Forall_impl; [exact Hmore|]. intros e [-> | ->]; [|done].
    cbn. repeat split; try done; try lia. by rewrite Z.sub_diag. }
  pose proof (pages_left_next (start l) Hle) as Hnext.
  pose proof (pages_left_nonneg (start l + RESULTS_PER_PAGE)) as Hnn.
  destruct Hr as [[Hr Hst] | (o & Hr & _)]; rewrite Hr in Hreq |- *;
    cbn [step_state] in Hreq.
  - destruct (IH l' s') as (evs2 & Ht2 & Hall2 & Hb2).
    exists (evs ++ evs2)%list. split; [by rewrite Ht2, Ht, app_assoc|]. split.
    + apply Forall_app. split; [done|].
      eapply Forall_impl; [exact Hall2|]. intros e. rewrite Hst.
      apply request_in_range_lower.
    + rewrite Hst in Hb2. lia.
  - exists evs. split; [done|]. split; [done|]. cbn [snd]. lia.
Qed.

End PageCeiling.

Section CeilingProperties.

(** X16. The pagination of a brand stays below the ceiling and within its
    budget: it returns; every request it makes is a page request for the
    brand, at an offset a whole number of pages above the start and not
    above [max_start]; and it makes at most [MAX_RETRIES] = 5 requests for
    each page from the start up to the ceiling. *)
Theorem pagination_stays_below_ceiling (env : Env) (category subcategory brand : string)
    (max_start : Z) (l : Locals) (s : State) :
  let r := paginate (pagination_fuel (start l) max_start) env
             category subcategory brand max_start l s in
  r.1.1 <> OutOfFuel /\
  exists evs, trace r.2 = (trace s ++ evs)%list /\
    Forall (request_in_range subcategory brand (start l) max_start) evs /\
    Z.of_nat (n_requests r.2)
      <= Z.of_nat (n_requests s) + 5 * pages_left (start l) max_start.
Proof.
  cbv zeta. split; [apply paginate_enough_fuel|apply paginate_bounded].
Qed.

End CeilingProperties.

(** ** Exceptions stay inside a brand *)

Section LoadReturns.

Lemma checkpoint_load_returns env s : exists r, (load_checkpoint env s).1 = Return r.
Proof.
  unfold load_checkpoint. destruct (fs s !! CHECKPOINT_FILE); [|by eexists].
  destruct (ck_unreadable env); [by eexists|]. destruct (json_load env _); by eexists.
Qed.

End LoadReturns.

Section Contained.

Variable env : Env.
Hypothesis Hquiet : never_interrupted env.

Lemma fetch_with_retries_not_interrupted subcategory brand st attempts : forall s,
  (fetch_with_retries env subcategory brand st attempts s).1 <> Raise KeyboardInterrupt.
Proof.
  induction attempts as [|a later IH]; intros s; cbn [fetch_with_retries]; [done|].
  unfold oxylabs_search.
  destruct (provider env _ _ _) as [data| | |] eqn:Hp; cbn [fst];
    [done|apply IH|done|by apply Hquiet in Hp].
Qed.

Lemma extract_link_raises res e :
  extract_link_from_result res = Raise e -> e = AttributeError.
Proof.
  unfold extract_link_from_result.
  destruct (py_get res "url" PNone) as [v1|e1] eqn:H1;
    [|apply py_get_raises in H1 as ->; by intros [= <-]].
  cbn [mbind result_bind]. destruct (is_http_str v1); [done|].
  destruct (py_get res "link" PNone) as [v2|e1] eqn:H2;
    [|apply py_get_raises in H2 as ->; by intros [= <-]].
  cbn [mbind result_bind]. by destruct (is_http_str v2).
Qed.

Lemma store_results_raises category subcategory brand organic : forall found l s e,
  (store_results env category subcategory brand organic found l s).1.1 = Raise e ->
  e = AttributeError.
Proof.
  induction organic as [|res rest IH]; intros found l s e; cbn [store_results]; [done|].
  destruct (extract_link_from_result res) as [link|e1] eqn:Hlink.
  2: { intros [= <-]. by apply extract_link_raises in Hlink. }
  destruct (contains _ link); [|apply IH].
  destruct (bool_decide _); [apply IH|].
  destruct (db_conn env (n_db_calls s)); cbn [save_url]; apply IH.
Qed.

Lemma py_iter_raises v e : py_iter v = Raise e -> e = TypeError.
Proof. destruct v; cbn [py_iter]; congruence. Qed.

Lemma process_page_raises category subcategory brand data l s e :
  (process_page env category subcategory brand data l s).1.1 = Raise e ->
  e = AttributeError \/ e = TypeError.
Proof.
  unfold process_page.
  destruct (extract_results_from_oxylabs data) as [organic|e1] eqn:H1.
  2: { intros [= <-]. left. by apply extract_results_raises in H1. }
  destruct (extract_total_results data) as [t|e1] eqn:H2.
  2: { intros [= <-]. left. by apply extract_total_results_raises in H2. }
  destruct (py_iter organic) as [results|e1] eqn:H3.
  2: { intros [= <-]. right. by apply py_iter_raises in H3. }
  intros H. left. by apply store_results_raises in H.
Qed.

Lemma after_fetch_not_interrupted category subcategory brand max_start data l s :
  step_outcome (after_fetch env category subcategory brand max_start data l s)
  <> Some (Raised KeyboardInterrupt).
Proof.
  unfold after_fetch.
  pose proof (process_page_raises category subcategory brand data l s) as Hp.
  destruct (process_page _ _ _ _ _ _ _) as [[r l1] s1]. cbn [fst] in Hp.
  destruct r as [found|e].
  - destruct ((found =? 0) && _); [done|]. by destruct (_ >? _).
  - unfold on_page_exception. destruct (Hp e eq_refl) as [-> | ->]; done.
Qed.

Lemma page_step_not_interrupted category subcategory brand max_start l s :
  step_outcome (page_step env category subcategory brand max_start l s)
  <> Some (Raised KeyboardInterrupt).
Proof.
  unfold page_step.
  set (s1 := save_checkpoint env BeforePage _ _).
  pose proof (fetch_with_retries_not_interrupted subcategory brand (start l)
                (seq 1 MAX_RETRIES) s1) as Hf.
  destruct (fetch_with_retries _ _ _ _ _ s1) as [r s2]. cbn [fst] in Hf.
  destruct r as [data|e].
  - destruct data; try apply after_fetch_not_interrupted. done.
  - unfold on_page_exception.
    destruct (decide (e = KeyboardInterrupt)) as [->|He]; [done|].
    rewrite bool_decide_eq_false_2 by done. cbn [step_outcome]. congruence.
Qed.

Lemma paginate_not_interrupted category subcategory brand max_start fuel : forall l s,
  (paginate fuel env category subcategory brand max_start l s).1.1
  <> Raised KeyboardInterrupt.
Proof.
  induction fuel as [|fuel IH]; intros l s; cbn [paginate]; [done|].
  destruct (start l <=? max_start); [|done].
  pose proof (page_step_not_interrupted category subcategory brand max_start l s) as Hp.
  destruct (page_step _ _ _ _ _ _ _) as [l1 s1|o l1 s1]; [apply IH|].
  cbn [step_outcome fst] in *. congruence.
Qed.

Lemma probe_not_interrupted resp :
  resp <> RespInterrupt -> probe_max_start resp <> Raise KeyboardInterrupt.
Proof.
  intros Hr. unfold probe_max_start.
  destruct (probe_body resp) as [m|e] eqn:Hb; [done|].
  unfold is_Exception. destruct (decide (e = KeyboardInterrupt)) as [->|He];
    [exfalso|by rewrite bool_decide_eq_true_2].
  unfold probe_body in Hb. destruct resp as [data| | |]; try done.
  destruct (extract_total_results data) as [[T|]|e] eqn:Hx; cbn [mbind result_bind] in Hb.
  - by destruct (negb _ && _).
  - done.
  - injection Hb as ->. by apply extract_total_results_raises in Hx.
Qed.

Lemma brand_body_not_interrupted category rs subcategory brands brand l s :
  (brand_body env category rs subcategory brands brand l s).1.1
  <> Raised KeyboardInterrupt.
Proof.
  unfold brand_body.
  destruct (resume_logic _ _ _ _ _) as [|st pn resumed|]; [done| |done].
  cbv zeta. unfold oxylabs_search.
  pose proof (probe_not_interrupted
                (provider env (n_requests (db_called (db (set_ck
                   (ck_set_unit subcategory brand st pn
                      (ck (if resumed
                           then set_skip false (log (LogResuming brand pn st) s)
                           else s)))
                   (if resumed then set_skip false (log (LogResuming brand pn st) s)
                    else s)))
                   (set_ck (ck_set_unit subcategory brand st pn
                      (ck (if resumed
                           then set_skip false (log (LogResuming brand pn st) s)
                           else s)))
                   (if resumed then set_skip false (log (LogResuming brand pn st) s)
                    else s))))
                   (query_for subcategory brand) (start_page 0 RESULTS_PER_PAGE))
                (Hquiet _ _ _)) as Hprobe.
  cbn [n_requests db_called set_ck] in Hprobe |- *.
  destruct (probe_max_start _) as [max_start|e]; [|cbn [fst]; congruence].
  apply paginate_not_interrupted.
Qed.

Lemma process_brand_finishes wl rs subcategory brands brand s :
  (process_brand env wl rs subcategory brands brand s).1 = Finished.
Proof.
  unfold process_brand.
  pose proof (brand_body_not_interrupted (wl_category wl) rs subcategory brands brand
                (mkLocals 0 0 0 0 ∅) s) as Hb.
  pose proof (brand_body_io env (wl_category wl) rs subcategory brands brand
                (mkLocals 0 0 0 0 ∅) s) as [Hfuel _].
  destruct (brand_body _ _ _ _ _ _ _ _) as [[o l] s1]. cbn [fst] in *.
  destruct o as [|e|]; [done| |done].
  unfold is_Exception. rewrite bool_decide_eq_true_2; [done|congruence].
Qed.

Lemma for_brands_finishes wl rs subcategory brands todo : forall s,
  (for_brands env wl rs subcategory brands todo s).1 = Finished.
Proof.
  induction todo as [|brand rest IH]; intros s; cbn [for_brands]; [done|].
  pose proof (process_brand_finishes wl rs subcategory brands brand s) as Hp.
  destruct (process_brand _ _ _ _ _ _ _) as [o s1]. cbn [fst] in Hp. subst o. apply IH.
Qed.

Lemma for_subcategories_finishes wl rs todo : forall s,
  (skip_until_resume s = true -> is_Some rs) ->
  (for_subcategories env wl rs todo s).1 = Finished.
Proof.
  induction todo as [|[x brands] rest IH]; intros s Hinv; cbn [for_subcategories]; [done|].
  assert (Hb : (match for_brands env wl rs x brands brands s with
                | (Finished, s0) => for_subcategories env wl rs rest s0
                | stop => stop
                end).1 = Finished).
  { pose proof (for_brands_finishes wl rs x brands brands s) as Hf.
    destruct (for_brands_io env wl rs x brands brands s) as (evs & _ & Hcase).
    destruct (for_brands _ _ _ _ _ _ _) as [o s1]. cbn [fst snd] in *. subst o.
    apply IH. destruct Hcase as [(_ & _ & Hsk) | [? _]]; [|done].
    rewrite Hsk. intros Hflag.
    destruct (skip_until_resume s) eqn:Hs; [by apply Hinv|].
    by rewrite plan_brands_fresh in Hflag. }
  destruct (skip_until_resume s) eqn:Hs; [|exact Hb].
  destruct rs as [c|]; [|by destruct (Hinv eq_refl)].
  destruct (bool_decide _); [exact Hb|]. by apply IH.
Qed.

Lemma crawl_not_interrupted sheet rs s :
  (crawl env sheet rs s).1 <> Raised KeyboardInterrupt.
Proof.
  unfold crawl. destruct (load_subcategories_from_excel env sheet) as [wl|]; [|done].
  destruct (credentials env); cbn [negb]; [|done].
  destruct (db_conn env (n_db_calls s)); cbn [init_db]; try done.
  - set (s0 := set_skip _ _).
    pose proof (for_subcategories_finishes wl rs (wl_subcategories wl) s0) as Hf.
    destruct (for_subcategories _ _ _ _ _) as [o s1]. cbn [fst] in Hf.
    rewrite Hf; [done|]. cbn. intros H. by apply bool_decide_eq_true_1 in H.
  - set (s0 := set_skip _ _).
    pose proof (for_subcategories_finishes wl rs (wl_subcategories wl) s0) as Hf.
    destruct (for_subcategories _ _ _ _ _) as [o s1]. cbn [fst] in Hf.
    rewrite Hf; [done|]. cbn. intros H. by apply bool_decide_eq_true_1 in H.
Qed.

Lemma crawl_started_finishes sheet rs s wl :
  load_subcategories_from_excel env sheet = Some wl ->
  credentials env = true ->
  init_db (db_conn env (n_db_calls s)) = Return () ->
  (crawl env sheet rs s).1 = Finished.
Proof.
  intros Hwl Hc Hi. unfold crawl. rewrite Hwl, Hc, Hi. cbn [negb].
  set (s0 := set_skip _ _).
  pose proof (for_subcategories_finishes wl rs (wl_subcategories wl) s0) as Hf.
  destruct (for_subcategories _ _ _ _ _) as [o s1]. cbn [fst] in Hf.
  rewrite Hf; [done|]. cbn. intros H. by apply bool_decide_eq_true_1 in H.
Qed.

Lemma for_sheets_finishes sheets : forall resume s,
  (for_sheets env resume sheets s).1 = Finished.
Proof.
  induction sheets as [|sheet rest IH]; intros resume s; cbn [for_sheets]; [done|].
  assert (Hc : forall rs,
            (match crawl env sheet rs s with
             | (Finished, s0) => for_sheets env None rest s0
             | (Raised e, s0) =>
                 if is_Exception e then (Finished, log (LogSheetStopped sheet) s0)
                 else (Raised e, s0)
             | stop => stop
             end).1 = Finished).
  { intros rs. pose proof (crawl_not_interrupted sheet rs s) as Hk.
    pose proof (crawl_returns env sheet rs s) as Hret.
    destruct (crawl env sheet rs s) as [[|e|] s1]; cbn [fst] in *; [apply IH| |done].
    unfold is_Exception. rewrite bool_decide_eq_true_2; [done|congruence]. }
  destruct resume as [rs|]; [|apply Hc].
  destruct (bool_decide _); [apply Hc|apply IH].
Qed.

End Contained.

Section RunEnds.



End RunEnds.

(** ** Sheets and stale checkpoints *)

Section Sheets.

Variable env : Env.

Lemma skip_sheets_only_logs sheets : forall s, only_logs s (skip_sheets sheets s).
Proof.
  induction sheets as [|sheet rest IH]; intros s; [apply only_logs_refl|].
  cbn [skip_sheets foldl]. eapply only_logs_trans; [apply only_logs_log|apply IH].
Qed.

Lemma skip_sheets_trace sheets : forall s,
  trace (skip_sheets sheets s)
  = (trace s ++ ((fun sheet => EvLog (LogSkipSheet sheet)) <$> sheets))%list.
Proof.
  induction sheets as [|sheet rest IH]; intros s; [by rewrite app_nil_r|].
  cbn [skip_sheets foldl]. fold (skip_sheets rest (log (LogSkipSheet sheet) s)).
  rewrite IH. cbn [trace log emit]. by rewrite <- app_assoc.
Qed.

Lemma for_sheets_skip rs pre : forall rest s,
  ck_sheet rs ∉ pre ->
  for_sheets env (Some rs) (pre ++ rest) s
  = for_sheets env (Some rs) rest (skip_sheets pre s).
Proof.
  induction pre as [|sheet pre IH]; intros rest s Hn; [done|].
  apply not_elem_of_cons in Hn as [Hne Hn].
  cbn [app for_sheets]. rewrite bool_decide_eq_false_2 by done. by rewrite IH.
Qed.

End Sheets.

Section SheetProperties.

(** X18. A run with a checkpoint skips the sheets in front of the checkpoint's
    sheet, crawls that sheet with the checkpoint, and goes on to the sheets
    after it without one. When the workbook has no sheet of that name, every
    sheet is skipped: the run makes no request, stores nothing, saves no
    checkpoint and ends normally. *)
Theorem run_resumes_at_checkpoint_sheet (env : Env) (rs : Checkpoint) :
  (forall pre post s, ck_sheet rs ∉ pre ->
     for_sheets env (Some rs) (pre ++ ck_sheet rs :: post) s
     = match crawl env (ck_sheet rs) (Some rs) (skip_sheets pre s) with
       | (Finished, s1) => for_sheets env None post s1
       | (Raised e, s1) =>
           if is_Exception e
           then (Finished, log (LogSheetStopped (ck_sheet rs)) s1)
           else (Raised e, s1)
       | stop => stop
       end) /\
  (forall sheets s, only_logs s (skip_sheets sheets s)) /\
  (forall sheets s content,
     fs s !! CHECKPOINT_FILE = Some content ->
     ck_unreadable env = false -> json_load env content = Some rs ->
     sheet_names env = Some sheets -> ck_sheet rs ∉ sheets ->
     main env s = (Finished, log LogFinished (skip_sheets sheets s)) /\
     only_logs s (main env s).2).
Proof.
  split; [|split].
  - intros pre post s Hn. rewrite for_sheets_skip by done.
    cbn [for_sheets]. by rewrite bool_decide_eq_true_2.
  - intros. apply skip_sheets_only_logs.
  - intros sheets s content Hc Hr Hj Hs Hn.
    assert (Hm : main env s = (Finished, log LogFinished (skip_sheets sheets s))).
    { unfold main, load_checkpoint. rewrite Hc, Hr, Hj, Hs.
      rewrite <- (app_nil_r sheets) at 1. by rewrite for_sheets_skip. }
    split; [done|]. rewrite Hm. cbn [snd].
    eapply only_logs_trans; [apply skip_sheets_only_logs|apply only_logs_log].
Qed.

Lemma run_resumes_at_checkpoint_sheet_witness :
  main renamed_sheet_env (initial_state ∅ {[ CHECKPOINT_FILE := "{}" ]})
  = (Finished,
     log LogFinished
       (skip_sheets ["S2"; "S3"] (initial_state ∅ {[ CHECKPOINT_FILE := "{}" ]}))).
Proof.
  destruct (run_resumes_at_checkpoint_sheet renamed_sheet_env adidas_checkpoint)
    as (_ & _ & H).
  apply (H ["S2"; "S3"] _ "{}"); try reflexivity.
  apply (bool_decide_unpack (_ ∉ _)). by vm_compute.
Defined.

End SheetProperties.

Section StaleUnit.

Lemma plan_stale_unit c S B subcategories :
  ck_subcategory c = Some S -> ck_brand c = Some B ->
  ~ is_unit subcategories S B ->
  forall x y d, (x, y, d) ∈ plan (Some c) true subcategories -> x = S.
Proof.
  intros HS HB. induction subcategories as [|[x0 brands] rest IH]; intros Hno x y d;
    cbn [plan]; [by intros ?%elem_of_nil|].
  assert (Hrest : ~ is_unit rest S B).
  { intros (bs & Hin & Hy). apply Hno. exists bs. split; [by right|done]. }
  cbn [mbind option_bind]. rewrite HS.
  destruct (decide (x0 = S)) as [->|Hne].
  - rewrite bool_decide_eq_true_2 by done. cbn [negb andb].
    assert (Hj : list_index (Some B) brands = None).
    { destruct (list_index (Some B) brands) as [j|] eqn:Hj; [|done].
      destruct Hno. exists brands. split; [by left|].
      eapply list_elem_of_lookup_2. by apply list_index_lookup. }
    rewrite (plan_brands_absent c S B HS HB brands brands Hj) by done.
    intros [Hin | Hin]%elem_of_app.
    + by apply list_elem_of_fmap in Hin as (b & [= -> _ _] & _).
    + by apply (IH Hrest x y d).
  - rewrite bool_decide_eq_false_2 by congruence. cbn [negb andb].
    by apply IH.
Qed.

Lemma plan_stale_subcategory c S subcategories :
  ck_subcategory c = Some S -> S ∉ subcategories.*1 ->
  plan (Some c) true subcategories = [].
Proof. apply plan_absent. Qed.

(** X19. A checkpoint for a unit that the sheet no longer lists: the crawl
    requests nothing outside the checkpoint's subcategory, so every
    subcategory after it is skipped as well as those before it; and when
    the sheet has no such subcategory at all, the crawl requests nothing. *)
Theorem stale_checkpoint_unit_skips_other_subcategories (env : Env) (sheet : string)
    (rs : Checkpoint) (wl : WorkList) (S B : string) (s : State) :
  load_subcategories_from_excel env sheet = Some wl ->
  ck_subcategory rs = Some S -> ck_brand rs = Some B ->
  ~ is_unit (wl_subcategories wl) S B ->
  exists evs, trace (crawl env sheet (Some rs) s).2 = (trace s ++ evs)%list /\
    (forall x y, x <> S -> unit_requests x y evs = []) /\
    (S ∉ (wl_subcategories wl).*1 -> forall x y, unit_requests x y evs = []).
Proof.
  intros Hwl HS HB Hno.
  destruct (crawl_io env sheet (Some rs) s wl Hwl) as (evs & Ht & Hio).
  exists evs. split; [exact Ht|].
  assert (Hnone : io evs = [] ->
            (forall x y, x <> S -> unit_requests x y evs = []) /\
            (S ∉ (wl_subcategories wl).*1 -> forall x y, unit_requests x y evs = [])).
  { intros H. split; intros; by rewrite <- unit_requests_io, H. }
  destruct (credentials env); [|by apply Hnone].
  destruct (init_db _); [|by apply Hnone].
  destruct Hio as (complete & evs1 & c_out & tail & Hio & Hr & Htail).
  rewrite bool_decide_eq_true_2 in Hr by eauto.
  assert (Hreq : forall x y, unit_requests x y evs = unit_requests x y evs1).
  { intros x y. rewrite <- unit_requests_io, Hio, unit_requests_app.
    destruct Htail as [-> | ->]; by rewrite app_nil_r. }
  split.
  - intros x y Hne. rewrite Hreq. eapply run_io_not_crawled; [exact Hr|].
    intros d Hin. by apply (plan_stale_unit rs S B _ HS HB Hno) in Hin.
  - intros Habs x y. rewrite Hreq. eapply run_io_not_crawled; [exact Hr|].
    intros d Hin. by rewrite (plan_absent rs S _ HS Habs) in Hin; apply elem_of_nil in Hin.
Qed.

Lemma stale_checkpoint_unit_skips_other_subcategories_witness :
  unit_requests "Bags" "Gucci"
    (trace (crawl (example_env shoes_and_bags_worklist provider_empty) "S1"
              (Some puma_checkpoint) (initial_state ∅ ∅)).2) = [].
Proof.
  destruct (stale_checkpoint_unit_skips_other_subcategories
              (example_env shoes_and_bags_worklist provider_empty) "S1" puma_checkpoint
              shoes_and_bags_worklist "Shoes" "Puma" (initial_state ∅ ∅)
              eq_refl eq_refl eq_refl) as (evs & Ht & H & _).
  { intros (bs & Hin & Hy). unfold shoes_and_bags_worklist in Hin.
    cbn [wl_subcategories] in Hin. apply elem_of_cons in Hin as [[= ->] | Hin].
    - revert Hy. apply (bool_decide_unpack (_ ∉ _)). by vm_compute.
    - apply list_elem_of_singleton in Hin. discriminate Hin. }
  change (trace (initial_state ∅ ∅)) with (@nil Event) in Ht.
  rewrite (app_nil_l evs) in Ht. rewrite Ht. by apply H.
Defined.

End StaleUnit.

(** ** The rows of the summary *)

Section SummaryRows.

Variable env : Env.
Variable wl : WorkList.
Variable rs : option Checkpoint.

Lemma save_checkpoint_stats site c s :
  log_stats (save_checkpoint env site c s) = log_stats s.
Proof. by destruct (save_checkpoint_rest env site c s) as (? & _ & _ & _ & _ & ? & _). Qed.

Lemma process_brand_row x brands y s :
  let d := resume_logic rs (skip_until_resume s) x y brands in
  let r := process_brand env wl rs x brands y s in
  exists st, log_stats r.2 = (log_stats s ++ [st])%list /\ summary_row wl (x, y, d) st.
Proof.
  cbv zeta. unfold process_brand.
  pose proof (brand_body_tallied env (wl_category wl) rs x brands y
                (mkLocals 0 0 0 0 ∅) s) as (_ & _ & _ & _ & Hs).
  pose proof (brand_body_io env (wl_category wl) rs x brands y
                (mkLocals 0 0 0 0 ∅) s) as [Hfuel _].
  assert (Hskip : resume_logic rs (skip_until_resume s) x y brands = SkipBrand ->
            (brand_body env (wl_category wl) rs x brands y (mkLocals 0 0 0 0 ∅) s).1.2
            = mkLocals 0 0 0 0 ∅).
  { intros Hd. unfold brand_body. by rewrite Hd. }
  destruct (brand_body _ _ _ _ _ _ _ _) as [[o l] s1]. cbn [fst snd] in *.
  assert (Hrow : summary_row wl (x, y, resume_logic rs (skip_until_resume s) x y brands)
                   (mkStat (row_lookup x y (wl_row_mapping wl)) (wl_category wl) x y
                      (page_num l) (brand_urls l))).
  { unfold summary_row. cbn [fst snd]. do 4 (split; [done|]).
    intros Hd. by rewrite (Hskip Hd). }
  destruct o as [|e|]; [| |done]; cbv beta iota zeta.
  - eexists. split; [|exact Hrow]. cbn [snd].
    rewrite save_checkpoint_stats. cbn [log_stats set_stats]. by rewrite Hs.
  - eexists. split; [|exact Hrow].
    destruct (is_Exception e); cbn [snd]; rewrite save_checkpoint_stats;
      cbn [log_stats set_stats log emit]; by rewrite Hs.
Qed.

Lemma for_brands_rows x brands todo : forall s,
  let r := for_brands env wl rs x brands todo s in
  let pl := plan_brands rs (skip_until_resume s) x brands todo in
  exists units rows,
    log_stats r.2 = (log_stats s ++ rows)%list /\
    Forall2 (summary_row wl) units rows /\ units `prefix_of` pl.1 /\
    (r.1 = Finished -> units = pl.1 /\ skip_until_resume r.2 = pl.2).
Proof.
  induction todo as [|y rest IH]; intros s; cbv zeta; cbn [for_brands plan_brands].
  { exists [], []. rewrite app_nil_r. by repeat split. }
  destruct (process_brand_row x brands y s) as (st & Hst & Hrow).
  destruct (process_brand_io env wl rs x brands y s) as (Ho & _ & _ & _ & Hsk).
  set (d := resume_logic rs (skip_until_resume s) x y brands) in *.
  destruct (process_brand env wl rs x brands y s) as [o s1]. cbn [fst snd] in *.
  specialize (IH s1). cbv zeta in IH. rewrite Hsk in IH.
  destruct (plan_brands rs (flag_after d (skip_until_resume s)) x brands rest)
    as [p f] eqn:Hp. cbn [fst snd] in *.
  destruct Ho as [-> | [-> _]].
  - destruct IH as (units & rows & Hs & Hall & Hpre & Hfin).
    exists ((x, y, d) :: units), (st :: rows).
    split; [by rewrite Hs, Hst, <- app_assoc|]. split; [by constructor|].
    split; [by apply prefix_cons|].
    intros Hf. destruct (Hfin Hf) as [-> ->]. done.
  - exists [(x, y, d)], [st]. split; [done|]. split; [constructor; [done|constructor]|].
    split; [apply prefix_cons, prefix_nil|done].
Qed.

Lemma for_subcategories_rows todo : forall s,
  (skip_until_resume s = true -> is_Some rs) ->
  let r := for_subcategories env wl rs todo s in
  let pl := plan rs (skip_until_resume s) todo in
  exists units rows,
    log_stats r.2 = (log_stats s ++ rows)%list /\
    Forall2 (summary_row wl) units rows /\ units `prefix_of` pl /\
    (r.1 = Finished -> units = pl).
Proof.
  induction todo as [|[x brands] rest IH]; intros s Hinv; cbv zeta;
    cbn [for_subcategories plan].
  { exists [], []. rewrite app_nil_r. by repeat split. }
  assert (Hhere :
    let pl := plan_brands rs (skip_until_resume s) x brands brands in
    exists units rows,
      log_stats (match for_brands env wl rs x brands brands s with
                 | (Finished, s0) => for_subcategories env wl rs rest s0
                 | stop => stop
                 end).2 = (log_stats s ++ rows)%list /\
      Forall2 (summary_row wl) units rows /\
      units `prefix_of` (pl.1 ++ plan rs pl.2 rest)%list /\
      ((match for_brands env wl rs x brands brands s with
        | (Finished, s0) => for_subcategories env wl rs rest s0
        | stop => stop
        end).1 = Finished -> units = (pl.1 ++ plan rs pl.2 rest)%list)).
  { cbv zeta. destruct (for_brands_rows x brands brands s)
      as (units & rows & Hs & Hall & Hpre & Hfin).
    pose proof (plan_brands_flag rs x brands brands (skip_until_resume s)) as Hflag.
    destruct (for_brands env wl rs x brands brands s) as [o s1]. cbn [fst snd] in *.
    destruct (plan_brands rs (skip_until_resume s) x brands brands) as [p f].
    cbn [fst snd] in *.
    destruct o as [|e|].
    - destruct (Hfin eq_refl) as [-> Hsk].
      destruct (IH s1) as (units2 & rows2 & Hs2 & Hall2 & Hpre2 & Hfin2).
      { rewrite Hsk. intros ->. apply Hinv. by apply Hflag. }
      rewrite Hsk in Hpre2, Hfin2.
      exists (p ++ units2)%list, (rows ++ rows2)%list.
      split; [by rewrite Hs2, Hs, app_assoc|]. split; [by apply Forall2_app|].
      split; [by apply prefix_app|]. intros Hf. by rewrite (Hfin2 Hf).
    - exists units, rows. split; [done|]. split; [done|].
      split; [by apply prefix_app_r|done].
    - exists units, rows. split; [done|]. split; [done|].
      split; [by apply prefix_app_r|done]. }
  cbv zeta in Hhere.
  destruct (skip_until_resume s) eqn:Hs.
  - destruct rs as [c|] eqn:Hrs; [|by destruct (Hinv eq_refl)].
    cbn [mbind option_bind]. destruct (bool_decide _); cbn [negb andb].
    + destruct (plan_brands (Some c) true x brands brands) as [p f]. exact Hhere.
    + destruct (IH (log (LogSkipSubcategory x) s)) as (units & rows & H1 & H2 & H3 & H4);
        [done|].
      change (skip_until_resume (log (LogSkipSubcategory x) s))
        with (skip_until_resume s) in H3, H4. rewrite Hs in H3, H4.
      by exists units, rows.
  - cbn [andb]. destruct (plan_brands rs false x brands brands) as [p f]. exact Hhere.
Qed.

End SummaryRows.

Section SummaryRowsProperties.

Lemma plan_fresh_units rs subcategories :
  fst <$> plan rs false subcategories = all_units subcategories.
Proof.
  induction subcategories as [|[x brands] rest IH]; [done|].
  cbn [plan andb]. rewrite plan_brands_fresh. cbn [all_units flat_map fst snd].
  rewrite fmap_app, IH. f_equal. rewrite <- list_fmap_compose. done.
Qed.

Lemma summary_rows_names wl units rows :
  Forall2 (summary_row wl) units rows ->
  (fun st => (stat_subcategory st, stat_brand st)) <$> rows = fst <$> units.
Proof.
  induction 1 as [|[[x y] d] st units rows (_ & _ & Hx & Hy & _) _ IH]; [done|].
  cbn [fmap list_fmap fst snd] in *. by rewrite Hx, Hy, IH.
Qed.

(** X20. The summary of a crawl has one row for each brand the loops went
    through, in their order, with the row number the sheet gives the unit:
    the brands of the resume plan, up to the one during which the crawl was
    interrupted. A brand skipped in front of the checkpoint's brand has its
    row too, with no page and no URL; a brand whose crawl raised has its row
    as well. In a crawl without checkpoint that returns, these are all the
    units of the work list. *)
Theorem summary_has_a_row_per_brand (env : Env) (sheet : string)
    (rs : option Checkpoint) (s : State) (wl : WorkList) :
  load_subcategories_from_excel env sheet = Some wl ->
  credentials env = true ->
  init_db (db_conn env (n_db_calls s)) = Return () ->
  let r := crawl env sheet rs s in
  let p := plan rs (bool_decide (is_Some rs)) (wl_subcategories wl) in
  (exists units, units `prefix_of` p /\
     Forall2 (summary_row wl) units (log_stats r.2) /\
     (r.1 = Finished -> units = p)) /\
  (rs = None -> r.1 = Finished ->
   (fun st => (stat_subcategory st, stat_brand st)) <$> log_stats r.2
   = all_units (wl_subcategories wl)).
Proof.
  intros Hwl Hc Hi. cbv zeta.
  assert (H : exists units,
            units `prefix_of` plan rs (bool_decide (is_Some rs)) (wl_subcategories wl) /\
            Forall2 (summary_row wl) units (log_stats (crawl env sheet rs s).2) /\
            ((crawl env sheet rs s).1 = Finished ->
             units = plan rs (bool_decide (is_Some rs)) (wl_subcategories wl))).
  { unfold crawl. rewrite Hwl, Hc, Hi. cbn [negb].
    set (s0 := set_skip _ _).
    destruct (for_subcategories_rows env wl rs (wl_subcategories wl) s0)
      as (units & rows & Hs & Hall & Hpre & Hfin).
    { cbn. intros Hb. by apply bool_decide_eq_true_1 in Hb. }
    change (skip_until_resume s0) with (bool_decide (is_Some rs)) in Hpre, Hfin.
    change (log_stats s0) with (@nil Stat) in Hs. rewrite app_nil_l in Hs.
    destruct (for_subcategories env wl rs (wl_subcategories wl) s0) as [o s1].
    cbn [fst snd] in *. exists units. split; [done|].
    destruct o as [|e|]; cbn [fst snd log_stats log emit].
    - by rewrite Hs.
    - split; [|done]. destruct (bool_decide (e = KeyboardInterrupt)); [|by rewrite Hs].
      by rewrite save_checkpoint_stats, Hs.
    - split; [by rewrite Hs|done]. }
  split; [exact H|]. intros -> Hfin.
  destruct H as (units & _ & Hall & Hp). rewrite (Hp Hfin) in Hall.
  rewrite (summary_rows_names _ _ _ Hall). apply plan_fresh_units.
Qed.

Lemma summary_has_a_row_per_brand_witness :
  Forall2 (summary_row shoes_worklist)
    [("Shoes", "Nike", SkipBrand); ("Shoes", "Adidas", Proceed 20 2 true)]
    (log_stats resumed_run.2).
Proof.
  destruct (summary_has_a_row_per_brand (example_env shoes_worklist provider_empty) "S1"
              (Some adidas_checkpoint) (initial_state ∅ ∅) shoes_worklist
              eq_refl eq_refl eq_refl) as [(units & _ & Hall & Hfin) _].
  assert (Hf : (crawl (example_env shoes_worklist provider_empty) "S1"
                  (Some adidas_checkpoint) (initial_state ∅ ∅)).1 = Finished)
    by (by vm_compute).
  rewrite (Hfin Hf) in Hall. exact Hall.
Defined.

End SummaryRowsProperties.

(** ** Outage and fault-free runs *)

Section Outage.

Variable env : Env.
Hypothesis Hdown : forall n, db_conn env n <> ExecOk.

Lemma nothing_stored_refl s : nothing_stored s s.
Proof. exists []. by rewrite app_nil_r. Qed.

Lemma nothing_stored_trans s1 s2 s3 :
  nothing_stored s1 s2 -> nothing_stored s2 s3 -> nothing_stored s1 s3.
Proof.
  intros (evs1 & Ht1 & Hc1 & Hd1) (evs2 & Ht2 & Hc2 & Hd2). exists (evs1 ++ evs2)%list.
  rewrite count_saved_app. split; [by rewrite Ht2, Ht1, app_assoc|]. split; [lia|congruence].
Qed.

Lemma nothing_stored_emit e s : is_plain e -> nothing_stored s (emit e s).
Proof. intros He. exists [e]. split; [done|]. split; [by apply count_saved_other|done]. Qed.

Lemma nothing_stored_same s s' :
  trace s' = trace s -> db s' = db s -> nothing_stored s s'.
Proof. intros Ht Hd. exists []. by rewrite app_nil_r. Qed.

Lemma nothing_stored_save_checkpoint site c s :
  nothing_stored s (save_checkpoint env site c s).
Proof.
  destruct (save_checkpoint_rest env site c s) as (logs & Hlogs & Ht & Hd & _).
  exists (EvSaveCheckpoint site c :: logs). split; [done|]. split; [|done].
  rewrite count_saved_cons, (count_saved_logs _ Hlogs). done.
Qed.

Lemma nothing_stored_save_step category subcategory brand clean l s :
  nothing_stored s (save_step env category subcategory brand clean l s).2.
Proof.
  unfold save_step. pose proof (Hdown (n_db_calls s)) as Hn.
  destruct (db_conn env (n_db_calls s)); [| |done]; cbn [save_url snd];
    by exists [EvSaveUrl subcategory brand clean false].
Qed.

Lemma crawl_nothing_stored sheet rs s : nothing_stored s (crawl env sheet rs s).2.
Proof.
  apply (crawl_keeps env nothing_stored (fun _ _ _ => True));
    try solve [intros; first [by apply nothing_stored_emit | by apply nothing_stored_same]].
  - apply nothing_stored_trans.
  - apply nothing_stored_save_checkpoint.
  - intros. apply nothing_stored_save_step.
  - done.
Qed.

End Outage.

Section OutageProperties.

(** X21. With the database out of reach the crawl still runs, and stores
    nothing: the table is as it was, no [save_url] call returns [True], and
    the run total and every count of the summary stay at 0. *)
Theorem database_outage_stores_nothing (env : Env) (sheet : string)
    (rs : option Checkpoint) (s : State) :
  (forall n, db_conn env n <> ExecOk) ->
  let s' := (crawl env sheet rs s).2 in
  db s' = db s /\
  (exists evs, trace s' = (trace s ++ evs)%list /\ count_saved evs = 0) /\
  (forall wl, load_subcategories_from_excel env sheet = Some wl ->
     credentials env = true ->
     init_db (db_conn env (n_db_calls s)) = Return () ->
     total_urls_found s' = 0 /\ sum_urls (log_stats s') = 0).
Proof.
  intros Hdown. cbv zeta.
  destruct (crawl_nothing_stored env Hdown sheet rs s) as (evs & Ht & Hc & Hd).
  split; [done|]. split; [by exists evs|].
  intros wl Hwl Hcr Hi.
  destruct (crawl_summary env sheet rs s wl Hwl Hcr Hi) as (evs' & Ht' & Hn & Hs & _).
  rewrite Ht in Ht'. apply app_inv_head in Ht'. subst evs'. split; lia.
Qed.

Lemma database_outage_stores_nothing_witness :
  db (crawl db_down_env "S1" None (initial_state ∅ ∅)).2 = ∅ /\
  total_urls_found (crawl db_down_env "S1" None (initial_state ∅ ∅)).2 = 0.
Proof.
  destruct (database_outage_stores_nothing db_down_env "S1" None (initial_state ∅ ∅))
    as (Hd & _ & H); [done|].
  split; [exact Hd|]. by destruct (H shoes_worklist eq_refl eq_refl eq_refl).
Defined.

End OutageProperties.

Section FaultFree.

Variable env : Env.
Hypothesis Hsound : forall n, ck_fault env n = None.

Lemma last_save_app a b :
  last_save (a ++ b) = match last_save b with Some c => Some c | None => last_save a end.
Proof.
  unfold last_save. rewrite foldl_app. generalize (foldl (fun acc e =>
    match e with EvSaveCheckpoint _ c => Some c | _ => acc end) None a).
  induction b as [|e b IH] using rev_ind; intros o; [by destruct o|].
  rewrite !foldl_app. cbn [foldl]. destruct e; try apply IH; done.
Qed.

Lemma ffs_refl s : file_follows_saves env s s.
Proof. exists []. by rewrite app_nil_r. Qed.

Lemma ffs_trans s1 s2 s3 :
  file_follows_saves env s1 s2 -> file_follows_saves env s2 s3 ->
  file_follows_saves env s1 s3.
Proof.
  intros (evs1 & Ht1 & H1) (evs2 & Ht2 & H2). exists (evs1 ++ evs2)%list.
  split; [by rewrite Ht2, Ht1, app_assoc|]. rewrite last_save_app, H2.
  by destruct (last_save evs2).
Qed.

Lemma ffs_emit e s : is_plain e -> file_follows_saves env s (emit e s).
Proof. intros He. exists [e]. split; [done|]. by destruct e. Qed.

Lemma ffs_same s s' :
  trace s' = trace s -> fs s' = fs s -> file_follows_saves env s s'.
Proof. intros Ht Hf. exists []. rewrite app_nil_r, Hf. done. Qed.

Lemma ffs_save_checkpoint site c s : file_follows_saves env s (save_checkpoint env site c s).
Proof.
  unfold save_checkpoint, save_checkpoint_result, write_checkpoint. rewrite Hsound.
  cbn [snd]. exists [EvSaveCheckpoint site c]. split; [done|].
  cbn [fs file_saved last_save foldl]. apply save_checkpoint_ops_complete.
Qed.

Lemma ffs_save_step category subcategory brand clean l s :
  file_follows_saves env s (save_step env category subcategory brand clean l s).2.
Proof.
  unfold save_step.
  destruct (db_conn env (n_db_calls s)); cbn [save_url snd];
    (eexists [_]; split; [reflexivity|done]).
Qed.

Lemma main_file_follows_saves s : file_follows_saves env s (main env s).2.
Proof.
  apply (main_keeps env (file_follows_saves env) (fun _ _ _ => True));
    try solve [intros; first [by apply ffs_emit | by apply ffs_same]].
  - apply ffs_trans.
  - apply ffs_save_checkpoint.
  - intros. apply ffs_save_step.
  - done.
Qed.

End FaultFree.

Section FaultFreeProperties.

(** X22. When no save of a run meets a fault, the checkpoint file holds at the
    end the complete record of the last save of the run; a run that saves
    nothing leaves the file as it was. *)
Theorem fault_free_run_keeps_last_save_on_disk (env : Env) (s : State) :
  (forall n, ck_fault env n = None) ->
  exists evs, trace (main env s).2 = (trace s ++ evs)%list /\
    fs (main env s).2 !! CHECKPOINT_FILE =
      match last_save evs with
      | Some c => Some (join (json_dump env c))
      | None => fs s !! CHECKPOINT_FILE
      end.
Proof. intros Hsound. by apply main_file_follows_saves. Qed.

Lemma fault_free_run_keeps_last_save_on_disk_witness :
  exists evs,
    trace (main (example_env one_brand_worklist provider_empty) (initial_state ∅ ∅)).2 = evs /\
    fs (main (example_env one_brand_worklist provider_empty) (initial_state ∅ ∅)).2
      !! CHECKPOINT_FILE =
      match last_save evs with
      | Some c => Some "{}"
      | None => None
      end.
Proof.
  destruct (fault_free_run_keeps_last_save_on_disk
              (example_env one_brand_worklist provider_empty) (initial_state ∅ ∅))
    as (evs & Ht & Hf); [done|].
  exists evs. split; [exact Ht|]. rewrite Hf. by destruct (last_save evs).
Defined.

End FaultFreeProperties.

(** ** The units of a finished crawl *)

Section FinishedRun.

Variable env : Env.
Variable wl : WorkList.
Variable rs : option Checkpoint.

Lemma for_subcategories_finished todo : forall s,
  (skip_until_resume s = true -> is_Some rs) ->
  (for_subcategories env wl rs todo s).1 = Finished ->
  exists evs, trace (for_subcategories env wl rs todo s).2 = (trace s ++ evs)%list /\
    run_io true (plan rs (skip_until_resume s) todo) (ck s) (io evs)
           (ck (for_subcategories env wl rs todo s).2).
Proof.
  induction todo as [|[x brands] rest IH]; intros s Hinv; cbn [for_subcategories plan].
  { intros _. exists []. rewrite app_nil_r. split; [done|]. constructor. }
  assert (Hhere :
    (match for_brands env wl rs x brands brands s with
     | (Finished, s0) => for_subcategories env wl rs rest s0
     | stop => stop
     end).1 = Finished ->
    exists evs,
      trace (match for_brands env wl rs x brands brands s with
             | (Finished, s0) => for_subcategories env wl rs rest s0
             | stop => stop
             end).2 = (trace s ++ evs)%list /\
      run_io true
        (let '(p, f) := plan_brands rs (skip_until_resume s) x brands brands in
         (p ++ plan rs f rest)%list)
        (ck s) (io evs)
        (ck (match for_brands env wl rs x brands brands s with
             | (Finished, s0) => for_subcategories env wl rs rest s0
             | stop => stop
             end).2)).
  { destruct (for_brands_io env wl rs x brands brands s) as (evs & Ht & H).
    pose proof (plan_brands_flag rs x brands brands (skip_until_resume s)) as Hflag.
    destruct (plan_brands rs (skip_until_resume s) x brands brands) as [p f].
    destruct (for_brands env wl rs x brands brands s) as [o s1].
    cbn [fst snd] in Ht, H, Hflag.
    destruct H as [(-> & Hr & Hsk) | (-> & Hr)]; [|done].
    intros Hfin. destruct (IH s1) as (evs1 & Ht1 & Hr1); [|done|].
    { rewrite Hsk. intros Hf. apply Hinv, Hflag, Hf. }
    rewrite Hsk in Hr1. exists (evs ++ evs1)%list.
    split; [by rewrite Ht1, Ht, app_assoc|]. rewrite io_app. by eapply run_io_app. }
  destruct (skip_until_resume s) eqn:Hskip; [|exact Hhere].
  destruct (Hinv eq_refl) as [c ->]. cbn [mbind option_bind].
  destruct (bool_decide (Some x = ck_subcategory c)); cbn [negb andb]; [exact Hhere|].
  intros Hfin. destruct (IH (log (LogSkipSubcategory x) s)) as (evs1 & Ht1 & Hr1);
    [by eauto|done|].
  cbn [skip_until_resume ck trace log emit] in Hr1, Ht1. rewrite Hskip in Hr1.
  exists (EvLog (LogSkipSubcategory x) :: evs1). split; [by rewrite Ht1, <- app_assoc|done].
Qed.

Lemma crawl_finished_io sheet s :
  load_subcategories_from_excel env sheet = Some wl ->
  credentials env = true ->
  init_db (db_conn env (n_db_calls s)) = Return () ->
  (crawl env sheet rs s).1 = Finished ->
  exists evs c_out, trace (crawl env sheet rs s).2 = (trace s ++ evs)%list /\
    run_io true (plan rs (bool_decide (is_Some rs)) (wl_subcategories wl))
           (initial_ck sheet (wl_category wl) rs) (io evs) c_out.
Proof.
  intros Hwl Hc Hi. unfold crawl. rewrite Hwl, Hc, Hi. cbn [negb].
  set (s0 := set_skip _ _).
  pose proof (for_subcategories_finished (wl_subcategories wl) s0) as Hf.
  destruct (for_subcategories env wl rs (wl_subcategories wl) s0) as [o s1].
  cbn [fst snd] in Hf. destruct o as [|e|]; [|done|done]. intros _.
  destruct Hf as (evs & Ht & Hr); [|done|].
  { cbn. intros Hb. by apply bool_decide_eq_true_1 in Hb. }
  exists (evs ++ [EvLog (LogTotalFound (total_urls_found s1))])%list, (ck s1).
  split; [cbn [snd trace log emit]; by rewrite Ht, app_assoc|].
  rewrite io_app. cbn [io List.filter is_io]. by rewrite app_nil_r.
Qed.

End FinishedRun.

Section Covered.

Lemma run_io_crawled complete p c evs c' :
  run_io complete p c evs c' -> complete = true -> NoDup (fst <$> p) ->
  forall x y d, (x, y, d) ∈ p ->
    match d with
    | Proceed st _ _ => resumed_requests st (unit_requests x y evs)
    | _ => unit_requests x y evs = []
    end.
Proof.
  induction 1 as [c|x' y' st pn resumed p c evs c' Hu
                  |b x' y' d' p c evs c1 evs1 c2 Hu Hr IH];
    intros Hb Hnd x y d Hin; [by apply elem_of_nil in Hin|done|].
  cbn [fmap list_fmap fst] in Hnd. apply NoDup_cons in Hnd as [Hhead Hnd].
  rewrite unit_requests_app.
  destruct (unit_io_requests _ _ _ _ _ _ Hu) as [Hother Hthis].
  apply elem_of_cons in Hin as [[= -> -> ->] | Hin].
  - rewrite (run_io_not_crawled _ _ _ _ _ x' y' Hr), app_nil_r.
    + destruct d'; try done.
    + intros d0 Hd0. destruct Hhead. apply list_elem_of_fmap. by exists (x', y', d0).
  - rewrite Hother; [by apply IH|].
    intros [= <- <-]. apply Hhead. apply list_elem_of_fmap. by exists (x, y, d).
Qed.

Lemma elem_of_all_units subcategories x y :
  (x, y) ∈ all_units subcategories <-> is_unit subcategories x y.
Proof.
  unfold all_units, is_unit. rewrite list_elem_of_In, in_flat_map. split.
  - intros ([x0 brands] & Hin & Hy). apply list_elem_of_In in Hin, Hy.
    apply list_elem_of_fmap in Hy as (b & [= -> ->] & Hb). by exists brands.
  - intros (brands & Hin & Hy). exists (x, brands). rewrite <- !list_elem_of_In.
    split; [done|]. apply list_elem_of_fmap. by exists y.
Qed.

Lemma NoDup_all_units subcategories :
  wf_subcategories subcategories -> NoDup (all_units subcategories).
Proof.
  induction subcategories as [|[x brands] rest IH]; intros [Hk Hb]; [constructor|].
  cbn [fmap list_fmap fst] in Hk. apply NoDup_cons in Hk as [Hx Hk].
  apply Forall_cons in Hb as [Hbrands Hb]. cbn [snd] in Hbrands.
  change (all_units ((x, brands) :: rest))
    with ((pair x <$> brands) ++ all_units rest)%list.
  apply NoDup_app. split; [|split; [|by apply IH]].
  - apply NoDup_fmap_2; [|done]. by intros ? ? [= ->].
  - intros [x' y'] (b & [= -> ->] & _)%list_elem_of_fmap (bs & Hin & _)%elem_of_all_units.
    apply Hx. apply list_elem_of_fmap. by exists (x, bs).
Qed.

Lemma plan_brands_names rs x brands todo : forall skip,
  fst <$> (plan_brands rs skip x brands todo).1 = pair x <$> todo.
Proof.
  induction todo as [|b rest IH]; intros skip; [done|]. cbn [plan_brands].
  specialize (IH (flag_after (resume_logic rs skip x b brands) skip)).
  destruct (plan_brands rs _ x brands rest) as [p f]. cbn [fst snd] in *.
  by rewrite !fmap_cons, IH.
Qed.

Lemma plan_names_sublist rs subcategories : forall skip,
  (fst <$> plan rs skip subcategories) `sublist_of` all_units subcategories.
Proof.
  induction subcategories as [|[x brands] rest IH]; intros skip; [done|].
  cbn [plan]. change (all_units ((x, brands) :: rest))
    with ((pair x <$> brands) ++ all_units rest)%list.
  destruct (skip && _).
  - apply sublist_inserts_l, IH.
  - pose proof (plan_brands_names rs x brands brands skip) as Hn.
    destruct (plan_brands rs skip x brands brands) as [p f]. cbn [fst] in Hn.
    rewrite fmap_app, Hn. apply sublist_app; [done|apply IH].
Qed.

Lemma plan_NoDup rs skip subcategories :
  wf_subcategories subcategories -> NoDup (fst <$> plan rs skip subcategories).
Proof.
  intros Hwf. eapply sublist_NoDup; [by apply NoDup_all_units|apply plan_names_sublist].
Qed.

Lemma plan_fresh_elem rs subcategories x y :
  is_unit subcategories x y -> (x, y, Proceed 0 0 false) ∈ plan rs false subcategories.
Proof.
  induction subcategories as [|[x0 brands] rest IH]; intros (bs & Hin & Hy);
    [by apply elem_of_nil in Hin|].
  cbn [plan andb]. rewrite plan_brands_fresh. apply elem_of_app.
  apply elem_of_cons in Hin as [[= -> ->] | Hin].
  - left. apply list_elem_of_fmap. by exists y.
  - right. apply IH. by exists bs.
Qed.

Lemma wf_unit_head x brands rest y :
  wf_subcategories ((x, brands) :: rest) -> is_unit ((x, brands) :: rest) x y -> y ∈ brands.
Proof.
  intros [Hk _] (bs & [[= ->] | Hin]%elem_of_cons & Hy); [done|].
  cbn [fmap list_fmap fst] in Hk. apply NoDup_cons in Hk as [Hx _].
  destruct Hx. apply list_elem_of_fmap. by exists (x, bs).
Qed.

Lemma plan_resume_elem c S B subcategories :
  ck_subcategory c = Some S -> ck_brand c = Some B ->
  wf_subcategories subcategories -> is_unit subcategories S B ->
  forall x y, is_unit subcategories x y ->
    (x, y) ∉ units_before subcategories S B ->
    (x, y, if bool_decide ((x, y) = (S, B))
           then Proceed (ck_start c) (ck_page_num c) true
           else Proceed 0 0 false) ∈ plan (Some c) true subcategories.
Proof.
  intros HS HB. induction subcategories as [|[x0 brands] rest IH];
    intros Hwf HSB x y Hu Hnb; [by destruct HSB as (? & ?%elem_of_nil & _)|].
  pose proof Hwf as [Hk Hb]. cbn [fmap list_fmap fst] in Hk.
  apply NoDup_cons in Hk as [Hx0 Hk]. apply Forall_cons in Hb as [Hbrands Hb].
  cbn [snd] in Hbrands.
  cbn [plan units_before mbind option_bind] in *. rewrite HS.
  destruct (decide (x0 = S)) as [->|Hne].
  - rewrite (bool_decide_eq_true_2 (S = S)) in Hnb by done.
    rewrite (bool_decide_eq_true_2 (Some S = Some S)) by done. cbn [negb andb].
    pose proof (wf_unit_head S brands rest B Hwf HSB) as HBin.
    apply list_elem_of_lookup in HBin as [j HBj].
    pose proof (list_index_NoDup B brands j Hbrands HBj) as Hj.
    rewrite Hj in Hnb.
    rewrite <- (drop_0 brands) at 2.
    rewrite (plan_brands_resume c S B HS HB brands j Hbrands Hj j 0%nat) by done.
    rewrite drop_0, <- app_assoc. cbn [app].
    destruct (decide (x = S)) as [->|Hxne].
    + pose proof (wf_unit_head S brands rest y Hwf Hu) as Hyin.
      rewrite <- (take_drop_middle brands j B HBj) in Hyin.
      apply elem_of_app in Hyin as [Hy | [-> | Hy]%elem_of_cons].
      * destruct Hnb. apply list_elem_of_fmap. by exists y.
      * rewrite bool_decide_eq_true_2 by done.
        apply elem_of_app. right. by left.
      * rewrite bool_decide_eq_false_2.
        -- apply elem_of_app. right. right. apply elem_of_app. left.
           apply list_elem_of_fmap. by exists y.
        -- intros [= ->]. by apply (NoDup_after_index brands j B).
    + rewrite bool_decide_eq_false_2 by congruence.
      apply elem_of_app. right. right. apply elem_of_app. right.
      apply plan_fresh_elem. destruct Hu as (bs & [[= -> _] | Hin]%elem_of_cons & Hy);
        [done|by exists bs].
  - rewrite (bool_decide_eq_false_2 (x0 = S)) in Hnb by done.
    rewrite (bool_decide_eq_false_2 (Some x0 = Some S)) by congruence. cbn [negb andb].
    apply not_elem_of_app in Hnb as [Hn1 Hn2].
    assert (Hrest : is_unit rest x y).
    { destruct Hu as (bs & [[= -> ->] | Hin]%elem_of_cons & Hy); [|by exists bs].
      destruct Hn1. apply list_elem_of_fmap. by exists y. }
    apply IH; [done| |done|done].
    destruct HSB as (bs & [[= -> _] | Hin]%elem_of_cons & Hy); [done|by exists bs].
Qed.

End Covered.

(** X23. A crawl of a sheet that returns normally has made requests for
    every unit it had to crawl: without a checkpoint for every unit of the
    sheet, with a checkpoint at a unit of the sheet for that unit and every
    later one.  Each such unit gets the probe at offset 0 and then page
    requests only, starting (if there is one) at the checkpoint's offset for
    the checkpoint's unit and at offset 0 for the others. *)
Theorem finished_crawl_covers_remaining_units env sheet wl rs s :
  load_subcategories_from_excel env sheet = Some wl ->
  credentials env = true ->
  init_db (db_conn env (n_db_calls s)) = Return () ->
  wf_subcategories (wl_subcategories wl) ->
  (crawl env sheet rs s).1 = Finished ->
  exists evs, trace (crawl env sheet rs s).2 = (trace s ++ evs)%list /\
    covers_plan rs (wl_subcategories wl) evs.
Proof.
  intros Hwl Hc Hi Hwf Hfin.
  destruct (crawl_finished_io env wl rs sheet s Hwl Hc Hi Hfin) as (evs & c_out & Ht & Hr).
  exists evs. split; [done|].
  pose proof (run_io_crawled _ _ _ _ _ Hr eq_refl (plan_NoDup _ _ _ Hwf)) as Hcov.
  destruct rs as [c|]; cbn [covers_plan].
  - intros S B HS HB HSB x y Hu Hnb.
    pose proof (plan_resume_elem c S B _ HS HB Hwf HSB x y Hu Hnb) as Hin.
    rewrite (bool_decide_eq_true_2 (is_Some (Some c))) in Hcov by eauto.
    specialize (Hcov x y _ Hin). rewrite unit_requests_io in Hcov.
    by destruct (bool_decide ((x, y) = (S, B))).
  - intros x y Hu.
    rewrite (bool_decide_eq_false_2 (is_Some None)) in Hcov by (by intros [? ?]).
    specialize (Hcov x y _ (plan_fresh_elem None _ x y Hu)).
    by rewrite unit_requests_io in Hcov.
Qed.

Lemma finished_crawl_covers_remaining_units_witness :
  resumed_requests 0
    (unit_requests "Shoes" "Adidas"
       (trace (crawl (example_env shoes_worklist provider_empty) "S1"
                     (Some nike_checkpoint) (initial_state ∅ ∅)).2)).
Proof.
  destruct (finished_crawl_covers_remaining_units
              (example_env shoes_worklist provider_empty) "S1" shoes_worklist
              (Some nike_checkpoint) (initial_state ∅ ∅) eq_refl eq_refl eq_refl)
    as (evs & Ht & H).
  { unfold wf_subcategories. apply (bool_decide_unpack _). by vm_compute. }
  { by vm_compute. }
  change (trace (initial_state ∅ ∅)) with (@nil Event) in Ht.
  rewrite app_nil_l in Ht. rewrite Ht.
  apply (H "Shoes" "Nike" eq_refl eq_refl).
  - exists ["Nike"; "Adidas"]. split; [by left|by left].
  - exists ["Nike"; "Adidas"]. split; [by left|right; by left].
  - apply (bool_decide_unpack _). by vm_compute.
Defined.
